(** * GrantReady-Analytics: grant metrics and compliance evaluation

    A shallow embedding of the computational core of the repository:

    - [models/Grant.ts]: the [Grant] entity and its mutators;
    - the class [GrantMetrics]: [calculateProgress], [calculateRiskLevel]
      and [calculateKPIAchievement];
    - the class [ComplianceMetrics]: [assessCompliance],
      [evaluateRequirement] and the four rule evaluators;

    followed by the properties of the specification that concern them.

    JavaScript numbers are IEEE 754 binary64 values; they are modelled by
    [spec_float] with precision 53 and maximal exponent 1024, so NaN, the
    infinities, the two zeros and rounding are those of the program. *)

From Stdlib Require Import ZArith Bool Lia Sorted.
From Stdlib Require Import Floats.SpecFloat.
From stdpp Require Import base option list strings gmap.

Local Open Scope Z_scope.

(* ===================================================================== *)
(** ** JavaScript numbers *)
(* ===================================================================== *)

Module JS.

Definition number := spec_float.

Definition prec : Z := 53.
Definition emax : Z := 1024.

Definition NaN : number := S754_nan.
Definition Infinity : number := S754_infinity false.
Definition pos_zero : number := S754_zero false.
Definition neg_zero : number := S754_zero true.

(** The number nearest to an integer (exact below [2^53]). *)
Definition of_Z (z : Z) : number := binary_normalize prec emax z 0 false.
Definition of_nat (n : nat) : number := of_Z (Z.of_nat n).

Definition add : number -> number -> number := SFadd prec emax.
Definition sub : number -> number -> number := SFsub prec emax.
Definition mul : number -> number -> number := SFmul prec emax.
Definition div : number -> number -> number := SFdiv prec emax.

(** [a < b], [a > b] and [a === b] on numbers; all are false on NaN. *)
Definition lt (a b : number) : bool := SFltb a b.
Definition gt (a b : number) : bool := SFltb b a.
Definition le (a b : number) : bool := SFleb a b.
Definition strict_eq (a b : number) : bool := SFeqb a b.

(** A decimal literal [n/d] of the source text denotes the number nearest
    to the quotient; [n] and [d] are small, so the rounded division gives
    it. *)
Definition literal (n d : Z) : number := div (of_Z n) (of_Z d).

Definition is_NaN (x : number) : bool :=
  match x with S754_nan => true | _ => false end.

Definition is_infinite (x : number) : bool :=
  match x with S754_infinity _ => true | _ => false end.

(** [Number.isFinite]. *)
Definition is_finite (x : number) : bool :=
  match x with S754_zero _ | S754_finite _ _ _ => true | _ => false end.

(** [ToBoolean] on a number: the zeros and NaN are falsy. *)
Definition truthy (x : number) : bool :=
  match x with S754_zero _ | S754_nan => false | _ => true end.

(** [v || d] where [v] is a number or [undefined]. *)
Definition or_default (v : option number) (d : number) : number :=
  match v with
  | Some x => if truthy x then x else d
  | None => d
  end.

(** [Math.abs]. *)
Definition Math_abs : number -> number := SFabs.

(** [Math.max] and [Math.min] of two numbers: NaN is contagious and
    [-0] is below [+0]. *)
Definition Math_max (x y : number) : number :=
  match x, y with
  | S754_nan, _ | _, S754_nan => S754_nan
  | S754_zero sx, S754_zero sy => S754_zero (sx && sy)
  | _, _ => if SFltb x y then y else x
  end.

Definition Math_min (x y : number) : number :=
  match x, y with
  | S754_nan, _ | _, S754_nan => S754_nan
  | S754_zero sx, S754_zero sy => S754_zero (sx || sy)
  | _, _ => if SFltb y x then y else x
  end.

(** [Math.ceil]: the least integral number not below [x]; a result that
    is zero keeps the sign of [x]. *)
Definition Math_ceil (x : number) : number :=
  match x with
  | S754_finite s m e =>
      if 0 <=? e then x
      else
        let d := 2 ^ (- e) in
        let q := Z.pos m / d in
        let r := Z.pos m mod d in
        if s then binary_normalize prec emax (- q) 0 true
        else binary_normalize prec emax (if r =? 0 then q else q + 1) 0 false
  | _ => x
  end.

(** Well-formed binary64 values. *)
Definition valid (x : number) : bool := valid_binary prec emax x.

End JS.

(* ===================================================================== *)
(** ** Time: [Date] values and the system clock *)
(* ===================================================================== *)

(** A (valid) [Date] is its time value, the milliseconds since the epoch.
    Each evaluation of [new Date()] reads the clock; the n-th reading of a
    run is [clk n].  Code that reads the clock is written in the state
    monad [Eff], whose state is the number of readings made so far. *)

Definition Date := Z.
Definition Clock := nat -> Date.

Definition Eff (A : Type) : Type := Clock -> nat -> A * nat.

Definition ret {A} (a : A) : Eff A := fun _ n => (a, n).

Definition bind {A B} (c : Eff A) (k : A -> Eff B) : Eff B :=
  fun clk n => let '(a, n') := c clk n in k a clk n'.

Definition new_Date : Eff Date := fun clk n => (clk n, S n).

Declare Scope eff_scope.
Delimit Scope eff_scope with eff.
Notation "x <- c ;; k" := (bind c (fun x => k))
  (at level 100, c at next level, right associativity) : eff_scope.
Local Open Scope eff_scope.

(** [d.getTime()]. *)
Definition getTime (d : Date) : JS.number := JS.of_Z d.

(** Milliseconds per day, [1000 * 60 * 60 * 24]. *)
Definition ms_per_day : JS.number :=
  JS.mul (JS.mul (JS.mul (JS.of_Z 1000) (JS.of_Z 60)) (JS.of_Z 60)) (JS.of_Z 24).

(* ===================================================================== *)
(** ** Data model ([models/Grant.ts]) *)
(* ===================================================================== *)

Inductive GrantStatus :=
| draft | submitted | under_review | approved | active
| suspended | completed | terminated | closed.

Inductive MilestoneStatus :=
| ms_pending | ms_in_progress | ms_completed | ms_delayed.

Inductive ExpenditureStatus := exp_pending | exp_approved | exp_rejected.

Inductive DocumentStatus :=
| doc_pending | doc_reviewed | doc_approved | doc_rejected.

Inductive ReportStatus := rep_draft | rep_submitted | rep_reviewed.

Inductive Severity := high | medium | low.

(** [ComplianceRequirement.type]; [other_type] stands for a value outside
    the declared union, which reaches the [default] branch of the
    evaluator. *)
Inductive RequirementType :=
| documentation | financial | reporting | performance
| other_type (tag : string).

Module Milestone.
Record t := {
  id : string;
  name : string;
  dueDate : Date;
  completionDate : option Date;
  status : MilestoneStatus;
  dependencies : option (list string);
}.
End Milestone.

Module Expenditure.
Record t := {
  id : string;
  date : Date;
  category : string;
  amount : JS.number;
  status : ExpenditureStatus;
}.
End Expenditure.

Module Document.
Record t := {
  id : string;
  type : string;
  name : string;
  uploadDate : Date;
  status : DocumentStatus;
}.
End Document.

Module ReportSubmission.
Record t := {
  id : string;
  type : string;
  period : string;
  submissionDate : Date;
  status : ReportStatus;
}.
End ReportSubmission.

(** [models/KPI.ts]: the fields the calculators read. *)
Module KPI.
Record t := {
  name : string;
  targetValue : JS.number;
  currentValue : JS.number;
}.
End KPI.

(** The parameter bag [parameters?: Record<string, any>] of a requirement,
    with one optional entry per key the evaluator looks up. *)
Module Parameters.
Record t := {
  requiredDocuments : option (list string);
  maxUtilizationRate : option JS.number;
  reportType : option string;
  minAchievementRate : option JS.number;
}.
End Parameters.

Module ComplianceRequirement.
Record t := {
  id : string;
  name : string;
  description : string;
  type : RequirementType;
  severity : Severity;
  applicableFrom : option Date;
  dueDate : option Date;
  parameters : option Parameters.t;
}.
End ComplianceRequirement.

(** [changes] of a history entry; the only producer records a status
    transition, [{ status: { from, to } }]. *)
Inductive Changes :=
| status_change (from to : GrantStatus).

Module HistoryEntry.
Record t := {
  date : Date;
  action : string;
  user : string;
  changes : Changes;
}.
End HistoryEntry.

(** The [Grant] class: the fields that its methods and the two calculators
    read or write, and its three mutators.  A value of [t] is the state of
    one grant with the contents of its arrays; it describes a grant whose
    arrays are its own.  The constructor keeps the arrays it is given, so
    an array may also be shared; [Heap], after this module, has the
    mutators on arrays that are shared objects. *)
Module Grant.

Record t := {
  id : string;
  status : GrantStatus;
  totalFunding : JS.number;
  startDate : Date;
  endDate : Date;
  milestones : list Milestone.t;
  expenditures : list Expenditure.t;
  kpis : list KPI.t;
  documents : list Document.t;
  reports : list ReportSubmission.t;
  updatedBy : string;
  updatedAt : Date;
  version : JS.number;
  history : list HistoryEntry.t;
}.

(** [this.version++] *)
Definition increment (v : JS.number) : JS.number := JS.add v (JS.of_Z 1).

Definition addMilestone (milestone : Milestone.t) (this : t) : Eff t :=
  now <- new_Date ;;
  ret {| id := id this; status := status this;
         totalFunding := totalFunding this;
         startDate := startDate this; endDate := endDate this;
         milestones := milestones this ++ [milestone];
         expenditures := expenditures this; kpis := kpis this;
         documents := documents this; reports := reports this;
         updatedBy := updatedBy this;
         updatedAt := now;
         version := increment (version this);
         history := history this |}.

Definition addExpenditure (expenditure : Expenditure.t) (this : t) : Eff t :=
  now <- new_Date ;;
  ret {| id := id this; status := status this;
         totalFunding := totalFunding this;
         startDate := startDate this; endDate := endDate this;
         milestones := milestones this;
         expenditures := expenditures this ++ [expenditure];
         kpis := kpis this;
         documents := documents this; reports := reports this;
         updatedBy := updatedBy this;
         updatedAt := now;
         version := increment (version this);
         history := history this |}.

Definition updateStatus (newStatus : GrantStatus) (user : string) (this : t)
  : Eff t :=
  let oldStatus := status this in
  now <- new_Date ;;
  stamp <- new_Date ;;
  ret {| id := id this; status := newStatus;
         totalFunding := totalFunding this;
         startDate := startDate this; endDate := endDate this;
         milestones := milestones this;
         expenditures := expenditures this; kpis := kpis this;
         documents := documents this; reports := reports this;
         updatedBy := user;
         updatedAt := now;
         version := increment (version this);
         history := history this ++
           [ {| HistoryEntry.date := stamp;
                HistoryEntry.action := "STATUS_CHANGE";
                HistoryEntry.user := user;
                HistoryEntry.changes := status_change oldStatus newStatus |} ] |}.

(** *** Read-only methods of [Grant] *)

Definition milestone_completed (m : Milestone.t) : bool :=
  match Milestone.status m with ms_completed => true | _ => false end.

Definition expenditure_approved (e : Expenditure.t) : bool :=
  match Expenditure.status e with exp_approved => true | _ => false end.

Definition getProgress (this : t) : JS.number :=
  if (length (milestones this) =? 0)%nat then JS.of_Z 0
  else
    let completed := length (List.filter milestone_completed (milestones this)) in
    JS.div (JS.of_nat completed) (JS.of_nat (length (milestones this))).

Definition getFinancialUtilization (this : t) : JS.number :=
  if JS.strict_eq (totalFunding this) (JS.of_Z 0) then JS.of_Z 0
  else
    let spent :=
      fold_left (fun sum exp => JS.add sum (Expenditure.amount exp))
                (List.filter expenditure_approved (expenditures this))
                (JS.of_Z 0) in
    JS.div spent (totalFunding this).

Definition getDaysRemaining (this : t) : Eff JS.number :=
  now <- new_Date ;;
  let diff := JS.sub (getTime (endDate this)) (getTime now) in
  ret (JS.Math_ceil (JS.div diff ms_per_day)).

Definition isAtRisk (this : t) : Eff bool :=
  let progress := getProgress this in
  let utilization := getFinancialUtilization this in
  daysRemaining <- getDaysRemaining this ;;
  let totalDays :=
    JS.Math_ceil (JS.div (JS.sub (getTime (endDate this)) (getTime (startDate this)))
                         ms_per_day) in
  let timelineProgress := JS.sub (JS.of_Z 1) (JS.div daysRemaining totalDays) in
  ret (JS.gt (JS.Math_abs (JS.sub progress timelineProgress)) (JS.literal 3 10)
       || JS.gt (JS.Math_abs (JS.sub utilization timelineProgress)) (JS.literal 3 10)).

(** *** The constructor *)

(** [Partial<Grant>]: the argument of the constructor, every field
    optional.  [applicationDate], [awardDate] and [createdAt] are fields
    that [t] does not keep; they are listed because the constructor reads
    the clock for each date that is absent, in the order of the source. *)
Record Data := {
  data_id : option string;
  data_status : option GrantStatus;
  data_totalFunding : option JS.number;
  data_applicationDate : option Date;
  data_awardDate : option Date;
  data_startDate : option Date;
  data_endDate : option Date;
  data_milestones : option (list Milestone.t);
  data_expenditures : option (list Expenditure.t);
  data_kpis : option (list KPI.t);
  data_documents : option (list Document.t);
  data_reports : option (list ReportSubmission.t);
  data_createdAt : option Date;
  data_updatedBy : option string;
  data_updatedAt : option Date;
  data_version : option JS.number;
  data_history : option (list HistoryEntry.t);
}.

(** [value || new Date()]: a [Date] object is truthy, the clock is read
    only when the field is absent. *)
Definition date_or_now (value : option Date) : Eff Date :=
  match value with
  | Some d => ret d
  | None => new_Date
  end.

(** [value || fallback] for strings, status tags and arrays; the only
    falsy string is the empty one, which is what the fallback is. *)
Definition or_else {A} (value : option A) (fallback : A) : A :=
  match value with
  | Some v => v
  | None => fallback
  end.

Definition new (data : Data) : Eff t :=
  _applicationDate <- date_or_now (data_applicationDate data) ;;
  _awardDate <- date_or_now (data_awardDate data) ;;
  startDate' <- date_or_now (data_startDate data) ;;
  endDate' <- date_or_now (data_endDate data) ;;
  _createdAt <- date_or_now (data_createdAt data) ;;
  updatedAt' <- date_or_now (data_updatedAt data) ;;
  ret {| id := or_else (data_id data) "";
         status := or_else (data_status data) draft;
         totalFunding := JS.or_default (data_totalFunding data) (JS.of_Z 0);
         startDate := startDate'; endDate := endDate';
         milestones := or_else (data_milestones data) [];
         expenditures := or_else (data_expenditures data) [];
         kpis := or_else (data_kpis data) [];
         documents := or_else (data_documents data) [];
         reports := or_else (data_reports data) [];
         updatedBy := or_else (data_updatedBy data) "";
         updatedAt := updatedAt';
         version := JS.or_default (data_version data) (JS.of_Z 1);
         history := or_else (data_history data) [] |}.

End Grant.

(** ** Arrays as shared objects *)

(** The constructor stores the array objects of its argument
    ([this.milestones = data.milestones || []]) and the mutators [push] in
    place.  An array that is also held elsewhere (by the caller, by
    another grant, or by another field of the same grant) changes there
    too.  Here an array field is a reference into a store of arrays, and a
    [push] updates the store. *)
Module Heap.

(** What an array may hold: the element types of the six array fields.  A
    shared array can hold elements of several of them. *)
Inductive Item :=
| milestone_item (m : Milestone.t)
| expenditure_item (e : Expenditure.t)
| kpi_item (k : KPI.t)
| document_item (d : Document.t)
| report_item (r : ReportSubmission.t)
| history_item (h : HistoryEntry.t).

(** The array that a reference denotes. *)
Definition array (store : gmap positive (list Item)) (r : positive) : list Item :=
  default [] (store !! r).

(** [r.push(x)] *)
Definition push (r : positive) (x : Item) (store : gmap positive (list Item))
  : gmap positive (list Item) :=
  <[r := array store r ++ [x]]> store.

(** A [Grant] object: scalar fields and references to its arrays. *)
Record t := {
  id : string;
  status : GrantStatus;
  totalFunding : JS.number;
  startDate : Date;
  endDate : Date;
  milestones : positive;
  expenditures : positive;
  kpis : positive;
  documents : positive;
  reports : positive;
  updatedBy : string;
  updatedAt : Date;
  version : JS.number;
  history : positive;
}.

Definition addMilestone (milestone : Milestone.t) (this : t)
  (store : gmap positive (list Item)) : Eff (t * gmap positive (list Item)) :=
  let store' := push (milestones this) (milestone_item milestone) store in
  now <- new_Date ;;
  ret ({| id := id this; status := status this;
          totalFunding := totalFunding this;
          startDate := startDate this; endDate := endDate this;
          milestones := milestones this;
          expenditures := expenditures this; kpis := kpis this;
          documents := documents this; reports := reports this;
          updatedBy := updatedBy this;
          updatedAt := now;
          version := Grant.increment (version this);
          history := history this |}, store').

Definition addExpenditure (expenditure : Expenditure.t) (this : t)
  (store : gmap positive (list Item)) : Eff (t * gmap positive (list Item)) :=
  let store' := push (expenditures this) (expenditure_item expenditure) store in
  now <- new_Date ;;
  ret ({| id := id this; status := status this;
          totalFunding := totalFunding this;
          startDate := startDate this; endDate := endDate this;
          milestones := milestones this;
          expenditures := expenditures this; kpis := kpis this;
          documents := documents this; reports := reports this;
          updatedBy := updatedBy this;
          updatedAt := now;
          version := Grant.increment (version this);
          history := history this |}, store').

Definition updateStatus (newStatus : GrantStatus) (user : string) (this : t)
  (store : gmap positive (list Item)) : Eff (t * gmap positive (list Item)) :=
  let oldStatus := status this in
  now <- new_Date ;;
  stamp <- new_Date ;;
  let entry :=
    {| HistoryEntry.date := stamp;
       HistoryEntry.action := "STATUS_CHANGE";
       HistoryEntry.user := user;
       HistoryEntry.changes := status_change oldStatus newStatus |} in
  ret ({| id := id this; status := newStatus;
          totalFunding := totalFunding this;
          startDate := startDate this; endDate := endDate this;
          milestones := milestones this;
          expenditures := expenditures this; kpis := kpis this;
          documents := documents this; reports := reports this;
          updatedBy := user;
          updatedAt := now;
          version := Grant.increment (version this);
          history := history this |},
       push (history this) (history_item entry) store).

(** The elements of each type in an array. *)
Definition milestones_in (l : list Item) : list Milestone.t :=
  omap (fun x => match x with milestone_item m => Some m | _ => None end) l.
Definition expenditures_in (l : list Item) : list Expenditure.t :=
  omap (fun x => match x with expenditure_item e => Some e | _ => None end) l.
Definition kpis_in (l : list Item) : list KPI.t :=
  omap (fun x => match x with kpi_item k => Some k | _ => None end) l.
Definition documents_in (l : list Item) : list Document.t :=
  omap (fun x => match x with document_item d => Some d | _ => None end) l.
Definition reports_in (l : list Item) : list ReportSubmission.t :=
  omap (fun x => match x with report_item r => Some r | _ => None end) l.
Definition history_in (l : list Item) : list HistoryEntry.t :=
  omap (fun x => match x with history_item h => Some h | _ => None end) l.

(** The state of a grant as [Grant.t] has it: each array field read
    through its reference, with the elements of the field's type. *)
Definition snapshot (this : t) (store : gmap positive (list Item)) : Grant.t :=
  {| Grant.id := id this; Grant.status := status this;
     Grant.totalFunding := totalFunding this;
     Grant.startDate := startDate this; Grant.endDate := endDate this;
     Grant.milestones := milestones_in (array store (milestones this));
     Grant.expenditures := expenditures_in (array store (expenditures this));
     Grant.kpis := kpis_in (array store (kpis this));
     Grant.documents := documents_in (array store (documents this));
     Grant.reports := reports_in (array store (reports this));
     Grant.updatedBy := updatedBy this;
     Grant.updatedAt := updatedAt this;
     Grant.version := version this;
     Grant.history := history_in (array store (history this)) |}.

End Heap.

(** An [async] method settles its promise: fulfilled with the value its
    body returns, or rejected with what the body throws.
    [InvalidGrantError] is the error kind that the specification names; no
    source file declares or throws it. *)
Inductive Error :=
| InvalidGrantError
| TypeError.

Inductive Promise (A : Type) :=
| Fulfilled (value : A)
| Rejected (reason : Error).
Arguments Fulfilled {A} value.
Arguments Rejected {A} reason.

(* ===================================================================== *)
(** ** Progress metrics (class [GrantMetrics]) *)
(* ===================================================================== *)

Inductive RiskLevel := risk_low | risk_medium | risk_high.

Module GrantProgressMetrics.
Record t := {
  grantId : string;
  totalFunding : JS.number;
  fundsUtilized : JS.number;
  utilizationRate : JS.number;
  milestonesCompleted : nat;
  totalMilestones : nat;
  milestoneCompletionRate : JS.number;
  daysElapsed : JS.number;
  totalDays : JS.number;
  timelineProgress : JS.number;
  status : GrantStatus;
  riskLevel : RiskLevel;
  kpiAchievement : gmap string JS.number;
  lastUpdated : Date;
}.
End GrantProgressMetrics.

Module GrantMetrics.

Definition riskScore (timelineProgress utilizationRate milestoneCompletionRate
                      : JS.number) : JS.number :=
  let timelineVsMilestoneDiff :=
    JS.Math_abs (JS.sub timelineProgress milestoneCompletionRate) in
  let timelineVsFinancialDiff :=
    JS.Math_abs (JS.sub timelineProgress utilizationRate) in
  JS.div (JS.add timelineVsMilestoneDiff timelineVsFinancialDiff) (JS.of_Z 2).

Definition calculateRiskLevel
  (timelineProgress utilizationRate milestoneCompletionRate : JS.number)
  : RiskLevel :=
  let riskScore :=
    riskScore timelineProgress utilizationRate milestoneCompletionRate in
  if JS.lt riskScore (JS.literal 2 10) then risk_low
  else if JS.lt riskScore (JS.literal 4 10) then risk_medium
  else risk_high.

(** [achievement[key] = value] on an object created by [{}]: every key
    becomes an own property, except ["__proto__"], whose inherited setter
    ignores a value that is not an object. *)
Definition set_property (achievement : gmap string JS.number)
  (key : string) (value : JS.number) : gmap string JS.number :=
  if String.eqb key "__proto__" then achievement
  else <[key := value]> achievement.

Definition kpi_value (kpi : KPI.t) : JS.number :=
  if negb (JS.strict_eq (KPI.targetValue kpi) (JS.of_Z 0))
  then JS.div (KPI.currentValue kpi) (KPI.targetValue kpi)
  else KPI.currentValue kpi.

(** [for (const kpi of kpis)], from the object built so far. *)
Definition calculateKPIAchievement_loop (kpis : list KPI.t)
  (achievement : gmap string JS.number) : gmap string JS.number :=
  fold_left (fun achievement kpi =>
               set_property achievement (KPI.name kpi) (kpi_value kpi))
            kpis achievement.

Definition calculateKPIAchievement (kpis : list KPI.t) : gmap string JS.number :=
  calculateKPIAchievement_loop kpis ∅.

Definition is_completed (m : Milestone.t) : bool :=
  match Milestone.status m with ms_completed => true | _ => false end.

Definition calculateProgress (grant : Grant.t)
  : Eff (Promise GrantProgressMetrics.t) :=
  now <- new_Date ;;
  let startDate := Grant.startDate grant in
  let endDate := Grant.endDate grant in
  let totalDays :=
    JS.Math_ceil (JS.div (JS.sub (getTime endDate) (getTime startDate)) ms_per_day) in
  let daysElapsed :=
    JS.Math_ceil (JS.div (JS.sub (getTime now) (getTime startDate)) ms_per_day) in
  let timelineProgress :=
    JS.Math_min (JS.Math_max (JS.div daysElapsed totalDays) (JS.of_Z 0)) (JS.of_Z 1) in
  let totalFunding := Grant.totalFunding grant in
  let fundsUtilized :=
    fold_left (fun sum exp => JS.add sum (Expenditure.amount exp))
              (Grant.expenditures grant) (JS.of_Z 0) in
  let utilizationRate :=
    if JS.gt totalFunding (JS.of_Z 0) then JS.div fundsUtilized totalFunding
    else JS.of_Z 0 in
  let totalMilestones := length (Grant.milestones grant) in
  let milestonesCompleted :=
    length (List.filter is_completed (Grant.milestones grant)) in
  let milestoneCompletionRate :=
    if (0 <? totalMilestones)%nat
    then JS.div (JS.of_nat milestonesCompleted) (JS.of_nat totalMilestones)
    else JS.of_Z 0 in
  let riskLevel :=
    calculateRiskLevel timelineProgress utilizationRate milestoneCompletionRate in
  let kpiAchievement := calculateKPIAchievement (Grant.kpis grant) in
  ret (Fulfilled
    {| GrantProgressMetrics.grantId := Grant.id grant;
       GrantProgressMetrics.totalFunding := totalFunding;
       GrantProgressMetrics.fundsUtilized := fundsUtilized;
       GrantProgressMetrics.utilizationRate := utilizationRate;
       GrantProgressMetrics.milestonesCompleted := milestonesCompleted;
       GrantProgressMetrics.totalMilestones := totalMilestones;
       GrantProgressMetrics.milestoneCompletionRate := milestoneCompletionRate;
       GrantProgressMetrics.daysElapsed := daysElapsed;
       GrantProgressMetrics.totalDays := totalDays;
       GrantProgressMetrics.timelineProgress := timelineProgress;
       GrantProgressMetrics.status := Grant.status grant;
       GrantProgressMetrics.riskLevel := riskLevel;
       GrantProgressMetrics.kpiAchievement := kpiAchievement;
       GrantProgressMetrics.lastUpdated := now |}).

End GrantMetrics.

(* ===================================================================== *)
(** ** Compliance evaluation (class [ComplianceMetrics]) *)
(* ===================================================================== *)

Inductive Status := compliant | non_compliant | pending | not_applicable.

Inductive OverallStatus := overall_compliant | at_risk | overall_non_compliant.

(** One entry of the evidence log.  The source pushes a template string;
    an entry keeps which template it is and the values interpolated in it
    (their rendering, [toFixed(2)] included, is not modelled). *)
Inductive Evidence :=
| DocumentApproved (doc : string)
    (* `Document "${doc}" submitted and approved` *)
| DocumentMissing (doc : string)
    (* `Missing or unapproved document: ${doc}` *)
| UtilizationExceeds (actualUtilization maxUtilization : JS.number)
    (* `Utilization rate (${..}) exceeds maximum (${..})` *)
| UtilizationWithin (actualUtilization : JS.number)
    (* `Utilization rate (${..}) within acceptable range` *)
| ReportMissing (reportType : option string)
    (* `Missing required report: ${..}` *)
| ReportSubmitted (type : string) (submissionDate : Date)
    (* `Report "${..}" submitted on ${..}` *)
| KPIBelow (name : string) (achievement minAchievement : JS.number)
    (* `KPI "${..}" achievement (${..}) below minimum (${..})` *)
| KPIAchieved (name : string) (achievement : JS.number).
    (* `KPI "${..}" achievement: ${..}` *)

Module ComplianceStatus.
Record t := {
  requirementId : string;
  requirementName : string;
  description : string;
  status : Status;
  evidence : list Evidence;
  lastChecked : Date;
  dueDate : option Date;
  severity : Severity;
}.
End ComplianceStatus.

Module ComplianceSummary.
Record t := {
  grantId : string;
  totalRequirements : nat;
  compliantRequirements : nat;
  nonCompliantRequirements : nat;
  pendingRequirements : nat;
  complianceRate : JS.number;
  highPriorityIssues : nat;
  mediumPriorityIssues : nat;
  lowPriorityIssues : nat;
  status : OverallStatus;
  lastAssessment : Date;
  requirements : list ComplianceStatus.t;
}.
End ComplianceSummary.

Module ComplianceMetrics.

(** [requirement.parameters?.key] *)
Definition parameter {A} (key : Parameters.t -> option A)
  (requirement : ComplianceRequirement.t) : option A :=
  match ComplianceRequirement.parameters requirement with
  | Some bag => key bag
  | None => None
  end.

Definition is_approved (d : Document.t) : bool :=
  match Document.status d with doc_approved => true | _ => false end.

(** The body of [for (const doc of requiredDocs)]; [evidence] is the array
    the caller passed, returned with the lines pushed to it. *)
Fixpoint checkDocumentation_loop (submittedDocs : list Document.t)
  (requiredDocs : list string) (evidence : list Evidence)
  : Status * list Evidence :=
  match requiredDocs with
  | [] => (compliant, evidence)
  | doc :: rest =>
      let found :=
        List.find (fun d => String.eqb (Document.type d) doc && is_approved d)
                  submittedDocs in
      match found with
      | Some _ =>
          checkDocumentation_loop submittedDocs rest
            (evidence ++ [DocumentApproved doc])
      | None => (non_compliant, evidence ++ [DocumentMissing doc])
      end
  end.

Definition checkDocumentation (requirement : ComplianceRequirement.t)
  (grant : Grant.t) (evidence : list Evidence) : Status * list Evidence :=
  let requiredDocs :=
    match parameter Parameters.requiredDocuments requirement with
    | Some docs => docs
    | None => []
    end in
  let submittedDocs := Grant.documents grant in
  checkDocumentation_loop submittedDocs requiredDocs evidence.

(** [grant.expenditures.reduce((sum, exp) => sum + exp.amount, 0)] *)
Definition total_expenditure (grant : Grant.t) : JS.number :=
  fold_left (fun sum exp => JS.add sum (Expenditure.amount exp))
            (Grant.expenditures grant) (JS.of_Z 0).

Definition checkFinancial (requirement : ComplianceRequirement.t)
  (grant : Grant.t) (evidence : list Evidence) : Status * list Evidence :=
  let maxUtilization :=
    JS.or_default (parameter Parameters.maxUtilizationRate requirement)
                  (JS.of_Z 1) in
  let actualUtilization :=
    JS.div (total_expenditure grant) (Grant.totalFunding grant) in
  if JS.gt actualUtilization maxUtilization then
    (non_compliant,
     evidence ++ [UtilizationExceeds actualUtilization maxUtilization])
  else
    (compliant, evidence ++ [UtilizationWithin actualUtilization]).

Definition checkReporting (requirement : ComplianceRequirement.t)
  (grant : Grant.t) (evidence : list Evidence) : Eff (Status * list Evidence) :=
  now <- new_Date ;;
  match ComplianceRequirement.dueDate requirement with
  | Some dueDate =>
      if dueDate <? now then
        let reports := Grant.reports grant in
        let requiredReport :=
          List.find (fun r =>
            match parameter Parameters.reportType requirement with
            | Some ty => String.eqb (ReportSubmission.type r) ty
            | None => false
            end && (ReportSubmission.submissionDate r <=? dueDate)) reports in
        match requiredReport with
        | None =>
            ret (non_compliant,
                 evidence ++
                 [ReportMissing (parameter Parameters.reportType requirement)])
        | Some r =>
            ret (compliant,
                 evidence ++
                 [ReportSubmitted (ReportSubmission.type r)
                                  (ReportSubmission.submissionDate r)])
        end
      else ret (compliant, evidence)
  | None => ret (compliant, evidence)
  end.

Fixpoint checkPerformance_loop (minAchievement : JS.number)
  (kpis : list KPI.t) (evidence : list Evidence) : Status * list Evidence :=
  match kpis with
  | [] => (compliant, evidence)
  | kpi :: rest =>
      if negb (JS.strict_eq (KPI.targetValue kpi) (JS.of_Z 0)) then
        let achievement :=
          JS.div (KPI.currentValue kpi) (KPI.targetValue kpi) in
        if JS.lt achievement minAchievement then
          (non_compliant,
           evidence ++ [KPIBelow (KPI.name kpi) achievement minAchievement])
        else
          checkPerformance_loop minAchievement rest
            (evidence ++ [KPIAchieved (KPI.name kpi) achievement])
      else checkPerformance_loop minAchievement rest evidence
  end.

Definition checkPerformance (requirement : ComplianceRequirement.t)
  (grant : Grant.t) (evidence : list Evidence) : Status * list Evidence :=
  let minAchievement :=
    JS.or_default (parameter Parameters.minAchievementRate requirement)
                  (JS.literal 8 10) in
  checkPerformance_loop minAchievement (Grant.kpis grant) evidence.

(** [requirement.applicableFrom && new Date(requirement.applicableFrom) > now] *)
Definition not_yet_applicable (requirement : ComplianceRequirement.t)
  (now : Date) : bool :=
  match ComplianceRequirement.applicableFrom requirement with
  | Some from => now <? from
  | None => false
  end.

Definition evaluateRequirement (requirement : ComplianceRequirement.t)
  (grant : Grant.t) : Eff ComplianceStatus.t :=
  now <- new_Date ;;
  if not_yet_applicable requirement now then
    ret {| ComplianceStatus.requirementId := ComplianceRequirement.id requirement;
           ComplianceStatus.requirementName := ComplianceRequirement.name requirement;
           ComplianceStatus.description := ComplianceRequirement.description requirement;
           ComplianceStatus.status := not_applicable;
           ComplianceStatus.evidence := [];
           ComplianceStatus.lastChecked := now;
           ComplianceStatus.dueDate := ComplianceRequirement.dueDate requirement;
           ComplianceStatus.severity := ComplianceRequirement.severity requirement |}
  else
    result <-
      match ComplianceRequirement.type requirement with
      | documentation => ret (checkDocumentation requirement grant [])
      | financial => ret (checkFinancial requirement grant [])
      | reporting => checkReporting requirement grant []
      | performance => ret (checkPerformance requirement grant [])
      | other_type _ => ret (pending, [])
      end ;;
    ret {| ComplianceStatus.requirementId := ComplianceRequirement.id requirement;
           ComplianceStatus.requirementName := ComplianceRequirement.name requirement;
           ComplianceStatus.description := ComplianceRequirement.description requirement;
           ComplianceStatus.status := fst result;
           ComplianceStatus.evidence := snd result;
           ComplianceStatus.lastChecked := now;
           ComplianceStatus.dueDate := ComplianceRequirement.dueDate requirement;
           ComplianceStatus.severity := ComplianceRequirement.severity requirement |}.

(** The local variables that the loop of [assessCompliance] updates.  A
    counter is incremented at most once per array element, so it is an
    integer that a number holds exactly; it is kept as a [nat] and
    converted where the source divides or multiplies. *)
Record Tally := {
  complianceStatuses : list ComplianceStatus.t;
  compliantCount : nat;
  nonCompliantCount : nat;
  pendingCount : nat;
  highPriority : nat;
  mediumPriority : nat;
  lowPriority : nat;
}.

Definition tally_init : Tally :=
  {| complianceStatuses := []; compliantCount := 0; nonCompliantCount := 0;
     pendingCount := 0; highPriority := 0; mediumPriority := 0;
     lowPriority := 0 |}.

Definition bump (b : bool) (n : nat) : nat := if b then S n else n.

Definition is_high (s : Severity) : bool :=
  match s with high => true | _ => false end.
Definition is_medium (s : Severity) : bool :=
  match s with medium => true | _ => false end.
Definition is_low (s : Severity) : bool :=
  match s with low => true | _ => false end.

(** One iteration: [complianceStatuses.push(status)] and the [switch]. *)
Definition tally_step (acc : Tally) (status : ComplianceStatus.t) : Tally :=
  let statuses := complianceStatuses acc ++ [status] in
  match ComplianceStatus.status status with
  | compliant =>
      {| complianceStatuses := statuses;
         compliantCount := S (compliantCount acc);
         nonCompliantCount := nonCompliantCount acc;
         pendingCount := pendingCount acc;
         highPriority := highPriority acc;
         mediumPriority := mediumPriority acc;
         lowPriority := lowPriority acc |}
  | non_compliant =>
      {| complianceStatuses := statuses;
         compliantCount := compliantCount acc;
         nonCompliantCount := S (nonCompliantCount acc);
         pendingCount := pendingCount acc;
         highPriority :=
           bump (is_high (ComplianceStatus.severity status)) (highPriority acc);
         mediumPriority :=
           bump (is_medium (ComplianceStatus.severity status)) (mediumPriority acc);
         lowPriority :=
           bump (is_low (ComplianceStatus.severity status)) (lowPriority acc) |}
  | pending =>
      {| complianceStatuses := statuses;
         compliantCount := compliantCount acc;
         nonCompliantCount := nonCompliantCount acc;
         pendingCount := S (pendingCount acc);
         highPriority := highPriority acc;
         mediumPriority := mediumPriority acc;
         lowPriority := lowPriority acc |}
  | not_applicable =>
      {| complianceStatuses := statuses;
         compliantCount := compliantCount acc;
         nonCompliantCount := nonCompliantCount acc;
         pendingCount := pendingCount acc;
         highPriority := highPriority acc;
         mediumPriority := mediumPriority acc;
         lowPriority := lowPriority acc |}
  end.

(** [for (const requirement of requirements)] *)
Fixpoint assess_loop (grant : Grant.t)
  (requirements : list ComplianceRequirement.t) (acc : Tally) : Eff Tally :=
  match requirements with
  | [] => ret acc
  | requirement :: rest =>
      status <- evaluateRequirement requirement grant ;;
      assess_loop grant rest (tally_step acc status)
  end.

Definition overall (nonCompliantCount highPriority pendingCount
                    totalRequirements : nat) : OverallStatus :=
  if (0 <? nonCompliantCount)%nat then
    if (0 <? highPriority)%nat then overall_non_compliant else at_risk
  else if JS.gt (JS.of_nat pendingCount)
                (JS.mul (JS.of_nat totalRequirements) (JS.literal 3 10))
  then at_risk
  else overall_compliant.

Definition assessCompliance (grant : Grant.t)
  (requirements : list ComplianceRequirement.t)
  : Eff (Promise ComplianceSummary.t) :=
  now <- new_Date ;;
  acc <- assess_loop grant requirements tally_init ;;
  let totalRequirements := length requirements in
  let complianceRate :=
    if (0 <? totalRequirements)%nat
    then JS.div (JS.of_nat (compliantCount acc)) (JS.of_nat totalRequirements)
    else JS.of_Z 1 in
  let overallStatus :=
    overall (nonCompliantCount acc) (highPriority acc) (pendingCount acc)
            totalRequirements in
  ret (Fulfilled
    {| ComplianceSummary.grantId := Grant.id grant;
       ComplianceSummary.totalRequirements := totalRequirements;
       ComplianceSummary.compliantRequirements := compliantCount acc;
       ComplianceSummary.nonCompliantRequirements := nonCompliantCount acc;
       ComplianceSummary.pendingRequirements := pendingCount acc;
       ComplianceSummary.complianceRate := complianceRate;
       ComplianceSummary.highPriorityIssues := highPriority acc;
       ComplianceSummary.mediumPriorityIssues := mediumPriority acc;
       ComplianceSummary.lowPriorityIssues := lowPriority acc;
       ComplianceSummary.status := overallStatus;
       ComplianceSummary.lastAssessment := now;
       ComplianceSummary.requirements := complianceStatuses acc |}).

End ComplianceMetrics.

(* ===================================================================== *)
(** * Vocabulary of the properties *)
(* ===================================================================== *)

Import GrantMetrics ComplianceMetrics.

(** ** Sample data used by the closed examples *)

Definition sample_grant (startDate endDate : Date) (totalFunding : JS.number)
  (expenditures : list Expenditure.t) (kpis : list KPI.t) : Grant.t :=
  {| Grant.id := "G-1"; Grant.status := active;
     Grant.totalFunding := totalFunding;
     Grant.startDate := startDate; Grant.endDate := endDate;
     Grant.milestones := []; Grant.expenditures := expenditures;
     Grant.kpis := kpis; Grant.documents := []; Grant.reports := [];
     Grant.updatedBy := "system"; Grant.updatedAt := 0;
     Grant.version := JS.of_Z 1; Grant.history := [] |}.

Definition sample_expenditure (amount : Z) (status : ExpenditureStatus)
  : Expenditure.t :=
  {| Expenditure.id := "E-1"; Expenditure.date := 0;
     Expenditure.category := "travel"; Expenditure.amount := JS.of_Z amount;
     Expenditure.status := status |}.

Definition sample_milestone : Milestone.t :=
  {| Milestone.id := "M-1"; Milestone.name := "kickoff";
     Milestone.dueDate := 0; Milestone.completionDate := None;
     Milestone.status := ms_pending; Milestone.dependencies := None |}.

Definition sample_requirement (type : RequirementType) (severity : Severity)
  (applicableFrom : option Date) (parameters : option Parameters.t)
  : ComplianceRequirement.t :=
  {| ComplianceRequirement.id := "R-1"; ComplianceRequirement.name := "rule";
     ComplianceRequirement.description := "";
     ComplianceRequirement.type := type;
     ComplianceRequirement.severity := severity;
     ComplianceRequirement.applicableFrom := applicableFrom;
     ComplianceRequirement.dueDate := None;
     ComplianceRequirement.parameters := parameters |}.

Definition max_utilization (rate : JS.number) : Parameters.t :=
  {| Parameters.requiredDocuments := None;
     Parameters.maxUtilizationRate := Some rate;
     Parameters.reportType := None;
     Parameters.minAchievementRate := None |}.

Definition required_documents (docs : list string) : Parameters.t :=
  {| Parameters.requiredDocuments := Some docs;
     Parameters.maxUtilizationRate := None;
     Parameters.reportType := None;
     Parameters.minAchievementRate := None |}.

(** A clock that shows the same instant at every reading. *)
Definition frozen (instant : Date) : Clock := fun _ => instant.

(** What a settled promise was fulfilled with. *)
Definition fulfilled_with {A} (p : Promise A) (P : A -> Prop) : Prop :=
  match p with
  | Fulfilled a => P a
  | Rejected _ => False
  end.

(** ** Counting results *)

Definition is_compliant (st : ComplianceStatus.t) : bool :=
  match ComplianceStatus.status st with compliant => true | _ => false end.

Definition is_non_compliant (st : ComplianceStatus.t) : bool :=
  match ComplianceStatus.status st with non_compliant => true | _ => false end.

Definition is_pending (st : ComplianceStatus.t) : bool :=
  match ComplianceStatus.status st with pending => true | _ => false end.

Definition is_high_issue (st : ComplianceStatus.t) : bool :=
  is_non_compliant st && is_high (ComplianceStatus.severity st).

Fixpoint count_if {A} (p : A -> bool) (l : list A) : nat :=
  match l with
  | [] => 0
  | x :: rest => if p x then S (count_if p rest) else count_if p rest
  end.

(** What the counters hold, in terms of the results pushed so far. *)
Definition tally_counts (acc : Tally) : Prop :=
  compliantCount acc = count_if is_compliant (complianceStatuses acc) /\
  nonCompliantCount acc = count_if is_non_compliant (complianceStatuses acc) /\
  pendingCount acc = count_if is_pending (complianceStatuses acc) /\
  highPriority acc = count_if is_high_issue (complianceStatuses acc).

(** Each result comes from evaluating the requirement at the same position,
    at some reading of the clock. *)
Definition evaluated (grant : Grant.t) (clk : Clock)
  (r : ComplianceRequirement.t) (st : ComplianceStatus.t) : Prop :=
  exists k, st = fst (evaluateRequirement r grant clk k).

(** Runs the binds of a computation in [Eff]. *)
Ltac run_eff :=
  unfold bind, ret, new_Date;
  repeat match goal with
         | |- context [let '(_, _) := ?c in _] =>
             let res := fresh "res" in
             let n' := fresh "n'" in
             destruct c as [res n']
         end.

(** ** Sequences of mutator calls *)

Inductive Mutation :=
| AddMilestone (milestone : Milestone.t)
| AddExpenditure (expenditure : Expenditure.t)
| UpdateStatus (newStatus : GrantStatus) (user : string).

Definition call (m : Mutation) (this : Grant.t) : Eff Grant.t :=
  match m with
  | AddMilestone milestone => Grant.addMilestone milestone this
  | AddExpenditure expenditure => Grant.addExpenditure expenditure this
  | UpdateStatus newStatus user => Grant.updateStatus newStatus user this
  end.

Fixpoint calls (ms : list Mutation) (this : Grant.t) : Eff Grant.t :=
  match ms with
  | [] => ret this
  | m :: rest => this' <- call m this ;; calls rest this'
  end.

Definition is_status_update (m : Mutation) : bool :=
  match m with UpdateStatus _ _ => true | _ => false end.

(** The same calls on a grant whose arrays are in a store. *)
Definition heap_call (m : Mutation) (this : Heap.t)
  (store : gmap positive (list Heap.Item))
  : Eff (Heap.t * gmap positive (list Heap.Item)) :=
  match m with
  | AddMilestone milestone => Heap.addMilestone milestone this store
  | AddExpenditure expenditure => Heap.addExpenditure expenditure this store
  | UpdateStatus newStatus user => Heap.updateStatus newStatus user this store
  end.

Fixpoint heap_calls (ms : list Mutation) (this : Heap.t)
  (store : gmap positive (list Heap.Item))
  : Eff (Heap.t * gmap positive (list Heap.Item)) :=
  match ms with
  | [] => ret (this, store)
  | m :: rest =>
      state <- heap_call m this store ;;
      heap_calls rest (fst state) (snd state)
  end.

(** The history array of the grant is not also its milestone or its
    expenditure array. *)
Definition own_history (this : Heap.t) : Prop :=
  Heap.history this <> Heap.milestones this /\
  Heap.history this <> Heap.expenditures this.

(** No array that a mutator pushes to is another array field of the
    grant: the milestone, expenditure and history arrays are three
    different arrays, and none of them is the KPI, document or report
    array. *)
Definition own_arrays (this : Heap.t) : Prop :=
  own_history this /\
  Heap.milestones this <> Heap.expenditures this /\
  Forall (fun r => r <> Heap.milestones this /\
                   r <> Heap.expenditures this /\
                   r <> Heap.history this)
         [Heap.kpis this; Heap.documents this; Heap.reports this].

(** The milestones and the expenditures that a sequence of calls adds. *)
Definition added_milestones (ms : list Mutation) : list Milestone.t :=
  omap (fun m => match m with AddMilestone x => Some x | _ => None end) ms.
Definition added_expenditures (ms : list Mutation) : list Expenditure.t :=
  omap (fun m => match m with AddExpenditure x => Some x | _ => None end) ms.

(** [chain s h t]: the entries of [h] record status transitions that lead
    from [s] to [t], each starting where the one before ended. *)
Inductive chain : GrantStatus -> list HistoryEntry.t -> GrantStatus -> Prop :=
| chain_nil (s : GrantStatus) : chain s [] s
| chain_cons (s t u : GrantStatus) (e : HistoryEntry.t)
    (rest : list HistoryEntry.t) :
    HistoryEntry.changes e = status_change s t ->
    chain t rest u ->
    chain s (e :: rest) u.

(** A clock that never runs backwards. *)
Definition monotone (clk : Clock) : Prop :=
  forall i j : nat, (i <= j)%nat -> (clk i <= clk j)%Z.

(** ** Rule evaluators as predicates on the grant *)

(** Some submitted document has the type [doc] and is approved. *)
Definition has_approved (submitted : list Document.t) (doc : string) : bool :=
  existsb (fun d => String.eqb (Document.type d) doc && is_approved d) submitted.

(** The KPI has a target other than zero and its achievement is below
    [minAchievement]. *)
Definition breaches (minAchievement : JS.number) (kpi : KPI.t) : bool :=
  negb (JS.strict_eq (KPI.targetValue kpi) (JS.of_Z 0)) &&
  JS.lt (JS.div (KPI.currentValue kpi) (KPI.targetValue kpi)) minAchievement.

Definition has_target (kpi : KPI.t) : bool :=
  negb (JS.strict_eq (KPI.targetValue kpi) (JS.of_Z 0)).

(** Some report has the type [ty] and was submitted by [dueDate]. *)
Definition reported_by (reports : list ReportSubmission.t) (ty : option string)
  (dueDate : Date) : bool :=
  existsb (fun r =>
             match ty with
             | Some ty => String.eqb (ReportSubmission.type r) ty
             | None => false
             end && (ReportSubmission.submissionDate r <=? dueDate)%Z) reports.

Definition is_not_applicable (st : ComplianceStatus.t) : bool :=
  match ComplianceStatus.status st with not_applicable => true | _ => false end.

Definition known_type (ty : RequirementType) : bool :=
  match ty with other_type _ => false | _ => true end.

Definition is_medium_issue (st : ComplianceStatus.t) : bool :=
  is_non_compliant st && is_medium (ComplianceStatus.severity st).

Definition is_low_issue (st : ComplianceStatus.t) : bool :=
  is_non_compliant st && is_low (ComplianceStatus.severity st).

(** The counters split the results: every result is counted once by
    status, every non-compliant one once by severity. *)
Definition tally_partition (acc : Tally) : Prop :=
  (compliantCount acc + nonCompliantCount acc + pendingCount acc
   + count_if is_not_applicable (complianceStatuses acc)
   = length (complianceStatuses acc))%nat /\
  (highPriority acc + mediumPriority acc + lowPriority acc
   = nonCompliantCount acc)%nat /\
  mediumPriority acc = count_if is_medium_issue (complianceStatuses acc) /\
  lowPriority acc = count_if is_low_issue (complianceStatuses acc).

(** The requirement does not apply yet at any reading of the clock. *)
Definition always_future (clk : Clock) (r : ComplianceRequirement.t) : Prop :=
  forall k, not_yet_applicable r (clk k) = true.

(* ===================================================================== *)
(** * Properties *)
(* ===================================================================== *)

(* --------------------------------------------------------------------- *)
(** ** Number literals and rounding up *)
(* --------------------------------------------------------------------- *)

Example lit_0_2 : JS.literal 2 10 = S754_finite false 7205759403792794 (-55).
Proof. vm_compute. reflexivity. Qed.
Example lit_0_3 : JS.literal 3 10 = S754_finite false 5404319552844595 (-54).
Proof. vm_compute. reflexivity. Qed.
Example lit_0_4 : JS.literal 4 10 = S754_finite false 7205759403792794 (-54).
Proof. vm_compute. reflexivity. Qed.
Example ceil_m05 : JS.Math_ceil (JS.literal (-1) 2) = JS.neg_zero.
Proof. vm_compute. reflexivity. Qed.
Example ceil_15 : JS.Math_ceil (JS.literal 3 2) = JS.of_Z 2.
Proof. vm_compute. reflexivity. Qed.
Example ceil_m15 : JS.Math_ceil (JS.literal (-3) 2) = JS.of_Z (-1).
Proof. vm_compute. reflexivity. Qed.

(* --------------------------------------------------------------------- *)
(** ** Progress metrics *)
(* --------------------------------------------------------------------- *)

Section Progress.

(** Comparing the other way round gives the opposite answer. *)
Lemma SFcompare_antisym (x y : spec_float) :
  SFcompare y x = option_map CompOpp (SFcompare x y).
Proof.
  destruct x as [ sx | [ | ] | | [ | ] mx ex ], y as [ sy | [ | ] | | [ | ] my ey ];
    try reflexivity; cbn;
    rewrite (Z.compare_antisym ex ey);
    destruct (ex ?= ey); cbn; try reflexivity;
    rewrite (Pos.compare_cont_antisym mx my Eq); cbn;
    destruct (Pos.compare_cont Eq mx my); reflexivity.
Qed.

(** [Math.min(Math.max(x, 0), 1)] is NaN or lies between 0 and 1. *)
Lemma clamp_range (x : JS.number) :
  let r := JS.Math_min (JS.Math_max x (JS.of_Z 0)) (JS.of_Z 1) in
  JS.is_NaN r = true \/
  (JS.le (JS.of_Z 0) r = true /\ JS.le r (JS.of_Z 1) = true).
Proof.
  cbv zeta.
  destruct x as [ s | [ | ] | | [ | ] m e ];
    try (left; reflexivity); try (right; split; reflexivity).
  right.
  change (JS.Math_max (S754_finite false m e) (JS.of_Z 0))
    with (S754_finite false m e).
  unfold JS.Math_min, JS.le.
  change (JS.of_Z 1) with (S754_finite false 4503599627370496 (-52)).
  destruct (SFltb (S754_finite false 4503599627370496 (-52))
                  (S754_finite false m e)) eqn:E.
  - split; reflexivity.
  - split; [ reflexivity | ].
    unfold SFltb in E. unfold SFleb.
    rewrite SFcompare_antisym.
    cbn [SFcompare] in E |- *.
    destruct (match -52 ?= e with Eq => _ | Lt => _ | Gt => _ end);
      try discriminate; reflexivity.
Qed.

(** C1 (as stated, refuted): a grant whose [endDate] precedes its
    [startDate] does not make [calculateProgress] fail.  Here the timeline
    is inverted by ten days; the promise is fulfilled with a record whose
    [totalDays] is [-10]. *)
Lemma C1_inverted_timeline_is_not_rejected :
  let grant := sample_grant 864000000 0 (JS.of_Z 1000) [] [] in
  (Grant.endDate grant <= Grant.startDate grant)%Z /\
  fst (calculateProgress grant (frozen 1728000000) 0%nat)
    <> Rejected InvalidGrantError /\
  fulfilled_with (fst (calculateProgress grant (frozen 1728000000) 0%nat))
    (fun m => GrantProgressMetrics.totalDays m = JS.of_Z (-10)).
Proof.
  cbv zeta. split; [ vm_compute; discriminate | ].
  split; [ vm_compute; discriminate | vm_compute; reflexivity ].
Qed.

(** C1 (amended): [calculateProgress] never fails.  For every grant,
    whatever the order of [startDate] and [endDate], it reads the clock
    once and fulfils its promise with a [GrantProgressMetrics] record, whose
    [totalDays] is the rounded-up quotient of [endDate - startDate] by the
    length of a day and whose [timelineProgress], the clamped quotient of
    [daysElapsed] by it, is NaN or lies between 0 and 1. *)
Theorem C1_calculateProgress_always_fulfilled
  (grant : Grant.t) (clk : Clock) (n : nat) :
  exists m,
    calculateProgress grant clk n = (Fulfilled m, S n) /\
    GrantProgressMetrics.grantId m = Grant.id grant /\
    GrantProgressMetrics.lastUpdated m = clk n /\
    GrantProgressMetrics.totalDays m =
      JS.Math_ceil (JS.div (JS.sub (getTime (Grant.endDate grant))
                                   (getTime (Grant.startDate grant)))
                           ms_per_day) /\
    GrantProgressMetrics.timelineProgress m =
      JS.Math_min
        (JS.Math_max (JS.div (GrantProgressMetrics.daysElapsed m)
                             (GrantProgressMetrics.totalDays m))
                     (JS.of_Z 0))
        (JS.of_Z 1) /\
    (JS.is_NaN (GrantProgressMetrics.timelineProgress m) = true \/
     (JS.le (JS.of_Z 0) (GrantProgressMetrics.timelineProgress m) = true /\
      JS.le (GrantProgressMetrics.timelineProgress m) (JS.of_Z 1) = true)).
Proof.
  unfold calculateProgress, bind, new_Date, ret.
  eexists. split; [ reflexivity | ].
  cbn [GrantProgressMetrics.grantId GrantProgressMetrics.lastUpdated
       GrantProgressMetrics.totalDays GrantProgressMetrics.timelineProgress
       GrantProgressMetrics.daysElapsed].
  repeat (split; [ reflexivity | ]).
  apply clamp_range.
Qed.

(** C3: the risk level is the classification of the mean of the two
    deviations [|timelineProgress - milestoneCompletionRate|] and
    [|timelineProgress - utilizationRate|]: low when the mean is below 0.2,
    medium when it is not but is below 0.4, high otherwise; and equal
    triples give equal levels. *)
Theorem C3_risk_level_classifies_mean_deviation
  (timelineProgress utilizationRate milestoneCompletionRate : JS.number) :
  let mean :=
    JS.div (JS.add (JS.Math_abs (JS.sub timelineProgress milestoneCompletionRate))
                   (JS.Math_abs (JS.sub timelineProgress utilizationRate)))
           (JS.of_Z 2) in
  let level :=
    calculateRiskLevel timelineProgress utilizationRate milestoneCompletionRate in
  (level = risk_low <-> JS.lt mean (JS.literal 2 10) = true) /\
  (level = risk_medium <->
     JS.lt mean (JS.literal 2 10) = false /\ JS.lt mean (JS.literal 4 10) = true) /\
  (level = risk_high <->
     JS.lt mean (JS.literal 2 10) = false /\ JS.lt mean (JS.literal 4 10) = false) /\
  (forall t u m,
     (t, u, m) = (timelineProgress, utilizationRate, milestoneCompletionRate) ->
     calculateRiskLevel t u m = level).
Proof.
  cbv zeta. unfold calculateRiskLevel, riskScore.
  set (mean := JS.div _ _).
  destruct (JS.lt mean (JS.literal 2 10)) eqn:Hlow;
    destruct (JS.lt mean (JS.literal 4 10)) eqn:Hmed;
    (repeat split; try congruence; try tauto;
     try (intros [? ?]; congruence);
     try (intros t u m [= -> -> ->]; fold mean; rewrite ?Hlow, ?Hmed; reflexivity)).
Qed.

(** The scenario of the specification: day 180 of 365, half of the
    milestones completed, 49% of the funds used. *)
Lemma C3_risk_level_scenario :
  let level := calculateRiskLevel (JS.literal 180 365) (JS.literal 49 100)
                                  (JS.literal 1 2) in
  level = risk_low /\
  calculateRiskLevel (JS.literal 180 365) (JS.literal 49 100) (JS.literal 1 2)
    = level.
Proof.
  cbv zeta.
  pose proof (C3_risk_level_classifies_mean_deviation
                (JS.literal 180 365) (JS.literal 49 100) (JS.literal 1 2)) as H.
  cbv zeta in H. destruct H as (Hlow & _ & _ & Hdet).
  split; [ apply Hlow; vm_compute; reflexivity | apply Hdet; reflexivity ].
Defined.

(** *** Rounding never produces NaN *)

Lemma shr_1_nonneg (mrs : shr_record) :
  0 <= shr_m mrs -> 0 <= shr_m (shr_1 mrs).
Proof.
  destruct mrs as [m r s]. cbn [shr_m].
  destruct m as [ | [p | p | ] | p ]; cbn; lia.
Qed.

Lemma iter_pos_shr_1_nonneg (p : positive) :
  forall mrs, 0 <= shr_m mrs -> 0 <= shr_m (SpecFloat.iter_pos shr_1 p mrs).
Proof.
  induction p as [p IH | p IH | ]; intros mrs H; cbn [SpecFloat.iter_pos].
  - apply IH, IH, shr_1_nonneg, H.
  - apply IH, IH, H.
  - apply shr_1_nonneg, H.
Qed.

Lemma shr_fexp_nonneg (m e : Z) (l : location) :
  0 <= m -> 0 <= shr_m (fst (shr_fexp JS.prec JS.emax m e l)).
Proof.
  intros H. unfold shr_fexp, shr.
  assert (H0 : 0 <= shr_m (shr_record_of_loc m l))
    by (destruct l as [ | [ | | ] ]; exact H).
  destruct (fexp JS.prec JS.emax (Zdigits2 m + e) - e) as [ | p | p ];
    cbn [fst]; auto using iter_pos_shr_1_nonneg.
Qed.

Lemma round_nearest_even_nonneg (m : Z) (l : location) :
  0 <= m -> 0 <= round_nearest_even m l.
Proof.
  intros H. destruct l as [ | [ | | ] ]; cbn; try lia.
  destruct (Z.even m); lia.
Qed.

Lemma binary_round_aux_not_NaN (sx : bool) (mx ex : Z) (lx : location) :
  0 <= mx -> JS.is_NaN (binary_round_aux JS.prec JS.emax sx mx ex lx) = false.
Proof.
  intros H. unfold binary_round_aux.
  pose proof (shr_fexp_nonneg mx ex lx H) as H1.
  destruct (shr_fexp JS.prec JS.emax mx ex lx) as [mrs' e']. cbn [fst] in H1.
  pose proof (shr_fexp_nonneg
                (round_nearest_even (shr_m mrs') (loc_of_shr_record mrs'))
                e' loc_Exact (round_nearest_even_nonneg _ _ H1)) as H2.
  destruct (shr_fexp JS.prec JS.emax _ e' loc_Exact) as [mrs'' e''].
  cbn [fst] in H2.
  destruct (shr_m mrs'') as [ | m | m ]; [ reflexivity | | lia ].
  destruct (e'' <=? JS.emax - JS.prec); reflexivity.
Qed.

Lemma SFdiv_core_binary_nonneg (mx my : positive) (ex ey : Z) :
  0 <= fst (fst (SFdiv_core_binary JS.prec JS.emax (Z.pos mx) ex (Z.pos my) ey)).
Proof.
  unfold SFdiv_core_binary.
  set (s := _ - _ - Z.min _ _).
  set (m' := match s with Z.pos _ => _ | 0 => _ | Z.neg _ => _ end).
  assert (Hm : 0 <= m').
  { subst m'. destruct s; [ lia | | lia ].
    apply Z.shiftl_nonneg. lia. }
  pose proof (Z.div_pos m' (Z.pos my) Hm eq_refl) as Hq.
  unfold Z.div in Hq.
  destruct (Z.div_eucl m' (Z.pos my)) as [q r]. exact Hq.
Qed.

(** The quotient of a finite number by a finite number other than zero is
    a number: finite, or infinite when it overflows. *)
Lemma div_finite_not_NaN (x y : JS.number) :
  JS.is_finite x = true -> JS.is_finite y = true ->
  JS.strict_eq y (JS.of_Z 0) = false ->
  JS.is_NaN (JS.div x y) = false.
Proof.
  destruct x as [sx | sx | | sx mx ex], y as [sy | sy | | sy my ey];
    try discriminate; intros _ _ Hy; try reflexivity.
  unfold JS.div, SFdiv.
  pose proof (SFdiv_core_binary_nonneg mx my ex ey) as H.
  destruct (SFdiv_core_binary _ _ _ _ _ _) as [[mz ez] lz].
  apply binary_round_aux_not_NaN, H.
Qed.

(** *** The KPI achievement map *)

Lemma set_property_lookup_ne (achievement : gmap string JS.number)
  (key key' : string) (value : JS.number) :
  key <> key' -> set_property achievement key value !! key' = achievement !! key'.
Proof.
  intros H. unfold set_property.
  destruct (String.eqb key "__proto__"); [ reflexivity | ].
  apply lookup_insert_ne, H.
Qed.

Lemma set_property_lookup_eq (achievement : gmap string JS.number)
  (key : string) (value : JS.number) :
  key <> "__proto__" -> set_property achievement key value !! key = Some value.
Proof.
  intros H. unfold set_property.
  destruct (String.eqb_spec key "__proto__") as [E | _]; [ contradiction | ].
  apply lookup_insert_eq.
Qed.

Lemma set_property_lookup_inv (achievement : gmap string JS.number)
  (key key' : string) (value v : JS.number) :
  set_property achievement key value !! key' = Some v ->
  achievement !! key' = Some v \/ (key = key' /\ v = value).
Proof.
  unfold set_property.
  destruct (String.eqb key "__proto__"); [ auto | ].
  destruct (decide (key = key')) as [-> | Hne].
  - rewrite lookup_insert_eq. intros [= <-]. auto.
  - rewrite lookup_insert_ne by exact Hne. auto.
Qed.

Lemma kpi_loop_lookup_other (key : string) (kpis : list KPI.t) :
  forall achievement,
    Forall (fun k => KPI.name k <> key) kpis ->
    calculateKPIAchievement_loop kpis achievement !! key = achievement !! key.
Proof.
  induction kpis as [ | kpi kpis IH ]; intros achievement H; [ reflexivity | ].
  inversion H as [ | ? ? Hk Hrest ]; subst.
  cbn. fold (calculateKPIAchievement_loop kpis). rewrite IH by exact Hrest.
  apply set_property_lookup_ne, Hk.
Qed.

Lemma kpi_loop_lookup_origin (key : string) (v : JS.number) (kpis : list KPI.t) :
  forall achievement,
    calculateKPIAchievement_loop kpis achievement !! key = Some v ->
    achievement !! key = Some v \/
    exists kpi, kpi ∈ kpis /\ KPI.name kpi = key /\ v = kpi_value kpi.
Proof.
  induction kpis as [ | kpi kpis IH ]; intros achievement H; [ left; exact H | ].
  cbn in H. fold (calculateKPIAchievement_loop kpis) in H.
  destruct (IH _ H) as [H1 | (k & Hin & Hname & Hv)].
  - destruct (set_property_lookup_inv _ _ _ _ _ H1) as [H2 | [Hname Hv]].
    + left; exact H2.
    + right. exists kpi. split; [ left | split; assumption ].
  - right. exists k. split; [ right; exact Hin | split; assumption ].
Qed.

Lemma kpi_value_not_NaN (kpi : KPI.t) :
  JS.is_finite (KPI.currentValue kpi) = true ->
  JS.is_finite (KPI.targetValue kpi) = true ->
  JS.is_NaN (kpi_value kpi) = false.
Proof.
  intros Hc Ht. unfold kpi_value.
  destruct (JS.strict_eq (KPI.targetValue kpi) (JS.of_Z 0)) eqn:E; cbn [negb].
  - destruct (KPI.currentValue kpi); try discriminate; reflexivity.
  - apply div_finite_not_NaN; assumption.
Qed.

(** C6 (as stated, refuted): an entry can be [Infinity].  Both values of
    this KPI are finite binary64 numbers and its target is not zero, yet
    the quotient [1e308 / 0.1] overflows. *)
Lemma C6_finite_kpi_gives_infinite_entry :
  let kpi := {| KPI.name := "reach"; KPI.targetValue := JS.literal 1 10;
                KPI.currentValue := JS.of_Z (10 ^ 308) |} in
  JS.valid (KPI.currentValue kpi) = true /\
  JS.valid (KPI.targetValue kpi) = true /\
  JS.is_finite (KPI.currentValue kpi) = true /\
  JS.is_finite (KPI.targetValue kpi) = true /\
  JS.strict_eq (KPI.targetValue kpi) (JS.of_Z 0) = false /\
  calculateKPIAchievement [kpi] !! "reach" = Some JS.Infinity.
Proof. cbv zeta. repeat split; vm_compute; reflexivity. Qed.

(** C6 (amended): for every KPI list the map holds under each KPI name
    other than ["__proto__"] the value of the last KPI with that name:
    [currentValue / targetValue] when [targetValue] is not zero, and
    [currentValue] itself when it is.  Every entry of the map is that value
    of some KPI of the list, and it is not NaN when the two values of that
    KPI are finite.  (It can be infinite: a quotient may overflow.) *)
Theorem C6_kpi_achievement_entries (kpis : list KPI.t) :
  (forall earlier kpi later,
     kpis = earlier ++ kpi :: later ->
     KPI.name kpi <> "__proto__" ->
     Forall (fun k => KPI.name k <> KPI.name kpi) later ->
     calculateKPIAchievement kpis !! KPI.name kpi =
       Some (if JS.strict_eq (KPI.targetValue kpi) (JS.of_Z 0)
             then KPI.currentValue kpi
             else JS.div (KPI.currentValue kpi) (KPI.targetValue kpi))) /\
  (forall name v,
     calculateKPIAchievement kpis !! name = Some v ->
     exists kpi,
       kpi ∈ kpis /\ KPI.name kpi = name /\
       v = (if JS.strict_eq (KPI.targetValue kpi) (JS.of_Z 0)
            then KPI.currentValue kpi
            else JS.div (KPI.currentValue kpi) (KPI.targetValue kpi)) /\
       (JS.is_finite (KPI.currentValue kpi) = true ->
        JS.is_finite (KPI.targetValue kpi) = true ->
        JS.is_NaN v = false)).
Proof.
  assert (Hval : forall kpi,
             kpi_value kpi =
             if JS.strict_eq (KPI.targetValue kpi) (JS.of_Z 0)
             then KPI.currentValue kpi
             else JS.div (KPI.currentValue kpi) (KPI.targetValue kpi)).
  { intros kpi. unfold kpi_value. destruct (JS.strict_eq _ _); reflexivity. }
  split.
  - intros earlier kpi later -> Hproto Hlater.
    unfold calculateKPIAchievement, calculateKPIAchievement_loop.
    rewrite fold_left_app. cbn [fold_left].
    fold (calculateKPIAchievement_loop earlier ∅).
    fold (calculateKPIAchievement_loop later).
    rewrite kpi_loop_lookup_other by exact Hlater.
    rewrite set_property_lookup_eq by exact Hproto.
    rewrite Hval. reflexivity.
  - intros name v H.
    destruct (kpi_loop_lookup_origin name v kpis ∅ H)
      as [H0 | (kpi & Hin & Hname & Hv)].
    + rewrite lookup_empty in H0. discriminate.
    + exists kpi. repeat split; try assumption.
      * rewrite <- Hval. exact Hv.
      * intros Hc Ht. rewrite Hv. apply kpi_value_not_NaN; assumption.
Qed.

(** The theorem at a list in which a name is used twice: the later KPI
    gives the entry. *)
Lemma C6_kpi_achievement_entries_witness :
  let first := {| KPI.name := "served"; KPI.targetValue := JS.of_Z 200;
                  KPI.currentValue := JS.of_Z 150 |} in
  let second := {| KPI.name := "served"; KPI.targetValue := JS.of_Z 0;
                   KPI.currentValue := JS.of_Z 7 |} in
  calculateKPIAchievement [first; second] !! "served" = Some (JS.of_Z 7) /\
  exists kpi, kpi ∈ [first; second] /\ JS.is_NaN (kpi_value kpi) = false.
Proof.
  cbv zeta.
  set (first := {| KPI.name := "served"; KPI.targetValue := JS.of_Z 200 |}).
  set (second := {| KPI.name := "served"; KPI.targetValue := JS.of_Z 0 |}).
  destruct (C6_kpi_achievement_entries [first; second]) as [Hlast Horigin].
  assert (H : calculateKPIAchievement [first; second] !! "served"
              = Some (JS.of_Z 7)).
  { apply (Hlast [first] second []);
      [ reflexivity | discriminate | constructor ]. }
  split; [ exact H | ].
  destruct (Horigin "served" (JS.of_Z 7) H) as (kpi & Hin & _ & Hv & Hnan).
  exists kpi. split; [ exact Hin | ].
  unfold kpi_value.
  destruct (JS.strict_eq (KPI.targetValue kpi) (JS.of_Z 0));
    cbn [negb]; rewrite <- Hv; reflexivity.
Defined.

End Progress.

(* --------------------------------------------------------------------- *)
(** ** The mutators of [Grant] *)
(* --------------------------------------------------------------------- *)

Section Mutators.

Variables (this : Grant.t) (clk : Clock) (n : nat).

(** [addMilestone] pushes the milestone, stamps [updatedAt] and increments
    [version]; it does not touch [history]. *)
Lemma addMilestone_effect (milestone : Milestone.t) :
  let after := fst (Grant.addMilestone milestone this clk n) in
  Grant.milestones after = Grant.milestones this ++ [milestone] /\
  Grant.updatedAt after = clk n /\
  Grant.version after = Grant.increment (Grant.version this) /\
  Grant.history after = Grant.history this.
Proof. cbn. repeat split. Qed.

(** So does [addExpenditure]. *)
Lemma addExpenditure_effect (expenditure : Expenditure.t) :
  let after := fst (Grant.addExpenditure expenditure this clk n) in
  Grant.expenditures after = Grant.expenditures this ++ [expenditure] /\
  Grant.updatedAt after = clk n /\
  Grant.version after = Grant.increment (Grant.version this) /\
  Grant.history after = Grant.history this.
Proof. cbn. repeat split. Qed.

(** [updateStatus] sets the status, increments [version] and appends one
    [STATUS_CHANGE] entry after the entries that were there. *)
Lemma updateStatus_effect (newStatus : GrantStatus) (user : string) :
  let after := fst (Grant.updateStatus newStatus user this clk n) in
  Grant.status after = newStatus /\
  Grant.updatedBy after = user /\
  Grant.version after = Grant.increment (Grant.version this) /\
  Grant.history after =
    Grant.history this ++
    [ {| HistoryEntry.date := clk (S n);
         HistoryEntry.action := "STATUS_CHANGE";
         HistoryEntry.user := user;
         HistoryEntry.changes := status_change (Grant.status this) newStatus |} ].
Proof. cbn. repeat split. Qed.

End Mutators.

(** C2 (the code departs from the claim): on a fresh grant, whose version
    is 1 and whose history is empty, [addMilestone] and [addExpenditure]
    apply their change and bring the version to 2 but leave the history
    empty, where the claim asks for one appended entry; [updateStatus] on
    the same grant does append exactly one. *)
Theorem C2_add_methods_leave_history_unchanged :
  let grant := sample_grant 0 864000000 (JS.of_Z 1000) [] [] in
  let withMilestone :=
    fst (Grant.addMilestone sample_milestone grant (frozen 5) 0%nat) in
  let withExpenditure :=
    fst (Grant.addExpenditure (sample_expenditure 50 exp_pending) grant
                              (frozen 5) 0%nat) in
  let withStatus := fst (Grant.updateStatus suspended "ana" grant (frozen 5) 0%nat) in
  (Grant.milestones withMilestone = [sample_milestone] /\
   Grant.version withMilestone = JS.of_Z 2 /\
   length (Grant.history withMilestone) = length (Grant.history grant)) /\
  (Grant.expenditures withExpenditure = [sample_expenditure 50 exp_pending] /\
   Grant.version withExpenditure = JS.of_Z 2 /\
   length (Grant.history withExpenditure) = length (Grant.history grant)) /\
  (Grant.status withStatus = suspended /\
   Grant.version withStatus = JS.of_Z 2 /\
   length (Grant.history withStatus) = S (length (Grant.history grant))).
Proof. cbv zeta. repeat split; vm_compute; reflexivity. Qed.

(* --------------------------------------------------------------------- *)
(** ** Compliance evaluation *)
(* --------------------------------------------------------------------- *)

Section Compliance.

(** *** The loop of [assessCompliance] *)

Lemma count_if_snoc {A} (p : A -> bool) (l : list A) (x : A) :
  count_if p (l ++ [x]) = bump (p x) (count_if p l).
Proof.
  induction l as [ | y l IH ]; cbn.
  - destruct (p x); reflexivity.
  - rewrite IH. destruct (p y), (p x); reflexivity.
Qed.

Lemma count_if_positive {A} (p : A -> bool) (l : list A) :
  (0 <? count_if p l)%nat = existsb p l.
Proof.
  induction l as [ | x l IH ]; cbn; [ reflexivity | ].
  destruct (p x); [ reflexivity | exact IH ].
Qed.

(** *** The loop of [assessCompliance] *)

Lemma tally_init_counts : tally_counts tally_init.
Proof. repeat split. Qed.

Lemma tally_step_counts (acc : Tally) (st : ComplianceStatus.t) :
  tally_counts acc -> tally_counts (tally_step acc st).
Proof.
  intros (Hc & Hn & Hp & Hh).
  assert (Ec : is_compliant st =
               match ComplianceStatus.status st with compliant => true | _ => false end)
    by reflexivity.
  assert (En : is_non_compliant st =
               match ComplianceStatus.status st with non_compliant => true | _ => false end)
    by reflexivity.
  assert (Ep : is_pending st =
               match ComplianceStatus.status st with pending => true | _ => false end)
    by reflexivity.
  unfold tally_counts, tally_step.
  destruct (ComplianceStatus.status st);
    cbn [complianceStatuses compliantCount nonCompliantCount pendingCount
         highPriority];
    rewrite !count_if_snoc, Ec, En, Ep; unfold is_high_issue at 1;
    rewrite En; cbn [bump andb]; rewrite Hc, Hn, Hp, Hh;
    repeat split; reflexivity.
Qed.

Lemma tally_step_statuses (acc : Tally) (st : ComplianceStatus.t) :
  complianceStatuses (tally_step acc st) = complianceStatuses acc ++ [st].
Proof. unfold tally_step. destruct (ComplianceStatus.status st); reflexivity. Qed.

Lemma assess_loop_counts (grant : Grant.t) (clk : Clock)
  (requirements : list ComplianceRequirement.t) :
  forall acc n,
    tally_counts acc ->
    tally_counts (fst (assess_loop grant requirements acc clk n)).
Proof.
  induction requirements as [ | r rest IH ]; intros acc n H; [ exact H | ].
  cbn [assess_loop]. unfold bind.
  destruct (evaluateRequirement r grant clk n) as [st n'].
  apply IH, tally_step_counts, H.
Qed.

Lemma assess_loop_statuses (grant : Grant.t) (clk : Clock)
  (requirements : list ComplianceRequirement.t) :
  forall acc n,
  exists results,
    complianceStatuses (fst (assess_loop grant requirements acc clk n))
      = complianceStatuses acc ++ results /\
    Forall2 (evaluated grant clk) requirements results.
Proof.
  induction requirements as [ | r rest IH ]; intros acc n.
  - exists []. split; [ cbn; rewrite app_nil_r; reflexivity | constructor ].
  - cbn [assess_loop]. unfold bind.
    destruct (evaluateRequirement r grant clk n) as [st n'] eqn:E.
    destruct (IH (tally_step acc st) n') as (results & Heq & Hall).
    exists (st :: results). split.
    + rewrite Heq, tally_step_statuses, <- app_assoc. reflexivity.
    + constructor; [ exists n; rewrite E; reflexivity | exact Hall ].
Qed.

(** The summary in terms of the tally that the loop leaves. *)
Lemma assessCompliance_unfold (grant : Grant.t)
  (requirements : list ComplianceRequirement.t) (clk : Clock) (n : nat)
  (P : ComplianceSummary.t -> Prop) :
  (forall s,
     let acc := fst (assess_loop grant requirements tally_init clk (S n)) in
     let total := length requirements in
     ComplianceSummary.totalRequirements s = total ->
     ComplianceSummary.compliantRequirements s = compliantCount acc ->
     ComplianceSummary.pendingRequirements s = pendingCount acc ->
     ComplianceSummary.complianceRate s =
       (if (0 <? total)%nat
        then JS.div (JS.of_nat (compliantCount acc)) (JS.of_nat total)
        else JS.of_Z 1) ->
     ComplianceSummary.status s =
       overall (nonCompliantCount acc) (highPriority acc) (pendingCount acc)
               total ->
     ComplianceSummary.requirements s = complianceStatuses acc ->
     P s) ->
  fulfilled_with (fst (assessCompliance grant requirements clk n)) P.
Proof.
  intros H. unfold assessCompliance, bind, new_Date, ret.
  destruct (assess_loop grant requirements tally_init clk (S n)) as [acc n'].
  cbn [fst fulfilled_with]. apply H; reflexivity.
Qed.

(** C4: the overall status of the summary is [non-compliant] if some
    requirement evaluated non-compliant with severity high; else [at-risk]
    if some requirement evaluated non-compliant; else [at-risk] if the
    number of pending results exceeds 0.3 times the number of requirements;
    else [compliant]. *)
Theorem C4_overall_status_priority (grant : Grant.t)
  (requirements : list ComplianceRequirement.t) (clk : Clock) (n : nat) :
  fulfilled_with (fst (assessCompliance grant requirements clk n)) (fun s =>
    let results := ComplianceSummary.requirements s in
    Forall2 (evaluated grant clk) requirements results /\
    ComplianceSummary.pendingRequirements s = count_if is_pending results /\
    ComplianceSummary.totalRequirements s = length requirements /\
    ComplianceSummary.status s =
      if existsb (fun st => is_non_compliant st &&
                            is_high (ComplianceStatus.severity st)) results
      then overall_non_compliant
      else if existsb is_non_compliant results then at_risk
      else if JS.gt (JS.of_nat (ComplianceSummary.pendingRequirements s))
                    (JS.mul (JS.of_nat (ComplianceSummary.totalRequirements s))
                            (JS.literal 3 10))
      then at_risk
      else overall_compliant).
Proof.
  apply assessCompliance_unfold.
  intros s acc total Htotal _ Hpending _ Hstatus Hresults. cbv zeta.
  destruct (assess_loop_statuses grant clk requirements tally_init (S n))
    as (results & Heq & Hall).
  destruct (assess_loop_counts grant clk requirements tally_init (S n)
                               tally_init_counts) as (_ & Hn & Hp & Hh).
  fold acc in Heq, Hn, Hp, Hh. cbn [tally_init complianceStatuses app] in Heq.
  rewrite Hresults, Hpending, Htotal, Hstatus.
  repeat split.
  - rewrite Heq. exact Hall.
  - exact Hp.
  - unfold overall. fold total.
    change (fun st => is_non_compliant st && is_high (ComplianceStatus.severity st))
      with is_high_issue.
    rewrite <- !count_if_positive, <- Hn, <- Hh.
    destruct (0 <? nonCompliantCount acc)%nat eqn:En.
    + destruct (0 <? highPriority acc)%nat; reflexivity.
    + assert (E0 : (0 <? highPriority acc)%nat = false).
      { rewrite Hh. rewrite Hn in En.
        rewrite count_if_positive in En |- *.
        clear - En. induction (complianceStatuses acc) as [ | st l IH ];
          [ reflexivity | ].
        cbn in En |- *. unfold is_high_issue at 1.
        destruct (is_non_compliant st); [ discriminate | ].
        cbn [andb orb]. apply IH, En. }
      rewrite E0. reflexivity.
Qed.

(** C7: with no requirement the compliance rate is 1 and the overall
    status is [compliant]; with at least one, the rate is the number of
    compliant results divided by the number of requirements, where the
    results are those of evaluating the requirements passed, one each and
    in their order. *)
Theorem C7_compliance_rate (grant : Grant.t)
  (requirements : list ComplianceRequirement.t) (clk : Clock) (n : nat) :
  fulfilled_with (fst (assessCompliance grant requirements clk n)) (fun s =>
    Forall2 (evaluated grant clk) requirements (ComplianceSummary.requirements s) /\
    ComplianceSummary.totalRequirements s = length requirements /\
    ComplianceSummary.compliantRequirements s =
      count_if is_compliant (ComplianceSummary.requirements s) /\
    (requirements = [] ->
       ComplianceSummary.complianceRate s = JS.of_Z 1 /\
       ComplianceSummary.status s = overall_compliant) /\
    ((0 < ComplianceSummary.totalRequirements s)%nat ->
       ComplianceSummary.complianceRate s =
         JS.div (JS.of_nat (ComplianceSummary.compliantRequirements s))
                (JS.of_nat (ComplianceSummary.totalRequirements s)))).
Proof.
  apply assessCompliance_unfold.
  intros s acc total Htotal Hcompliant _ Hrate Hstatus Hresults.
  destruct (assess_loop_counts grant clk requirements tally_init (S n)
                               tally_init_counts) as (Hc & _).
  destruct (assess_loop_statuses grant clk requirements tally_init (S n))
    as (results & Heq & Hall).
  fold acc in Hc, Heq. cbn [tally_init complianceStatuses app] in Heq.
  rewrite Htotal, Hcompliant, Hresults, Hrate, Hstatus.
  split; [ rewrite Heq; exact Hall | ].
  split; [ reflexivity | ]. split; [ exact Hc | ]. split.
  - intros Hempty. subst total acc. rewrite Hempty.
    split; [ reflexivity | vm_compute; reflexivity ].
  - intros Hpos. fold total.
    destruct (Nat.ltb_spec 0 total) as [_ | Hle]; [ reflexivity | lia ].
Qed.

(** The theorem at an empty list, where it gives the rate 1, and at a list
    of one financial requirement that the sample grant meets, where it
    gives one compliant result and so the rate 1/1. *)
Lemma C7_compliance_rate_witness :
  let grant := sample_grant 0 864000000 (JS.of_Z 1000) [] [] in
  let rule := sample_requirement financial high None None in
  fulfilled_with (fst (assessCompliance grant [] (frozen 5) 0%nat)) (fun s =>
    ComplianceSummary.complianceRate s = JS.of_Z 1 /\
    ComplianceSummary.status s = overall_compliant) /\
  fulfilled_with (fst (assessCompliance grant [rule] (frozen 5) 0%nat)) (fun s =>
    ComplianceSummary.compliantRequirements s = 1%nat /\
    ComplianceSummary.complianceRate s = JS.of_Z 1).
Proof.
  cbv zeta. split.
  - pose proof (C7_compliance_rate
                  (sample_grant 0 864000000 (JS.of_Z 1000) [] []) []
                  (frozen 5) 0%nat) as H.
    destruct (fst (assessCompliance _ _ _ _)) as [s | e]; [ | exact H ].
    cbn [fulfilled_with] in H |- *.
    destruct H as (_ & _ & _ & Hempty & _). apply Hempty. reflexivity.
  - pose proof (C7_compliance_rate
                  (sample_grant 0 864000000 (JS.of_Z 1000) [] [])
                  [sample_requirement financial high None None]
                  (frozen 5) 0%nat) as H.
    destruct (fst (assessCompliance _ _ _ _)) as [s | e]; [ | exact H ].
    cbn [fulfilled_with] in H |- *.
    destruct H as (Hall & Htotal & Hcount & _ & Hrate).
    assert (Hone : ComplianceSummary.compliantRequirements s = 1%nat).
    { rewrite Hcount.
      destruct (ComplianceSummary.requirements s) as [ | st rest ];
        [ apply Forall2_length in Hall; discriminate Hall | ].
      apply Forall2_cons in Hall as [[k ->] Hrest].
      apply Forall2_nil_inv_l in Hrest as ->. reflexivity. }
    split; [ exact Hone | ].
    rewrite Hrate by (rewrite Htotal; cbn; lia).
    rewrite Hone, Htotal. vm_compute. reflexivity.
Defined.

(** *** One requirement *)

Lemma evaluateRequirement_lastChecked (r : ComplianceRequirement.t)
  (grant : Grant.t) (clk : Clock) (k : nat) :
  ComplianceStatus.lastChecked (fst (evaluateRequirement r grant clk k)) = clk k.
Proof.
  unfold evaluateRequirement. unfold bind at 1. unfold new_Date at 1.
  destruct (not_yet_applicable r (clk k)); [ reflexivity | ].
  run_eff. reflexivity.
Qed.

Lemma evaluateRequirement_not_applicable (r : ComplianceRequirement.t)
  (grant : Grant.t) (clk : Clock) (k : nat) :
  not_yet_applicable r (clk k) = true ->
  ComplianceStatus.status (fst (evaluateRequirement r grant clk k))
    = not_applicable /\
  ComplianceStatus.evidence (fst (evaluateRequirement r grant clk k)) = [].
Proof.
  intros H. unfold evaluateRequirement, bind, new_Date.
  rewrite H. split; reflexivity.
Qed.

Lemma evaluateRequirement_financial (r : ComplianceRequirement.t)
  (grant : Grant.t) (clk : Clock) (k : nat) :
  ComplianceRequirement.type r = financial ->
  not_yet_applicable r (clk k) = false ->
  ComplianceStatus.status (fst (evaluateRequirement r grant clk k))
    = fst (checkFinancial r grant []).
Proof.
  intros Hty H. unfold evaluateRequirement, bind, new_Date.
  rewrite H, Hty. reflexivity.
Qed.

(** C8: a requirement whose [applicableFrom] is set and lies strictly after
    the time of its evaluation gets the status [not-applicable] and an
    empty evidence list, whatever its other fields and the grant are: in
    [evaluateRequirement], whose evaluation time is the clock reading [clk
    k] that it stores in [lastChecked], and so in every result of
    [assessCompliance]. *)
Theorem C8_future_requirement_not_applicable (grant : Grant.t)
  (requirements : list ComplianceRequirement.t) (clk : Clock) (n : nat) :
  (forall r k from,
     ComplianceRequirement.applicableFrom r = Some from ->
     (clk k < from)%Z ->
     let st := fst (evaluateRequirement r grant clk k) in
     ComplianceStatus.lastChecked st = clk k /\
     ComplianceStatus.status st = not_applicable /\
     ComplianceStatus.evidence st = []) /\
  fulfilled_with (fst (assessCompliance grant requirements clk n)) (fun s =>
    Forall2 (fun r st =>
               forall from,
                 ComplianceRequirement.applicableFrom r = Some from ->
                 (ComplianceStatus.lastChecked st < from)%Z ->
                 ComplianceStatus.status st = not_applicable /\
                 ComplianceStatus.evidence st = [])
            requirements (ComplianceSummary.requirements s)).
Proof.
  assert (Hone : forall r k from,
             ComplianceRequirement.applicableFrom r = Some from ->
             (clk k < from)%Z ->
             not_yet_applicable r (clk k) = true).
  { intros r k from Hfrom Hlt. unfold not_yet_applicable. rewrite Hfrom.
    apply Z.ltb_lt, Hlt. }
  split.
  - intros r k from Hfrom Hlt. cbv zeta.
    split; [ apply evaluateRequirement_lastChecked | ].
    apply evaluateRequirement_not_applicable, (Hone r k from Hfrom Hlt).
  - apply assessCompliance_unfold.
    intros s acc total _ _ _ _ _ Hresults.
    destruct (assess_loop_statuses grant clk requirements tally_init (S n))
      as (results & Heq & Hall).
    fold acc in Heq. cbn [tally_init complianceStatuses app] in Heq.
    rewrite Hresults, Heq.
    eapply Forall2_impl; [ exact Hall | ].
    intros r st [k ->] from Hfrom Hlt.
    rewrite evaluateRequirement_lastChecked in Hlt.
    apply evaluateRequirement_not_applicable, (Hone r k from Hfrom Hlt).
Qed.

(** The theorem at a performance requirement that applies from instant 100,
    evaluated while the clock shows 5. *)
Lemma C8_future_requirement_not_applicable_witness :
  let grant := sample_grant 0 864000000 (JS.of_Z 1000) [] [] in
  let rule := sample_requirement performance high (Some 100%Z) None in
  ComplianceRequirement.applicableFrom rule = Some 100%Z /\
  (frozen 5 1%nat < 100)%Z /\
  ComplianceStatus.status (fst (evaluateRequirement rule grant (frozen 5) 1%nat))
    = not_applicable.
Proof.
  cbv zeta. split; [ reflexivity | ]. split; [ reflexivity | ].
  destruct (C8_future_requirement_not_applicable
              (sample_grant 0 864000000 (JS.of_Z 1000) [] []) []
              (frozen 5) 0%nat) as [Hone _].
  apply (Hone (sample_requirement performance high (Some 100%Z) None)
              1%nat 100%Z); reflexivity.
Defined.

(** *** Documentation requirements *)

Lemma find_insert {A} (p : A -> bool) (d : A) (before after : list A) :
  is_Some (List.find p (before ++ after)) ->
  is_Some (List.find p (before ++ d :: after)).
Proof.
  induction before as [ | x before IH ]; cbn.
  - intros H. destruct (p d); [ eexists; reflexivity | exact H ].
  - destruct (p x); [ intros _; eexists; reflexivity | exact IH ].
Qed.

Lemma checkDocumentation_loop_cases (submitted : list Document.t)
  (required : list string) :
  forall evidence,
    fst (checkDocumentation_loop submitted required evidence) = compliant \/
    fst (checkDocumentation_loop submitted required evidence) = non_compliant.
Proof.
  induction required as [ | doc rest IH ]; intros evidence; cbn.
  - left; reflexivity.
  - destruct (List.find _ submitted); [ apply IH | right; reflexivity ].
Qed.

Lemma checkDocumentation_loop_monotone (submitted submitted' : list Document.t)
  (required : list string) :
  (forall p, is_Some (List.find p submitted) -> is_Some (List.find p submitted')) ->
  forall evidence evidence',
    fst (checkDocumentation_loop submitted required evidence) = compliant ->
    fst (checkDocumentation_loop submitted' required evidence') = compliant.
Proof.
  intros Hmore.
  induction required as [ | doc rest IH ]; intros evidence evidence'; cbn.
  - reflexivity.
  - pose proof (Hmore (fun d => String.eqb (Document.type d) doc && is_approved d))
      as Hdoc.
    destruct (List.find _ submitted) as [found | ].
    + destruct Hdoc as [found' ->]; [ eexists; reflexivity | ]. apply IH.
    + discriminate.
Qed.

(** C9: adding to the documents of a grant an approved document whose type
    the requirement lists leaves the status of a documentation requirement
    as it was or turns it from [non-compliant] to [compliant], never from
    [compliant] to [non-compliant]; and a requirement whose
    [requiredDocuments] is absent or empty is [compliant]. *)
Theorem C9_documentation_monotone (r : ComplianceRequirement.t)
  (grant : Grant.t) (evidence : list Evidence) :
  (forall grant' d before after required,
     Grant.documents grant = before ++ after ->
     Grant.documents grant' = before ++ d :: after ->
     Document.status d = doc_approved ->
     parameter Parameters.requiredDocuments r = Some required ->
     In (Document.type d) required ->
     let status := fst (checkDocumentation r grant evidence) in
     let status' := fst (checkDocumentation r grant' evidence) in
     (status' = status \/ (status = non_compliant /\ status' = compliant)) /\
     (status = compliant -> status' = compliant)) /\
  (parameter Parameters.requiredDocuments r = None \/
   parameter Parameters.requiredDocuments r = Some [] ->
   fst (checkDocumentation r grant evidence) = compliant).
Proof.
  split.
  - intros grant' d before after required Hdocs Hdocs' _ Hreq _. cbv zeta.
    unfold checkDocumentation. rewrite Hreq, Hdocs, Hdocs'.
    assert (Hkeep :
              fst (checkDocumentation_loop (before ++ after) required evidence)
                = compliant ->
              fst (checkDocumentation_loop (before ++ d :: after) required evidence)
                = compliant).
    { apply checkDocumentation_loop_monotone. intros p. apply find_insert. }
    split; [ | exact Hkeep ].
    destruct (checkDocumentation_loop_cases (before ++ after) required evidence)
      as [E | E]; rewrite E.
    + left. apply Hkeep, E.
    + destruct (checkDocumentation_loop_cases (before ++ d :: after) required
                                              evidence) as [E' | E']; rewrite E'.
      * right. split; reflexivity.
      * left. reflexivity.
  - unfold checkDocumentation. intros [-> | ->]; reflexivity.
Qed.

(** The theorem at a grant without documents to which the one required
    document is added: the status goes from [non-compliant] to
    [compliant]. *)
Lemma C9_documentation_monotone_witness :
  let audit := {| Document.id := "D-1"; Document.type := "audit";
                  Document.name := "audit.pdf"; Document.uploadDate := 0;
                  Document.status := doc_approved |} in
  let rule := sample_requirement documentation medium None
                (Some (required_documents ["audit"])) in
  let grant := sample_grant 0 864000000 (JS.of_Z 1000) [] [] in
  let grant' :=
    {| Grant.id := "G-1"; Grant.status := active;
       Grant.totalFunding := JS.of_Z 1000;
       Grant.startDate := 0; Grant.endDate := 864000000;
       Grant.milestones := []; Grant.expenditures := [];
       Grant.kpis := []; Grant.documents := [audit]; Grant.reports := [];
       Grant.updatedBy := "system"; Grant.updatedAt := 0;
       Grant.version := JS.of_Z 1; Grant.history := [] |} in
  fst (checkDocumentation rule grant []) = non_compliant /\
  fst (checkDocumentation rule grant' []) = compliant /\
  (fst (checkDocumentation rule grant' []) = fst (checkDocumentation rule grant [])
   \/ (fst (checkDocumentation rule grant []) = non_compliant /\
       fst (checkDocumentation rule grant' []) = compliant)).
Proof.
  cbv zeta. split; [ reflexivity | ]. split; [ reflexivity | ].
  eapply (C9_documentation_monotone _ _ []).
  - instantiate (1 := []). instantiate (1 := []). reflexivity.
  - reflexivity.
  - reflexivity.
  - reflexivity.
  - left. reflexivity.
Defined.

(** *** Financial requirements *)

(** The sum runs over every expenditure: it depends on the amounts only,
    not on the approval status. *)
Lemma total_expenditure_amounts (grant grant' : Grant.t) :
  map Expenditure.amount (Grant.expenditures grant)
    = map Expenditure.amount (Grant.expenditures grant') ->
  total_expenditure grant = total_expenditure grant'.
Proof.
  unfold total_expenditure.
  generalize (JS.of_Z 0).
  generalize (Grant.expenditures grant'). 
  induction (Grant.expenditures grant) as [ | e l IH ];
    intros [ | e' l' ] z H; try discriminate; [ reflexivity | ].
  cbn in H |- *. injection H as -> Hl. apply IH, Hl.
Qed.

(** The status is [non-compliant] exactly when the utilization exceeds the
    maximum that [checkFinancial] computes with [||]. *)
Lemma checkFinancial_status (r : ComplianceRequirement.t) (grant : Grant.t)
  (evidence : list Evidence) :
  fst (checkFinancial r grant evidence) =
    if JS.gt (JS.div (total_expenditure grant) (Grant.totalFunding grant))
             (JS.or_default (parameter Parameters.maxUtilizationRate r) (JS.of_Z 1))
    then non_compliant else compliant.
Proof. unfold checkFinancial. destruct (JS.gt _ _); reflexivity. Qed.

(** The scenario of the specification: a maximum of 0.9, funding of 100000
    and expenditures of 49000 (approved) and 46000 (pending). *)
Example checkFinancial_scenario :
  checkFinancial
    (sample_requirement financial high None
       (Some (max_utilization (JS.literal 9 10))))
    (sample_grant 0 864000000 (JS.of_Z 100000)
       [sample_expenditure 49000 exp_approved;
        sample_expenditure 46000 exp_pending] [])
    []
  = (non_compliant,
     [UtilizationExceeds (JS.literal 95 100) (JS.literal 9 10)]).
Proof. vm_compute. reflexivity. Qed.

(** C5 (the code departs from the claim): with [maxUtilizationRate: 0]
    present in the parameters, funding of 100 and one expenditure of 50,
    the utilization 0.5 strictly exceeds the parameter, so the claim gives
    [non-compliant]; [0 || 1.0] is [1.0], and the evaluator answers
    [compliant]. *)
Theorem C5_zero_maximum_replaced_by_default :
  let rule := sample_requirement financial high None
                (Some (max_utilization (JS.of_Z 0))) in
  let grant := sample_grant 0 864000000 (JS.of_Z 100)
                 [sample_expenditure 50 exp_approved] [] in
  let actualUtilization :=
    JS.div (total_expenditure grant) (Grant.totalFunding grant) in
  parameter Parameters.maxUtilizationRate rule = Some (JS.of_Z 0) /\
  actualUtilization = JS.literal 1 2 /\
  JS.gt actualUtilization (JS.of_Z 0) = true /\
  checkFinancial rule grant [] = (compliant, [UtilizationWithin actualUtilization]) /\
  ComplianceStatus.status (fst (evaluateRequirement rule grant (frozen 5) 0%nat))
    = compliant.
Proof. cbv zeta. repeat split; vm_compute; reflexivity. Qed.

(** C10 (as stated, refuted): the infinite quotient does not exceed every
    maximum.  With funding of 0 and one expenditure of 50 the quotient is
    [Infinity]; against [maxUtilizationRate: Infinity] the comparison is
    false and the status is [compliant]. *)
Lemma C10_infinite_maximum_is_compliant :
  let rule := sample_requirement financial high None
                (Some (max_utilization JS.Infinity)) in
  let grant := sample_grant 0 864000000 (JS.of_Z 0)
                 [sample_expenditure 50 exp_approved] [] in
  Grant.totalFunding grant = JS.pos_zero /\
  JS.gt (total_expenditure grant) (JS.of_Z 0) = true /\
  JS.div (total_expenditure grant) (Grant.totalFunding grant) = JS.Infinity /\
  ComplianceStatus.status (fst (evaluateRequirement rule grant (frozen 5) 0%nat))
    = compliant.
Proof. cbv zeta. repeat split; vm_compute; reflexivity. Qed.

Lemma gt_zero_cases (x : JS.number) :
  JS.gt x (JS.of_Z 0) = true ->
  x = JS.Infinity \/ exists m e, x = S754_finite false m e.
Proof.
  destruct x as [ s | [ | ] | | [ | ] m e ]; cbn; try discriminate.
  - left; reflexivity.
  - right; eauto.
Qed.

Lemma eq_zero_cases (x : JS.number) :
  JS.strict_eq x (JS.of_Z 0) = true -> exists s, x = S754_zero s.
Proof.
  destruct x as [ s | [ | ] | | [ | ] m e ]; cbn; try discriminate. eauto.
Qed.

Lemma Infinity_exceeds (x : JS.number) :
  x <> JS.Infinity -> JS.is_NaN x = false -> JS.gt JS.Infinity x = true.
Proof.
  destruct x as [ s | [ | ] | | [ | ] m e ]; cbn; intros Hx Hn;
    try reflexivity; try discriminate. contradiction.
Qed.

Lemma or_default_not_NaN (v : option JS.number) :
  JS.is_NaN (JS.or_default v (JS.of_Z 1)) = false.
Proof. destruct v as [ [ s | s | | s m e ] | ]; reflexivity. Qed.

(** C10 (amended): an applicable financial requirement on a grant whose
    [totalFunding] is zero is evaluated without failure, to [compliant] or
    [non-compliant].  It is [non-compliant] when the expenditure amounts sum
    to a positive value, [totalFunding] is [+0] and [maxUtilizationRate] is
    absent or a number other than [Infinity] and NaN (the quotient is
    [Infinity]); it is [compliant] when the sum is zero (the quotient is
    NaN, and the comparison false), and when the sum is positive and
    [totalFunding] is [-0] (the quotient is [-Infinity]). *)
Theorem C10_financial_check_zero_funding (r : ComplianceRequirement.t)
  (grant : Grant.t) (clk : Clock) (k : nat)
  (Htype : ComplianceRequirement.type r = financial)
  (Happlicable : not_yet_applicable r (clk k) = false)
  (Hfunding : JS.strict_eq (Grant.totalFunding grant) (JS.of_Z 0) = true) :
  let st := fst (evaluateRequirement r grant clk k) in
  (ComplianceStatus.status st = compliant \/
   ComplianceStatus.status st = non_compliant) /\
  (JS.gt (total_expenditure grant) (JS.of_Z 0) = true ->
   Grant.totalFunding grant = JS.pos_zero ->
   (forall x, parameter Parameters.maxUtilizationRate r = Some x ->
              x <> JS.Infinity /\ JS.is_NaN x = false) ->
   ComplianceStatus.status st = non_compliant) /\
  (JS.strict_eq (total_expenditure grant) (JS.of_Z 0) = true ->
   ComplianceStatus.status st = compliant) /\
  (JS.gt (total_expenditure grant) (JS.of_Z 0) = true ->
   Grant.totalFunding grant = JS.neg_zero ->
   ComplianceStatus.status st = compliant).
Proof.
  cbv zeta.
  rewrite (evaluateRequirement_financial r grant clk k Htype Happlicable).
  rewrite checkFinancial_status.
  set (maxUtilization := JS.or_default _ _).
  split; [ | split; [ | split ] ].
  - destruct (JS.gt _ maxUtilization); auto.
  - intros Hsum Hzero Hmax. rewrite Hzero.
    assert (Hq : JS.div (total_expenditure grant) JS.pos_zero = JS.Infinity).
    { destruct (gt_zero_cases _ Hsum) as [-> | (m & e & ->)]; reflexivity. }
    rewrite Hq, Infinity_exceeds; [ reflexivity | | ].
    + subst maxUtilization. unfold JS.or_default.
      destruct (parameter Parameters.maxUtilizationRate r) as [x | ] eqn:E;
        [ | discriminate ].
      destruct (JS.truthy x); [ apply (Hmax x eq_refl) | discriminate ].
    + apply or_default_not_NaN.
  - intros Hsum.
    destruct (eq_zero_cases _ Hsum) as [s ->].
    destruct (eq_zero_cases _ Hfunding) as [s' ->].
    destruct maxUtilization; reflexivity.
  - intros Hsum Hzero. rewrite Hzero.
    assert (Hq : JS.div (total_expenditure grant) JS.neg_zero
                 = S754_infinity true).
    { destruct (gt_zero_cases _ Hsum) as [-> | (m & e & ->)]; reflexivity. }
    rewrite Hq.
    destruct maxUtilization as [ s | [ | ] | | [ | ] m e ]; reflexivity.
Qed.

(** The theorem at a grant without funding that has spent 50, against the
    default maximum. *)
Lemma C10_financial_check_zero_funding_witness :
  let rule := sample_requirement financial high None None in
  let grant := sample_grant 0 864000000 (JS.of_Z 0)
                 [sample_expenditure 50 exp_pending] [] in
  ComplianceStatus.status (fst (evaluateRequirement rule grant (frozen 5) 0%nat))
    = non_compliant.
Proof.
  cbv zeta.
  apply (C10_financial_check_zero_funding
           (sample_requirement financial high None None)
           (sample_grant 0 864000000 (JS.of_Z 0)
              [sample_expenditure 50 exp_pending] [])
           (frozen 5) 0%nat eq_refl eq_refl eq_refl).
  - vm_compute. reflexivity.
  - reflexivity.
  - intros x Hx. discriminate Hx.
Defined.

End Compliance.

(* ===================================================================== *)
(** * Further properties *)
(* ===================================================================== *)

(* --------------------------------------------------------------------- *)
(** ** Integers and sums as numbers *)
(* --------------------------------------------------------------------- *)

Section Numbers.

Lemma digits2_pos_lower (p : positive) :
  2 ^ (Z.pos (digits2_pos p) - 1) <= Z.pos p.
Proof.
  induction p as [ p IH | p IH | ]; cbn [digits2_pos].
  - rewrite Pos2Z.inj_succ.
    replace (Z.succ (Z.pos (digits2_pos p)) - 1)
      with (Z.succ (Z.pos (digits2_pos p) - 1)) by lia.
    rewrite Z.pow_succ_r by lia. lia.
  - rewrite Pos2Z.inj_succ.
    replace (Z.succ (Z.pos (digits2_pos p)) - 1)
      with (Z.succ (Z.pos (digits2_pos p) - 1)) by lia.
    rewrite Z.pow_succ_r by lia. lia.
  - cbn. lia.
Qed.

Lemma digits2_pos_bound (p : positive) :
  Z.pos p < 2 ^ 53 -> Z.pos (digits2_pos p) <= 53.
Proof.
  intros H. pose proof (digits2_pos_lower p) as L.
  destruct (Z_le_gt_dec (Z.pos (digits2_pos p)) 53) as [ | G ]; [ assumption | ].
  assert (2 ^ 53 <= 2 ^ (Z.pos (digits2_pos p) - 1))
    by (apply Z.pow_le_mono_r; lia).
  lia.
Qed.

Lemma digits2_pos_iter_xO (p k : positive) :
  digits2_pos (Pos.iter xO p k) = (digits2_pos p + k)%positive.
Proof.
  revert p. induction k as [ | k IH ] using Pos.peano_ind; intros p.
  - cbn. lia.
  - rewrite Pos.iter_succ. cbn [digits2_pos]. rewrite IH. lia.
Qed.

(** A mantissa of 53 bits with an exponent in range is kept as it is. *)
Lemma binary_round_aux_canonical (s : bool) (m : positive) (e : Z) :
  Z.pos (digits2_pos m) = 53 -> -1074 <= e <= 971 ->
  binary_round_aux JS.prec JS.emax s (Z.pos m) e loc_Exact = S754_finite s m e.
Proof.
  intros Hd He. unfold binary_round_aux, shr_fexp.
  cbn [Zdigits2 shr_record_of_loc]. rewrite Hd.
  assert (Hf : fexp JS.prec JS.emax (53 + e) - e = 0).
  { unfold fexp, emin, JS.prec, JS.emax. lia. }
  rewrite Hf. cbn [shr shr_m loc_of_shr_record round_nearest_even Zdigits2].
  rewrite Hd, Hf. cbn [shr shr_m].
  unfold JS.emax, JS.prec.
  destruct (Z.leb_spec e (1024 - 53)); [ reflexivity | lia ].
Qed.

Lemma binary_round_small (s : bool) (p : positive) :
  Z.pos p < 2 ^ 53 ->
  exists m e, binary_round JS.prec JS.emax s p 0 = S754_finite s m e.
Proof.
  intros H. pose proof (digits2_pos_bound p H) as Hd.
  unfold binary_round.
  assert (Hf : fexp JS.prec JS.emax (Z.pos (digits2_pos p) + 0)
               = Z.pos (digits2_pos p) - 53).
  { unfold fexp, emin, JS.prec, JS.emax. lia. }
  rewrite Hf. unfold shl_align.
  destruct (Z.pos (digits2_pos p) - 53 - 0) as [ | d | d ] eqn:E; try lia.
  - eexists _, _. apply binary_round_aux_canonical; lia.
  - eexists _, _. apply binary_round_aux_canonical; [ | lia ].
    rewrite digits2_pos_iter_xO. lia.
Qed.

(** An integer below [2^53] in absolute value converts to a finite number,
    zero for 0 and positive for a positive integer. *)
Lemma of_Z_small (z : Z) :
  - 2 ^ 53 < z < 2 ^ 53 -> JS.is_finite (JS.of_Z z) = true.
Proof.
  intros H. unfold JS.of_Z, binary_normalize.
  destruct z as [ | p | p ]; [ reflexivity | | ].
  - destruct (binary_round_small false p) as (m & e & ->); [ lia | reflexivity ].
  - destruct (binary_round_small true p) as (m & e & ->); [ lia | reflexivity ].
Qed.

Lemma of_Z_positive (z : Z) :
  0 < z < 2 ^ 53 -> exists m e, JS.of_Z z = S754_finite false m e.
Proof.
  intros H. unfold JS.of_Z, binary_normalize.
  destruct z as [ | p | p ]; try lia.
  apply binary_round_small. lia.
Qed.

Lemma of_nat_cases (n : nat) :
  (Z.of_nat n < 2 ^ 53) ->
  (n = 0%nat /\ JS.of_nat n = JS.pos_zero) \/
  ((0 < n)%nat /\ exists m e, JS.of_nat n = S754_finite false m e).
Proof.
  intros H. destruct n as [ | n ]; [ left; split; reflexivity | right ].
  split; [ lia | ]. apply of_Z_positive. lia.
Qed.

Lemma binary_round_not_NaN (s : bool) (m : positive) (e : Z) :
  JS.is_NaN (binary_round JS.prec JS.emax s m e) = false.
Proof.
  unfold binary_round. destruct (shl_align m e _) as [mz ez].
  apply binary_round_aux_not_NaN. lia.
Qed.

Lemma binary_normalize_not_NaN (z e : Z) (szero : bool) :
  JS.is_NaN (binary_normalize JS.prec JS.emax z e szero) = false.
Proof.
  destruct z; cbn [binary_normalize];
    [ reflexivity | apply binary_round_not_NaN | apply binary_round_not_NaN ].
Qed.

(** Adding a finite number to a number gives a number. *)
Lemma add_finite_not_NaN (x y : JS.number) :
  JS.is_NaN x = false -> JS.is_finite y = true -> JS.is_NaN (JS.add x y) = false.
Proof.
  destruct x as [ sx | sx | | sx mx ex ], y as [ sy | sy | | sy my ey ];
    try discriminate; intros _ _; try reflexivity.
  - destruct sx, sy; reflexivity.
  - unfold JS.add, SFadd. apply binary_normalize_not_NaN.
Qed.

Lemma sum_not_NaN (amounts : list JS.number) :
  forall start,
    JS.is_NaN start = false ->
    Forall (fun a => JS.is_finite a = true) amounts ->
    JS.is_NaN (fold_left JS.add amounts start) = false.
Proof.
  induction amounts as [ | a rest IH ]; intros start Hs Hall; [ exact Hs | ].
  inversion Hall as [ | ? ? Ha Hrest ]; subst. cbn.
  apply IH; [ apply add_finite_not_NaN; assumption | exact Hrest ].
Qed.

Lemma fold_amounts {A} (amount : A -> JS.number) (l : list A) (start : JS.number) :
  fold_left (fun sum x => JS.add sum (amount x)) l start
  = fold_left JS.add (map amount l) start.
Proof.
  revert start. induction l as [ | x l IH ]; intros start; [ reflexivity | ].
  cbn. apply IH.
Qed.

(** The quotient of a number that is not NaN by a positive finite number
    is not NaN. *)
Lemma div_by_positive_not_NaN (x : JS.number) (m : positive) (e : Z) :
  JS.is_NaN x = false -> JS.is_NaN (JS.div x (S754_finite false m e)) = false.
Proof.
  destruct x as [ sx | sx | | sx mx ex ]; try discriminate; intros _;
    try reflexivity.
  apply div_finite_not_NaN; reflexivity.
Qed.

End Numbers.

(* --------------------------------------------------------------------- *)
(** ** The audit trail under sequences of mutator calls *)
(* --------------------------------------------------------------------- *)

Section AuditTrail.

Lemma count_if_cons_bump {A} (p : A -> bool) (x : A) (l : list A) :
  count_if p (x :: l) = (bump (p x) 0 + count_if p l)%nat.
Proof. cbn. destruct (p x); reflexivity. Qed.

Lemma array_push_eq (r : positive) (x : Heap.Item)
  (store : gmap positive (list Heap.Item)) :
  Heap.array (Heap.push r x store) r = Heap.array store r ++ [x].
Proof. unfold Heap.push, Heap.array at 1. rewrite lookup_insert_eq. reflexivity. Qed.

Lemma array_push_ne (r r' : positive) (x : Heap.Item)
  (store : gmap positive (list Heap.Item)) :
  r <> r' -> Heap.array (Heap.push r x store) r' = Heap.array store r'.
Proof.
  intros H. unfold Heap.push, Heap.array at 1.
  rewrite lookup_insert_ne by exact H. reflexivity.
Qed.

(** What one call does: it pushes one item to one array of the grant, and
    keeps every reference and the fields that identify the grant. *)
Lemma heap_call_effect (m : Mutation) (this : Heap.t)
  (store : gmap positive (list Heap.Item)) (clk : Clock) (n : nat) :
  let after := fst (heap_call m this store clk n) in
  snd after =
    match m with
    | AddMilestone x =>
        Heap.push (Heap.milestones this) (Heap.milestone_item x) store
    | AddExpenditure x =>
        Heap.push (Heap.expenditures this) (Heap.expenditure_item x) store
    | UpdateStatus newStatus user =>
        Heap.push (Heap.history this)
          (Heap.history_item
             {| HistoryEntry.date := clk (S n);
                HistoryEntry.action := "STATUS_CHANGE";
                HistoryEntry.user := user;
                HistoryEntry.changes :=
                  status_change (Heap.status this) newStatus |})
          store
    end /\
  Heap.status (fst after) =
    match m with UpdateStatus newStatus _ => newStatus | _ => Heap.status this end /\
  Heap.milestones (fst after) = Heap.milestones this /\
  Heap.expenditures (fst after) = Heap.expenditures this /\
  Heap.history (fst after) = Heap.history this /\
  Heap.kpis (fst after) = Heap.kpis this /\
  Heap.documents (fst after) = Heap.documents this /\
  Heap.reports (fst after) = Heap.reports this /\
  Heap.id (fst after) = Heap.id this /\
  Heap.totalFunding (fst after) = Heap.totalFunding this /\
  Heap.startDate (fst after) = Heap.startDate this /\
  Heap.endDate (fst after) = Heap.endDate this.
Proof. destruct m; cbn; repeat split. Qed.

Lemma heap_call_history (m : Mutation) (this : Heap.t)
  (store : gmap positive (list Heap.Item)) (clk : Clock) (n : nat) :
  own_history this ->
  let after := fst (heap_call m this store clk n) in
  exists added,
    Heap.array (snd after) (Heap.history this)
      = Heap.array store (Heap.history this) ++ map Heap.history_item added /\
    length added = bump (is_status_update m) 0 /\
    Forall (fun e => HistoryEntry.action e = "STATUS_CHANGE" /\
                     exists newStatus,
                       HistoryEntry.changes e
                         = status_change (Heap.status this) newStatus /\
                       Heap.status (fst after) = newStatus) added.
Proof.
  intros [Hm He]. cbv zeta.
  destruct (heap_call_effect m this store clk n) as (Hs & Hst & _).
  rewrite Hs, Hst.
  destruct m as [ x | x | newStatus user ].
  - exists []. rewrite array_push_ne by congruence.
    cbn. rewrite app_nil_r. repeat constructor.
  - exists []. rewrite array_push_ne by congruence.
    cbn. rewrite app_nil_r. repeat constructor.
  - eexists [_]. rewrite array_push_eq. cbn.
    repeat split. repeat constructor. eexists. split; reflexivity.
Qed.

Lemma own_history_kept (m : Mutation) (this : Heap.t)
  (store : gmap positive (list Heap.Item)) (clk : Clock) (n : nat) :
  own_history this -> own_history (fst (fst (heap_call m this store clk n))).
Proof.
  destruct (heap_call_effect m this store clk n)
    as (_ & _ & Hm & He & Hh & _).
  unfold own_history. rewrite Hm, He, Hh. tauto.
Qed.

(** X1: for a grant whose history array is not also its milestone or
    expenditure array, whatever sequence of [addMilestone],
    [addExpenditure] and [updateStatus] calls is made, the history that
    was there stays in front, untouched; the calls add one
    [STATUS_CHANGE] entry per [updateStatus] and nothing else. *)
Theorem history_is_append_only (ms : list Mutation) (this : Heap.t)
  (store : gmap positive (list Heap.Item)) (clk : Clock) (n : nat) :
  own_history this ->
  let after := fst (heap_calls ms this store clk n) in
  Heap.history (fst after) = Heap.history this /\
  exists added,
    Heap.array (snd after) (Heap.history this)
      = Heap.array store (Heap.history this) ++ map Heap.history_item added /\
    length added = count_if is_status_update ms /\
    Forall (fun e => HistoryEntry.action e = "STATUS_CHANGE") added.
Proof.
  cbv zeta. revert this store n.
  induction ms as [ | m rest IH ]; intros this store n Hown.
  - cbn. split; [ reflexivity | ]. exists []. rewrite app_nil_r.
    repeat constructor.
  - cbn [heap_calls]. unfold bind.
    pose proof (heap_call_history m this store clk n Hown) as H1.
    pose proof (own_history_kept m this store clk n Hown) as Hown'.
    destruct (heap_call_effect m this store clk n)
      as (_ & _ & _ & _ & Hh & _).
    destruct (heap_call m this store clk n) as [[this' store'] n'].
    cbn [fst snd] in H1, Hown', Hh |- *.
    destruct H1 as (a1 & H1 & L1 & F1).
    destruct (IH this' store' n' Hown') as (Href & a2 & H2 & L2 & F2).
    rewrite Hh in Href, H2. split; [ exact Href | ].
    exists (a1 ++ a2). rewrite H2, H1, map_app, <- app_assoc.
    split; [ reflexivity | ]. split.
    + rewrite length_app, L1, L2, count_if_cons_bump. reflexivity.
    + apply Forall_app; split; [ | exact F2 ].
      eapply Forall_impl; [ exact F1 | ]. intros e [Ha _]. exact Ha.
Qed.

(** The theorem on a fresh grant with six arrays of its own. *)
Lemma history_is_append_only_witness :
  let grant :=
    {| Heap.id := "G-1"; Heap.status := active;
       Heap.totalFunding := JS.of_Z 1000;
       Heap.startDate := 0; Heap.endDate := 864000000;
       Heap.milestones := 1; Heap.expenditures := 2; Heap.kpis := 3;
       Heap.documents := 4; Heap.reports := 5;
       Heap.updatedBy := "system"; Heap.updatedAt := 0;
       Heap.version := JS.of_Z 1; Heap.history := 6 |} in
  let after :=
    fst (heap_calls [UpdateStatus suspended "ana"; AddMilestone sample_milestone;
                     UpdateStatus active "ben"] grant ∅ (frozen 5) 0%nat) in
  exists added,
    Heap.array (snd after) 6%positive = map Heap.history_item added /\
    length added = 2%nat.
Proof.
  cbv zeta.
  match goal with
  | |- context [heap_calls ?ms ?g ?s ?c ?k] =>
      destruct (history_is_append_only ms g s c k) as (_ & added & H & L & _)
  end.
  - split; discriminate.
  - exists added. split; [ exact H | exact L ].
Defined.

(** Without the condition the statement fails: when one array serves as
    milestone array and as history array (the constructor keeps whatever
    arrays it is given), [addMilestone] puts the milestone into the
    history. *)
Example shared_array_receives_milestone :
  let grant :=
    {| Heap.id := "G-1"; Heap.status := active;
       Heap.totalFunding := JS.of_Z 1000;
       Heap.startDate := 0; Heap.endDate := 864000000;
       Heap.milestones := 1; Heap.expenditures := 1; Heap.kpis := 3;
       Heap.documents := 4; Heap.reports := 5;
       Heap.updatedBy := "system"; Heap.updatedAt := 0;
       Heap.version := JS.of_Z 1; Heap.history := 1 |} in
  let after := fst (Heap.addMilestone sample_milestone grant ∅ (frozen 5) 0%nat) in
  Heap.array (snd after) (Heap.history (fst after))
    = [Heap.milestone_item sample_milestone] /\
  Heap.array (snd after) (Heap.expenditures (fst after))
    = [Heap.milestone_item sample_milestone].
Proof. cbv zeta. split; reflexivity. Qed.

Lemma chain_snoc (s t u : GrantStatus) (h : list HistoryEntry.t)
  (e : HistoryEntry.t) :
  chain s h t -> HistoryEntry.changes e = status_change t u ->
  chain s (h ++ [e]) u.
Proof.
  intros H He. induction H as [ s | s t' u' e' rest Hc Hrest IH ].
  - cbn. econstructor; [ exact He | constructor ].
  - cbn. econstructor; [ exact Hc | apply IH, He ].
Qed.

Lemma heap_call_chain (m : Mutation) (this : Heap.t)
  (store : gmap positive (list Heap.Item)) (clk : Clock) (n : nat)
  (s0 : GrantStatus) (h : list HistoryEntry.t) :
  own_history this ->
  Heap.array store (Heap.history this) = map Heap.history_item h ->
  chain s0 h (Heap.status this) ->
  let after := fst (heap_call m this store clk n) in
  exists h',
    Heap.array (snd after) (Heap.history (fst after)) = map Heap.history_item h' /\
    chain s0 h' (Heap.status (fst after)).
Proof.
  intros [Hm He] Harr Hchain. cbv zeta.
  destruct (heap_call_effect m this store clk n)
    as (Hs & Hst & _ & _ & Hh & _).
  rewrite Hs, Hst, Hh.
  destruct m as [ x | x | newStatus user ].
  - exists h. rewrite array_push_ne by congruence. split; assumption.
  - exists h. rewrite array_push_ne by congruence. split; assumption.
  - eexists (h ++ [_]). rewrite array_push_eq, Harr, map_app.
    split; [ reflexivity | ].
    eapply chain_snoc; [ exact Hchain | reflexivity ].
Qed.

(** X2: the status transitions recorded in the history stay linked.  For
    a grant whose history array is not also its milestone or expenditure
    array: if the array holds history entries that lead from a status
    [s0] to the current status, each starting from the status the previous
    one ended in, it still does after any sequence of mutator calls. *)
Theorem history_chain_is_kept (ms : list Mutation) (this : Heap.t)
  (store : gmap positive (list Heap.Item)) (clk : Clock) (n : nat)
  (s0 : GrantStatus) (h : list HistoryEntry.t) :
  own_history this ->
  Heap.array store (Heap.history this) = map Heap.history_item h ->
  chain s0 h (Heap.status this) ->
  let after := fst (heap_calls ms this store clk n) in
  exists h',
    Heap.array (snd after) (Heap.history (fst after)) = map Heap.history_item h' /\
    chain s0 h' (Heap.status (fst after)).
Proof.
  cbv zeta. revert this store n h.
  induction ms as [ | m rest IH ]; intros this store n h Hown Harr Hchain.
  - exists h. split; assumption.
  - cbn [heap_calls]. unfold bind.
    pose proof (heap_call_chain m this store clk n s0 h Hown Harr Hchain) as H1.
    pose proof (own_history_kept m this store clk n Hown) as Hown'.
    destruct (heap_call m this store clk n) as [[this' store'] n'].
    cbn [fst snd] in H1, Hown' |- *.
    destruct H1 as (h1 & Harr1 & Hchain1).
    apply (IH this' store' n' h1 Hown' Harr1 Hchain1).
Qed.

(** The theorem on a fresh grant that is suspended, given a milestone and
    reactivated. *)
Lemma history_chain_is_kept_witness :
  let grant :=
    {| Heap.id := "G-1"; Heap.status := active;
       Heap.totalFunding := JS.of_Z 1000;
       Heap.startDate := 0; Heap.endDate := 864000000;
       Heap.milestones := 1; Heap.expenditures := 2; Heap.kpis := 3;
       Heap.documents := 4; Heap.reports := 5;
       Heap.updatedBy := "system"; Heap.updatedAt := 0;
       Heap.version := JS.of_Z 1; Heap.history := 6 |} in
  let after :=
    fst (heap_calls [UpdateStatus suspended "ana"; AddMilestone sample_milestone;
                     UpdateStatus active "ben"] grant ∅ (frozen 5) 0%nat) in
  exists h,
    Heap.array (snd after) 6%positive = map Heap.history_item h /\
    chain active h active.
Proof.
  cbv zeta.
  match goal with
  | |- context [heap_calls ?ms ?g ?s ?c ?k] =>
      apply (history_chain_is_kept ms g s c k active [])
  end.
  - split; discriminate.
  - reflexivity.
  - constructor.
Defined.

Lemma own_arrays_kept (m : Mutation) (this : Heap.t)
  (store : gmap positive (list Heap.Item)) (clk : Clock) (n : nat) :
  own_arrays this -> own_arrays (fst (fst (heap_call m this store clk n))).
Proof.
  destruct (heap_call_effect m this store clk n)
    as (_ & _ & Hm & He & Hh & Hk & Hd & Hr & _).
  unfold own_arrays, own_history. rewrite Hm, He, Hh, Hk, Hd, Hr. tauto.
Qed.

Lemma heap_call_frame (m : Mutation) (this : Heap.t)
  (store : gmap positive (list Heap.Item)) (clk : Clock) (n : nat) (r : positive) :
  r <> Heap.milestones this -> r <> Heap.expenditures this ->
  r <> Heap.history this ->
  Heap.array (snd (fst (heap_call m this store clk n))) r = Heap.array store r.
Proof.
  intros Hm He Hh.
  destruct (heap_call_effect m this store clk n) as (Hs & _). rewrite Hs.
  destruct m; apply array_push_ne; congruence.
Qed.

Lemma heap_call_adds (m : Mutation) (this : Heap.t)
  (store : gmap positive (list Heap.Item)) (clk : Clock) (n : nat) :
  own_arrays this ->
  let after := fst (heap_call m this store clk n) in
  Heap.array (snd after) (Heap.milestones this)
    = Heap.array store (Heap.milestones this)
      ++ map Heap.milestone_item (added_milestones [m]) /\
  Heap.array (snd after) (Heap.expenditures this)
    = Heap.array store (Heap.expenditures this)
      ++ map Heap.expenditure_item (added_expenditures [m]).
Proof.
  intros ([Hhm Hhe] & Hme & _). cbv zeta.
  destruct (heap_call_effect m this store clk n) as (Hs & _). rewrite Hs.
  destruct m; cbn [added_milestones added_expenditures omap list_omap map];
    rewrite ?app_nil_r;
    split; first [ apply array_push_eq | apply array_push_ne; congruence ].
Qed.

(** X3: the mutators only add.  For a grant none of whose milestone,
    expenditure and history arrays is another of its array fields, after
    any sequence of calls the milestone and expenditure arrays are the old
    ones followed by the added items in call order, and the KPI, document
    and report arrays are what they were.  For every grant, shared arrays
    or not, an array that is none of those three is unchanged, and so are
    the identity, funding, dates and array references of the grant. *)
Theorem mutators_only_add (ms : list Mutation) (this : Heap.t)
  (store : gmap positive (list Heap.Item)) (clk : Clock) (n : nat) :
  let after := fst (heap_calls ms this store clk n) in
  (own_arrays this ->
   Heap.array (snd after) (Heap.milestones this)
     = Heap.array store (Heap.milestones this)
       ++ map Heap.milestone_item (added_milestones ms) /\
   Heap.array (snd after) (Heap.expenditures this)
     = Heap.array store (Heap.expenditures this)
       ++ map Heap.expenditure_item (added_expenditures ms) /\
   Heap.array (snd after) (Heap.kpis this) = Heap.array store (Heap.kpis this) /\
   Heap.array (snd after) (Heap.documents this)
     = Heap.array store (Heap.documents this) /\
   Heap.array (snd after) (Heap.reports this)
     = Heap.array store (Heap.reports this)) /\
  (forall r,
     r <> Heap.milestones this -> r <> Heap.expenditures this ->
     r <> Heap.history this ->
     Heap.array (snd after) r = Heap.array store r) /\
  Heap.milestones (fst after) = Heap.milestones this /\
  Heap.expenditures (fst after) = Heap.expenditures this /\
  Heap.history (fst after) = Heap.history this /\
  Heap.kpis (fst after) = Heap.kpis this /\
  Heap.documents (fst after) = Heap.documents this /\
  Heap.reports (fst after) = Heap.reports this /\
  Heap.id (fst after) = Heap.id this /\
  Heap.totalFunding (fst after) = Heap.totalFunding this /\
  Heap.startDate (fst after) = Heap.startDate this /\
  Heap.endDate (fst after) = Heap.endDate this.
Proof.
  cbv zeta.
  assert (Hrefs : forall ms this store n,
             let after := fst (heap_calls ms this store clk n) in
             (forall r,
                r <> Heap.milestones this -> r <> Heap.expenditures this ->
                r <> Heap.history this ->
                Heap.array (snd after) r = Heap.array store r) /\
             Heap.milestones (fst after) = Heap.milestones this /\
             Heap.expenditures (fst after) = Heap.expenditures this /\
             Heap.history (fst after) = Heap.history this /\
             Heap.kpis (fst after) = Heap.kpis this /\
             Heap.documents (fst after) = Heap.documents this /\
             Heap.reports (fst after) = Heap.reports this /\
             Heap.id (fst after) = Heap.id this /\
             Heap.totalFunding (fst after) = Heap.totalFunding this /\
             Heap.startDate (fst after) = Heap.startDate this /\
             Heap.endDate (fst after) = Heap.endDate this).
  { clear. intros ms. induction ms as [ | m rest IH ]; intros this store n.
    - cbn. repeat split.
    - cbv zeta. cbn [heap_calls]. unfold bind.
      pose proof (heap_call_effect m this store clk n) as H. cbv zeta in H.
      pose proof (fun r => heap_call_frame m this store clk n r) as Hf.
      destruct (heap_call m this store clk n) as [[this' store'] n'].
      cbn [fst snd] in H, Hf |- *.
      destruct H as (_ & _ & Hm & He & Hh & Hk & Hd & Hr & Hi & Ht & Hs & Hn).
      pose proof (IH this' store' n') as I. cbv zeta in I.
      destruct I as (If & Im & Ie & Ih & Ik & Id & Ir & Ii & It & Is & In).
      rewrite Im, Ie, Ih, Ik, Id, Ir, Ii, It, Is, In.
      split; [ | repeat split; assumption ].
      intros r H1 H2 H3. rewrite If by congruence. apply Hf; assumption. }
  split; [ | apply Hrefs ].
  revert this store n. induction ms as [ | m rest IH ]; intros this store n Hown.
  - cbn. rewrite !app_nil_r. repeat split.
  - cbn [heap_calls]. unfold bind.
    pose proof (heap_call_adds m this store clk n Hown) as Ha.
    pose proof (own_arrays_kept m this store clk n Hown) as Hown'.
    pose proof (heap_call_effect m this store clk n) as He. cbv zeta in He.
    pose proof (fun r => heap_call_frame m this store clk n r) as Hf.
    destruct (heap_call m this store clk n) as [[this' store'] n'].
    cbn [fst snd] in Ha, Hown', He, Hf |- *.
    destruct He as (_ & _ & Em & Ee & Eh & Ek & Ed & Er & _).
    destruct (IH this' store' n' Hown') as (Im & Ie & Ik & Id & Ir).
    rewrite Em, Ee, Ek, Ed, Er in *.
    destruct Ha as [Am Ae].
    destruct Hown as (_ & _ & Hothers).
    apply Forall_cons in Hothers as [(K1 & K2 & K3) Hothers].
    apply Forall_cons in Hothers as [(D1 & D2 & D3) Hothers].
    apply Forall_cons in Hothers as [(R1 & R2 & R3) _].
    rewrite Im, Ie, Ik, Id, Ir, Am, Ae, !Hf by assumption.
    rewrite <- !app_assoc, <- !map_app.
    repeat split; f_equal; f_equal;
      destruct m; reflexivity.
Qed.

Lemma mutators_only_add_witness :
  let grant :=
    {| Heap.id := "G-1"; Heap.status := active;
       Heap.totalFunding := JS.of_Z 1000;
       Heap.startDate := 0; Heap.endDate := 864000000;
       Heap.milestones := 1; Heap.expenditures := 2; Heap.kpis := 3;
       Heap.documents := 4; Heap.reports := 5;
       Heap.updatedBy := "system"; Heap.updatedAt := 0;
       Heap.version := JS.of_Z 1; Heap.history := 6 |} in
  let after :=
    fst (heap_calls [AddMilestone sample_milestone;
                     AddExpenditure (sample_expenditure 50 exp_pending)]
                    grant ∅ (frozen 5) 0%nat) in
  Heap.array (snd after) 1%positive = [Heap.milestone_item sample_milestone] /\
  Heap.array (snd after) 2%positive
    = [Heap.expenditure_item (sample_expenditure 50 exp_pending)].
Proof.
  cbv zeta.
  match goal with
  | |- context [heap_calls ?ms ?g ?s ?c ?k] =>
      destruct (mutators_only_add ms g s c k) as (Hadd & _)
  end.
  destruct Hadd as (Hm & He & _).
  - split; [ split; discriminate | ].
    split; [ discriminate | ].
    repeat constructor; discriminate.
  - split; [ exact Hm | exact He ].
Defined.

(** *** The record of a grant and the store *)

(** For a grant whose arrays are its own, the mutators of [Grant], which
    work on the contents of the arrays, do what the in-place pushes do:
    a call on the store, read back as a record, is the call on the
    record, with the same readings of the clock. *)
Lemma record_call_agrees (m : Mutation) (this : Heap.t)
  (store : gmap positive (list Heap.Item)) (clk : Clock) (n : nat) :
  own_arrays this ->
  Heap.snapshot (fst (fst (heap_call m this store clk n)))
                (snd (fst (heap_call m this store clk n)))
  = fst (call m (Heap.snapshot this store) clk n) /\
  snd (heap_call m this store clk n)
  = snd (call m (Heap.snapshot this store) clk n).
Proof.
  intros ([Hhm Hhe] & Hme & Hothers).
  apply Forall_cons in Hothers as [(K1 & K2 & K3) Hothers].
  apply Forall_cons in Hothers as [(D1 & D2 & D3) Hothers].
  apply Forall_cons in Hothers as [(R1 & R2 & R3) _].
  destruct m as [ x | x | newStatus user ];
    cbn [heap_call call];
    unfold Heap.addMilestone, Heap.addExpenditure, Heap.updateStatus,
      Grant.addMilestone, Grant.addExpenditure, Grant.updateStatus,
      bind, new_Date, ret;
    cbn [fst snd]; unfold Heap.snapshot;
    cbn [Heap.id Heap.status Heap.totalFunding Heap.startDate Heap.endDate
         Heap.milestones Heap.expenditures Heap.kpis Heap.documents
         Heap.reports Heap.updatedBy Heap.updatedAt Heap.version Heap.history
         Grant.id Grant.status Grant.totalFunding Grant.startDate Grant.endDate
         Grant.milestones Grant.expenditures Grant.kpis Grant.documents
         Grant.reports Grant.updatedBy Grant.updatedAt Grant.version
         Grant.history];
    rewrite ?array_push_eq, ?array_push_ne by congruence;
    unfold Heap.milestones_in, Heap.expenditures_in, Heap.history_in;
    rewrite ?omap_app; split; reflexivity.
Qed.

Lemma record_calls_agree (ms : list Mutation) :
  forall (this : Heap.t) (store : gmap positive (list Heap.Item))
         (clk : Clock) (n : nat),
    own_arrays this ->
    Heap.snapshot (fst (fst (heap_calls ms this store clk n)))
                  (snd (fst (heap_calls ms this store clk n)))
    = fst (calls ms (Heap.snapshot this store) clk n).
Proof.
  induction ms as [ | m rest IH ]; intros this store clk n Hown;
    [ reflexivity | ].
  cbn [heap_calls calls]. unfold bind.
  destruct (record_call_agrees m this store clk n Hown) as [Hstate Hclock].
  pose proof (own_arrays_kept m this store clk n Hown) as Hown'.
  destruct (heap_call m this store clk n) as [[this' store'] n'].
  destruct (call m (Heap.snapshot this store) clk n) as [grant' k'].
  cbn [fst snd] in Hstate, Hclock, Hown' |- *. subst grant' k'.
  apply IH, Hown'.
Qed.

End AuditTrail.

(* --------------------------------------------------------------------- *)
(** ** Progress and utilization: the methods of [Grant] and the calculator *)
(* --------------------------------------------------------------------- *)

Section Rates.

(** The record that [calculateProgress] fulfils its promise with. *)
Lemma calculateProgress_unfold (grant : Grant.t) (clk : Clock) (n : nat)
  (P : GrantProgressMetrics.t -> Prop) :
  (forall m,
     GrantProgressMetrics.fundsUtilized m = total_expenditure grant ->
     GrantProgressMetrics.utilizationRate m =
       (if JS.gt (Grant.totalFunding grant) (JS.of_Z 0)
        then JS.div (total_expenditure grant) (Grant.totalFunding grant)
        else JS.of_Z 0) ->
     GrantProgressMetrics.totalMilestones m = length (Grant.milestones grant) ->
     GrantProgressMetrics.milestonesCompleted m =
       length (List.filter is_completed (Grant.milestones grant)) ->
     GrantProgressMetrics.milestoneCompletionRate m =
       (if (0 <? length (Grant.milestones grant))%nat
        then JS.div (JS.of_nat (length (List.filter is_completed
                                                    (Grant.milestones grant))))
                    (JS.of_nat (length (Grant.milestones grant)))
        else JS.of_Z 0) ->
     GrantProgressMetrics.riskLevel m =
       calculateRiskLevel (GrantProgressMetrics.timelineProgress m)
                          (GrantProgressMetrics.utilizationRate m)
                          (GrantProgressMetrics.milestoneCompletionRate m) ->
     GrantProgressMetrics.timelineProgress m =
       JS.Math_min
         (JS.Math_max
            (JS.div
               (JS.Math_ceil (JS.div (JS.sub (getTime (clk n))
                                             (getTime (Grant.startDate grant)))
                                     ms_per_day))
               (JS.Math_ceil (JS.div (JS.sub (getTime (Grant.endDate grant))
                                             (getTime (Grant.startDate grant)))
                                     ms_per_day)))
            (JS.of_Z 0))
         (JS.of_Z 1) ->
     P m) ->
  fulfilled_with (fst (calculateProgress grant clk n)) P.
Proof.
  intros H. unfold calculateProgress, bind, new_Date, ret.
  cbn [fst fulfilled_with]. apply H; reflexivity.
Qed.

(** X4: [Grant.getProgress] and the [milestoneCompletionRate] of
    [calculateProgress] are the same number for every grant, the empty
    milestone list included (both give 0). *)
Theorem getProgress_is_milestoneCompletionRate (grant : Grant.t)
  (clk : Clock) (n : nat) :
  fulfilled_with (fst (calculateProgress grant clk n)) (fun m =>
    GrantProgressMetrics.milestoneCompletionRate m = Grant.getProgress grant).
Proof.
  apply calculateProgress_unfold. intros m _ _ _ _ Hrate _ _.
  rewrite Hrate. unfold Grant.getProgress.
  destruct (Grant.milestones grant) as [ | x l ]; reflexivity.
Qed.

Lemma filter_snoc {A} (p : A -> bool) (l : list A) (x : A) :
  List.filter p (l ++ [x]) = List.filter p l ++ (if p x then [x] else []).
Proof. rewrite List.filter_app. reflexivity. Qed.

(** X5: [Grant.getFinancialUtilization] counts approved expenditures only.
    Recording an expenditure that is pending or rejected leaves it as it
    was. *)
Theorem getFinancialUtilization_ignores_unapproved
  (expenditure : Expenditure.t) (this : Grant.t) (clk : Clock) (n : nat) :
  Expenditure.status expenditure <> exp_approved ->
  Grant.getFinancialUtilization (fst (Grant.addExpenditure expenditure this clk n))
  = Grant.getFinancialUtilization this.
Proof.
  intros H. unfold Grant.getFinancialUtilization. cbn.
  rewrite filter_snoc.
  assert (E : Grant.expenditure_approved expenditure = false).
  { unfold Grant.expenditure_approved.
    destruct (Expenditure.status expenditure); congruence. }
  rewrite E, app_nil_r. reflexivity.
Qed.

Lemma getFinancialUtilization_ignores_unapproved_witness :
  let grant := sample_grant 0 864000000 (JS.of_Z 1000)
                 [sample_expenditure 200 exp_approved] [] in
  Grant.getFinancialUtilization
    (fst (Grant.addExpenditure (sample_expenditure 700 exp_pending) grant
                               (frozen 5) 0%nat))
  = JS.literal 2 10.
Proof.
  cbv zeta.
  rewrite getFinancialUtilization_ignores_unapproved by discriminate.
  vm_compute. reflexivity.
Defined.

(** X6: the [fundsUtilized] of [calculateProgress] counts every
    expenditure.  After [addExpenditure] it is the previous sum plus the
    amount added, whatever the approval status. *)
Theorem fundsUtilized_counts_every_expenditure
  (expenditure : Expenditure.t) (this : Grant.t) (clk clk' : Clock) (n k k' : nat) :
  fulfilled_with (fst (calculateProgress this clk' k)) (fun before =>
    fulfilled_with
      (fst (calculateProgress (fst (Grant.addExpenditure expenditure this clk n))
                              clk' k'))
      (fun after =>
         GrantProgressMetrics.fundsUtilized after =
           JS.add (GrantProgressMetrics.fundsUtilized before)
                  (Expenditure.amount expenditure))).
Proof.
  apply calculateProgress_unfold. intros before Hb _ _ _ _ _ _.
  apply calculateProgress_unfold. intros after Ha _ _ _ _ _ _.
  rewrite Ha, Hb. unfold total_expenditure. cbn.
  rewrite fold_left_app. reflexivity.
Qed.

Lemma filter_all {A} (p : A -> bool) (l : list A) :
  Forall (fun x => p x = true) l -> List.filter p l = l.
Proof.
  induction 1 as [ | x l Hx _ IH ]; [ reflexivity | ].
  cbn. rewrite Hx, IH. reflexivity.
Qed.

Lemma gt_zero_not_zero (x : JS.number) :
  JS.gt x (JS.of_Z 0) = true -> JS.strict_eq x (JS.of_Z 0) = false.
Proof. destruct x as [ s | [ | ] | | [ | ] m e ]; cbn; congruence. Qed.

(** X7: when the funding is positive and every expenditure is approved,
    [Grant.getFinancialUtilization] and the [utilizationRate] of
    [calculateProgress] agree. *)
Theorem utilization_measures_agree (grant : Grant.t) (clk : Clock) (n : nat) :
  JS.gt (Grant.totalFunding grant) (JS.of_Z 0) = true ->
  Forall (fun e => Expenditure.status e = exp_approved) (Grant.expenditures grant) ->
  fulfilled_with (fst (calculateProgress grant clk n)) (fun m =>
    GrantProgressMetrics.utilizationRate m = Grant.getFinancialUtilization grant).
Proof.
  intros Hpos Hall. apply calculateProgress_unfold. intros m _ Hrate _ _ _ _ _.
  rewrite Hrate, Hpos. unfold Grant.getFinancialUtilization.
  rewrite (gt_zero_not_zero _ Hpos).
  rewrite filter_all; [ reflexivity | ].
  eapply Forall_impl; [ exact Hall | ].
  intros e He. unfold Grant.expenditure_approved. rewrite He. reflexivity.
Qed.

Lemma utilization_measures_agree_witness :
  let grant := sample_grant 0 864000000 (JS.of_Z 1000)
                 [sample_expenditure 200 exp_approved] [] in
  fulfilled_with (fst (calculateProgress grant (frozen 5) 0%nat)) (fun m =>
    GrantProgressMetrics.utilizationRate m = Grant.getFinancialUtilization grant).
Proof.
  cbv zeta. apply utilization_measures_agree.
  - vm_compute. reflexivity.
  - repeat constructor.
Defined.

(** The two measures part when an expenditure is not approved: here the
    calculator reports 90% where the method of [Grant] reports 20%. *)
Example utilization_measures_differ :
  let grant := sample_grant 0 864000000 (JS.of_Z 1000)
                 [sample_expenditure 200 exp_approved;
                  sample_expenditure 700 exp_pending] [] in
  Grant.getFinancialUtilization grant = JS.literal 2 10 /\
  fulfilled_with (fst (calculateProgress grant (frozen 5) 0%nat)) (fun m =>
    GrantProgressMetrics.utilizationRate m = JS.literal 9 10).
Proof. cbv zeta. split; vm_compute; reflexivity. Qed.

Lemma not_gt_zero_cases (x : JS.number) :
  JS.gt x (JS.of_Z 0) = true -> exists m e, x = S754_finite false m e \/ x = JS.Infinity.
Proof.
  destruct x as [ s | [ | ] | | [ | ] m e ]; cbn; try discriminate; intros _.
  - exists 1%positive, 0. right; reflexivity.
  - exists m, e. left; reflexivity.
Qed.

(** X8: the [utilizationRate] of [calculateProgress] is never NaN when the
    funding and the expenditure amounts are finite numbers, and it is [+0]
    whenever the funding is not positive (zero, negative or NaN): the
    division is then not made. *)
Theorem utilizationRate_is_a_number (grant : Grant.t) (clk : Clock) (n : nat) :
  fulfilled_with (fst (calculateProgress grant clk n)) (fun m =>
    (JS.gt (Grant.totalFunding grant) (JS.of_Z 0) = false ->
     GrantProgressMetrics.utilizationRate m = JS.pos_zero) /\
    (JS.is_finite (Grant.totalFunding grant) = true ->
     Forall (fun e => JS.is_finite (Expenditure.amount e) = true)
            (Grant.expenditures grant) ->
     JS.is_NaN (GrantProgressMetrics.utilizationRate m) = false)).
Proof.
  apply calculateProgress_unfold. intros m _ Hrate _ _ _ _ _.
  rewrite Hrate. split.
  - intros ->. reflexivity.
  - intros Hf Hall.
    destruct (JS.gt (Grant.totalFunding grant) (JS.of_Z 0)) eqn:Hpos;
      [ | reflexivity ].
    destruct (not_gt_zero_cases _ Hpos) as (mf & ef & [E | E]);
      rewrite E in Hf |- *; [ | discriminate ].
    apply div_by_positive_not_NaN.
    unfold total_expenditure. rewrite fold_amounts.
    apply sum_not_NaN; [ reflexivity | ].
    apply Forall_map. exact Hall.
Qed.

Lemma utilizationRate_is_a_number_witness :
  let grant := sample_grant 0 864000000 (JS.of_Z 0)
                 [sample_expenditure 200 exp_approved] [] in
  fulfilled_with (fst (calculateProgress grant (frozen 5) 0%nat)) (fun m =>
    GrantProgressMetrics.utilizationRate m = JS.pos_zero /\
    JS.is_NaN (GrantProgressMetrics.utilizationRate m) = false).
Proof.
  cbv zeta.
  pose proof (utilizationRate_is_a_number
                (sample_grant 0 864000000 (JS.of_Z 0)
                   [sample_expenditure 200 exp_approved] [])
                (frozen 5) 0%nat) as H.
  destruct (fst (calculateProgress _ _ _)) as [m | e]; [ | exact H ].
  cbn [fulfilled_with] in H |- *. destruct H as [Hzero Hnum].
  split; [ apply Hzero; reflexivity | apply Hnum ].
  - reflexivity.
  - repeat constructor.
Defined.

Lemma filter_length_le {A} (p : A -> bool) (l : list A) :
  (length (List.filter p l) <= length l)%nat.
Proof.
  induction l as [ | x l IH ]; cbn; [ lia | ].
  destruct (p x); cbn; lia.
Qed.

Lemma ratio_of_counts (c n : nat) :
  (c <= n)%nat -> (0 < n)%nat -> Z.of_nat n < 2 ^ 53 ->
  JS.is_NaN (JS.div (JS.of_nat c) (JS.of_nat n)) = false /\
  JS.lt (JS.div (JS.of_nat c) (JS.of_nat n)) (JS.of_Z 0) = false.
Proof.
  intros Hc Hn Hb.
  destruct (of_nat_cases n Hb) as [[-> _] | (_ & mn & en & En)]; [ lia | ].
  rewrite En.
  destruct (of_nat_cases c) as [[_ Ec] | (_ & mc & ec & Ec)]; [ lia | | ];
    rewrite Ec.
  - split; reflexivity.
  - assert (Hnan : JS.is_NaN (JS.div (S754_finite false mc ec)
                                     (S754_finite false mn en)) = false)
      by (apply div_finite_not_NaN; reflexivity).
    split; [ exact Hnan | ].
    unfold JS.div, SFdiv in Hnan |- *. cbn [xorb] in Hnan |- *.
    destruct (SFdiv_core_binary _ _ _ _ _ _) as [[mz ez] lz].
    unfold binary_round_aux in Hnan |- *.
    destruct (shr_fexp _ _ mz ez lz) as [mrs' e'].
    destruct (shr_fexp _ _ _ e' loc_Exact) as [mrs'' e''].
    destruct (shr_m mrs'') as [ | p | p ]; [ reflexivity | | discriminate ].
    destruct (e'' <=? JS.emax - JS.prec); reflexivity.
Qed.

(** X9: with fewer than [2^53] milestones, the completion rate that
    [getProgress] and [calculateProgress] report is never NaN and never
    negative. *)
Theorem completion_rate_is_a_number (grant : Grant.t) :
  Z.of_nat (length (Grant.milestones grant)) < 2 ^ 53 ->
  JS.is_NaN (Grant.getProgress grant) = false /\
  JS.lt (Grant.getProgress grant) (JS.of_Z 0) = false.
Proof.
  intros Hb. unfold Grant.getProgress.
  destruct (Nat.eqb_spec (length (Grant.milestones grant)) 0) as [ | Hn ];
    [ split; reflexivity | ].
  apply ratio_of_counts; [ apply filter_length_le | lia | exact Hb ].
Qed.

Lemma completion_rate_is_a_number_witness :
  let grant :=
    fst (Grant.addMilestone sample_milestone
           (sample_grant 0 864000000 (JS.of_Z 1000) [] []) (frozen 5) 0%nat) in
  JS.is_NaN (Grant.getProgress grant) = false /\
  JS.lt (Grant.getProgress grant) (JS.of_Z 0) = false.
Proof.
  cbv zeta. apply completion_rate_is_a_number. cbn. lia.
Defined.

End Rates.

(* --------------------------------------------------------------------- *)
(** ** The risk level *)
(* --------------------------------------------------------------------- *)

Section Risk.

Lemma add_comm (x y : JS.number) : JS.add x y = JS.add y x.
Proof.
  destruct x as [ sx | sx | | sx mx ex ], y as [ sy | sy | | sy my ey ];
    try reflexivity; try (destruct sx, sy; reflexivity).
  unfold JS.add, SFadd. rewrite (Z.min_comm ey ex), Z.add_comm. reflexivity.
Qed.

(** X10: the risk level treats the two deviations alike: exchanging the
    utilization rate and the milestone completion rate does not change
    it. *)
Theorem calculateRiskLevel_symmetric
  (timelineProgress utilizationRate milestoneCompletionRate : JS.number) :
  calculateRiskLevel timelineProgress utilizationRate milestoneCompletionRate
  = calculateRiskLevel timelineProgress milestoneCompletionRate utilizationRate.
Proof.
  unfold calculateRiskLevel, riskScore. rewrite add_comm. reflexivity.
Qed.

Lemma sub_self (x : JS.number) :
  JS.is_finite x = true -> JS.sub x x = JS.pos_zero.
Proof.
  destruct x as [ [ | ] | s | | s m e ]; try discriminate; intros _;
    try reflexivity.
  unfold JS.sub, SFsub. rewrite Z.sub_diag. reflexivity.
Qed.

Lemma calculateRiskLevel_aligned (x : JS.number) :
  JS.is_finite x = true -> calculateRiskLevel x x x = risk_low.
Proof.
  intros H. unfold calculateRiskLevel, riskScore.
  rewrite (sub_self x H). vm_compute. reflexivity.
Qed.

Lemma sub_NaN_r (x : JS.number) : JS.sub x JS.NaN = JS.NaN.
Proof. destruct x; reflexivity. Qed.

Lemma add_NaN_r (x : JS.number) : JS.add x JS.NaN = JS.NaN.
Proof. destruct x; reflexivity. Qed.

Lemma is_NaN_eq (x : JS.number) : JS.is_NaN x = true -> x = JS.NaN.
Proof. destruct x; try discriminate. reflexivity. Qed.

Lemma calculateRiskLevel_NaN (x y z : JS.number) :
  JS.is_NaN x = true \/ JS.is_NaN y = true \/ JS.is_NaN z = true ->
  calculateRiskLevel x y z = risk_high.
Proof.
  intros H. unfold calculateRiskLevel, riskScore.
  assert (E : JS.div (JS.add (JS.Math_abs (JS.sub x z))
                             (JS.Math_abs (JS.sub x y))) (JS.of_Z 2) = JS.NaN).
  { destruct H as [H | [H | H]]; apply is_NaN_eq in H; subst.
    - reflexivity.
    - rewrite sub_NaN_r. change (JS.Math_abs JS.NaN) with JS.NaN.
      rewrite add_NaN_r. reflexivity.
    - rewrite sub_NaN_r. reflexivity. }
  rewrite E. reflexivity.
Qed.

(** X11: three equal finite rates give the level [low]; a NaN in any of
    the three rates gives the level [high]. *)
Theorem calculateRiskLevel_extremes (x y z : JS.number) :
  (JS.is_finite x = true -> calculateRiskLevel x x x = risk_low) /\
  (JS.is_NaN x = true \/ JS.is_NaN y = true \/ JS.is_NaN z = true ->
   calculateRiskLevel x y z = risk_high).
Proof.
  split; [ apply calculateRiskLevel_aligned | apply calculateRiskLevel_NaN ].
Qed.

Lemma calculateRiskLevel_extremes_witness :
  calculateRiskLevel (JS.literal 1 2) (JS.literal 1 2) (JS.literal 1 2) = risk_low /\
  calculateRiskLevel (JS.literal 1 2) JS.NaN (JS.literal 1 2) = risk_high.
Proof.
  split.
  - apply (calculateRiskLevel_extremes (JS.literal 1 2) JS.NaN JS.NaN).
    reflexivity.
  - apply (calculateRiskLevel_extremes (JS.literal 1 2) JS.NaN (JS.literal 1 2)).
    right; left; reflexivity.
Defined.

Lemma getTime_sub_self (d : Date) :
  - 2 ^ 53 < d < 2 ^ 53 -> JS.sub (getTime d) (getTime d) = JS.pos_zero.
Proof. intros H. apply sub_self, of_Z_small, H. Qed.

(** X12: the two risk indicators disagree on a grant of no duration that
    is looked at in the instant it starts and ends.  Both divide zero days
    by zero days; [Grant.isAtRisk] compares the NaN and answers [false],
    [calculateProgress] classifies it and answers [high]. *)
Theorem risk_indicators_disagree_on_an_instant (grant : Grant.t)
  (clk : Clock) (n k : nat) :
  - 2 ^ 53 < Grant.endDate grant < 2 ^ 53 ->
  Grant.startDate grant = Grant.endDate grant ->
  clk n = Grant.endDate grant ->
  clk k = Grant.endDate grant ->
  fst (Grant.isAtRisk grant clk n) = false /\
  fulfilled_with (fst (calculateProgress grant clk k)) (fun m =>
    JS.is_NaN (GrantProgressMetrics.timelineProgress m) = true /\
    GrantProgressMetrics.riskLevel m = risk_high).
Proof.
  intros Hb Hs Hn Hk.
  pose proof (getTime_sub_self (Grant.endDate grant) Hb) as Hz.
  split.
  - unfold Grant.isAtRisk, Grant.getDaysRemaining, bind, new_Date, ret.
    cbn [fst]. rewrite Hs, Hn, Hz.
    change (JS.Math_ceil (JS.div JS.pos_zero ms_per_day)) with JS.pos_zero.
    change (JS.sub (JS.of_Z 1) (JS.div JS.pos_zero JS.pos_zero)) with JS.NaN.
    assert (E : forall x, JS.gt (JS.Math_abs (JS.sub x JS.NaN)) (JS.literal 3 10)
                          = false)
      by (intros x; destruct x; reflexivity).
    rewrite !E. reflexivity.
  - apply calculateProgress_unfold. intros m _ _ _ _ _ Hrisk Htime.
    assert (Hnan : GrantProgressMetrics.timelineProgress m = JS.NaN).
    { rewrite Htime, Hk, Hs, Hz. reflexivity. }
    split; [ rewrite Hnan; reflexivity | ].
    rewrite Hrisk.
    apply calculateRiskLevel_NaN. left. rewrite Hnan. reflexivity.
Qed.

Lemma risk_indicators_disagree_on_an_instant_witness :
  let grant := sample_grant 1000 1000 (JS.of_Z 1000) [] [] in
  fst (Grant.isAtRisk grant (frozen 1000) 0%nat) = false /\
  fulfilled_with (fst (calculateProgress grant (frozen 1000) 0%nat)) (fun m =>
    JS.is_NaN (GrantProgressMetrics.timelineProgress m) = true /\
    GrantProgressMetrics.riskLevel m = risk_high).
Proof.
  cbv zeta.
  apply (risk_indicators_disagree_on_an_instant
           (sample_grant 1000 1000 (JS.of_Z 1000) [] []) (frozen 1000)
           0%nat 0%nat); [ cbn; lia | reflexivity | reflexivity | reflexivity ].
Defined.

End Risk.

(* --------------------------------------------------------------------- *)
(** ** The keys of the KPI achievement map *)
(* --------------------------------------------------------------------- *)

Section AchievementKeys.

Lemma set_property_is_Some (achievement : gmap string JS.number)
  (key name : string) (value : JS.number) :
  is_Some (set_property achievement key value !! name) <->
  is_Some (achievement !! name) \/ (name = key /\ name <> "__proto__").
Proof.
  unfold set_property.
  destruct (String.eqb_spec key "__proto__") as [E | E].
  - split; [ auto | ]. intros [H | [-> H]]; [ exact H | contradiction ].
  - destruct (decide (key = name)) as [-> | Hne].
    + rewrite lookup_insert_eq. split; [ auto | eauto ].
    + rewrite lookup_insert_ne by exact Hne.
      split; [ auto | ]. intros [H | [-> _]]; [ exact H | contradiction ].
Qed.

Lemma kpi_loop_is_Some (name : string) (kpis : list KPI.t) :
  forall achievement,
    is_Some (calculateKPIAchievement_loop kpis achievement !! name) <->
    is_Some (achievement !! name) \/
    (name <> "__proto__" /\ name ∈ map KPI.name kpis).
Proof.
  induction kpis as [ | kpi kpis IH ]; intros achievement.
  - cbn. split; [ auto | ]. intros [H | [_ H]]; [ exact H | ].
    apply not_elem_of_nil in H. contradiction.
  - cbn [calculateKPIAchievement_loop fold_left map].
    fold (calculateKPIAchievement_loop kpis). rewrite IH, set_property_is_Some.
    rewrite elem_of_cons. tauto.
Qed.

(** X13: the keys of the map that [calculateKPIAchievement] builds are the
    names of the KPIs, except ["__proto__"]: a KPI of that name leaves no
    entry, every other KPI name is a key, and there is no other key. *)
Theorem kpiAchievement_keys (kpis : list KPI.t) (name : string) :
  is_Some (calculateKPIAchievement kpis !! name) <->
  name <> "__proto__" /\ name ∈ map KPI.name kpis.
Proof.
  unfold calculateKPIAchievement. rewrite kpi_loop_is_Some, lookup_empty.
  split; [ | auto ]. intros [[v H] | H]; [ discriminate | exact H ].
Qed.

End AchievementKeys.

(* --------------------------------------------------------------------- *)
(** ** The constructor of [Grant] *)
(* --------------------------------------------------------------------- *)

Section Constructor.

Lemma or_default_truthy (v : option JS.number) (d : JS.number) :
  JS.truthy d = true -> JS.truthy (JS.or_default v d) = true.
Proof.
  intros H. unfold JS.or_default.
  destruct v as [x | ]; [ | exact H ].
  destruct (JS.truthy x) eqn:E; assumption.
Qed.

Lemma or_default_zero (v : option JS.number) :
  JS.is_NaN (JS.or_default v (JS.of_Z 0)) = false /\
  JS.or_default v (JS.of_Z 0) <> JS.neg_zero.
Proof.
  destruct v as [ [ s | s | | s m e ] | ]; cbn; split;
    try reflexivity; discriminate.
Qed.

Lemma new_unfold (data : Grant.Data) (clk : Clock) (n : nat) :
  let this := fst (Grant.new data clk n) in
  Grant.totalFunding this = JS.or_default (Grant.data_totalFunding data) (JS.of_Z 0) /\
  Grant.version this = JS.or_default (Grant.data_version data) (JS.of_Z 1) /\
  Grant.history this = Grant.or_else (Grant.data_history data) [] /\
  (Grant.data_startDate data = None -> Grant.data_endDate data = None ->
   exists k, Grant.startDate this = clk k /\ Grant.endDate this = clk (S k)) /\
  (forall d, Grant.data_startDate data = Some d -> Grant.startDate this = d) /\
  (forall d, Grant.data_endDate data = Some d -> Grant.endDate this = d).
Proof.
  unfold Grant.new, Grant.date_or_now, bind, new_Date, ret.
  destruct (Grant.data_applicationDate data), (Grant.data_awardDate data),
    (Grant.data_startDate data), (Grant.data_endDate data),
    (Grant.data_createdAt data), (Grant.data_updatedAt data);
    cbn; repeat split; try congruence; try discriminate;
    intros _ _; eexists; split; reflexivity.
Qed.

(** X14: a constructed grant has a usable funding total and version: the
    total is never NaN and never [-0] (a missing, zero or NaN total
    becomes [+0]), and the version is never zero or NaN (a missing, zero
    or NaN version becomes 1). *)
Theorem new_normalises_numbers (data : Grant.Data) (clk : Clock) (n : nat) :
  let this := fst (Grant.new data clk n) in
  JS.is_NaN (Grant.totalFunding this) = false /\
  Grant.totalFunding this <> JS.neg_zero /\
  JS.truthy (Grant.version this) = true /\
  (JS.truthy (default JS.pos_zero (Grant.data_version data)) = false ->
   Grant.version this = JS.of_Z 1).
Proof.
  cbv zeta. destruct (new_unfold data clk n) as (Hf & Hv & _).
  rewrite Hf, Hv.
  split; [ apply or_default_zero | ]. split; [ apply or_default_zero | ].
  split; [ apply or_default_truthy; reflexivity | ].
  unfold JS.or_default. destruct (Grant.data_version data) as [x | ]; cbn;
    [ intros ->; reflexivity | reflexivity ].
Qed.

Lemma new_normalises_numbers_witness :
  let data :=
    {| Grant.data_id := Some "G-9"; Grant.data_status := None;
       Grant.data_totalFunding := Some JS.NaN;
       Grant.data_applicationDate := None; Grant.data_awardDate := None;
       Grant.data_startDate := None; Grant.data_endDate := None;
       Grant.data_milestones := None; Grant.data_expenditures := None;
       Grant.data_kpis := None; Grant.data_documents := None;
       Grant.data_reports := None; Grant.data_createdAt := None;
       Grant.data_updatedBy := None; Grant.data_updatedAt := None;
       Grant.data_version := Some (JS.of_Z 0); Grant.data_history := None |} in
  Grant.totalFunding (fst (Grant.new data (frozen 5) 0%nat)) = JS.pos_zero /\
  Grant.version (fst (Grant.new data (frozen 5) 0%nat)) = JS.of_Z 1.
Proof.
  cbv zeta. split; [ reflexivity | ].
  apply new_normalises_numbers. reflexivity.
Defined.

(** X15: a grant constructed without a start and an end date gets two
    consecutive readings of the clock, the start first; with a clock that
    does not run backwards its start is not after its end. *)
Theorem new_orders_default_dates (data : Grant.Data) (clk : Clock) (n : nat) :
  monotone clk ->
  Grant.data_startDate data = None ->
  Grant.data_endDate data = None ->
  (Grant.startDate (fst (Grant.new data clk n))
   <= Grant.endDate (fst (Grant.new data clk n)))%Z.
Proof.
  intros Hm Hs He.
  destruct (new_unfold data clk n) as (_ & _ & _ & Hd & _).
  destruct (Hd Hs He) as (k & -> & ->). apply Hm. lia.
Qed.

Lemma new_orders_default_dates_witness :
  let data :=
    {| Grant.data_id := Some "G-9"; Grant.data_status := None;
       Grant.data_totalFunding := None;
       Grant.data_applicationDate := None; Grant.data_awardDate := Some 3%Z;
       Grant.data_startDate := None; Grant.data_endDate := None;
       Grant.data_milestones := None; Grant.data_expenditures := None;
       Grant.data_kpis := None; Grant.data_documents := None;
       Grant.data_reports := None; Grant.data_createdAt := None;
       Grant.data_updatedBy := None; Grant.data_updatedAt := None;
       Grant.data_version := None; Grant.data_history := None |} in
  let this := fst (Grant.new data (fun k => Z.of_nat k) 10%nat) in
  Grant.startDate this = 11%Z /\ Grant.endDate this = 12%Z /\
  (Grant.startDate this <= Grant.endDate this)%Z.
Proof.
  cbv zeta. split; [ reflexivity | ]. split; [ reflexivity | ].
  apply new_orders_default_dates; [ intros i j H; lia | reflexivity | reflexivity ].
Defined.

End Constructor.

(* --------------------------------------------------------------------- *)
(** ** The rule evaluators *)
(* --------------------------------------------------------------------- *)

Section Rules.

Lemma checkDocumentation_loop_evidence (submitted : list Document.t)
  (required : list string) :
  forall evidence,
    checkDocumentation_loop submitted required evidence
    = (fst (checkDocumentation_loop submitted required []),
       evidence ++ snd (checkDocumentation_loop submitted required [])).
Proof.
  induction required as [ | doc rest IH ]; intros evidence; cbn.
  - rewrite app_nil_r. reflexivity.
  - destruct (List.find _ submitted).
    + rewrite IH, (IH [DocumentApproved doc]).
      cbn [fst snd]. rewrite <- app_assoc. reflexivity.
    + reflexivity.
Qed.

Lemma checkPerformance_loop_evidence (minAchievement : JS.number)
  (kpis : list KPI.t) :
  forall evidence,
    checkPerformance_loop minAchievement kpis evidence
    = (fst (checkPerformance_loop minAchievement kpis []),
       evidence ++ snd (checkPerformance_loop minAchievement kpis [])).
Proof.
  induction kpis as [ | kpi rest IH ]; intros evidence; cbn.
  - rewrite app_nil_r. reflexivity.
  - destruct (negb _); [ | apply IH ].
    destruct (JS.lt _ minAchievement); [ reflexivity | ].
    rewrite IH, (IH [KPIAchieved _ _]).
    cbn [fst snd]. rewrite <- app_assoc. reflexivity.
Qed.

(** X16: the evidence log is append-only.  Each of the four rule
    evaluators returns the evidence it was given followed by the lines it
    adds, and neither its status nor those lines depend on what the log
    held before. *)
Theorem evidence_is_append_only (r : ComplianceRequirement.t)
  (grant : Grant.t) (evidence : list Evidence) (clk : Clock) (k : nat) :
  checkDocumentation r grant evidence
    = (fst (checkDocumentation r grant []),
       evidence ++ snd (checkDocumentation r grant [])) /\
  checkFinancial r grant evidence
    = (fst (checkFinancial r grant []),
       evidence ++ snd (checkFinancial r grant [])) /\
  checkPerformance r grant evidence
    = (fst (checkPerformance r grant []),
       evidence ++ snd (checkPerformance r grant [])) /\
  fst (checkReporting r grant evidence clk k)
    = (fst (fst (checkReporting r grant [] clk k)),
       evidence ++ snd (fst (checkReporting r grant [] clk k))).
Proof.
  split; [ | split; [ | split ] ].
  - apply checkDocumentation_loop_evidence.
  - unfold checkFinancial. destruct (JS.gt _ _); reflexivity.
  - apply checkPerformance_loop_evidence.
  - unfold checkReporting, bind, new_Date, ret.
    destruct (ComplianceRequirement.dueDate r) as [d | ]; cbn;
      [ | rewrite app_nil_r; reflexivity ].
    destruct (d <? clk k); cbn; [ | rewrite app_nil_r; reflexivity ].
    destruct (List.find _ (Grant.reports grant)); reflexivity.
Qed.

(** *** Documentation *)

Lemma find_existsb {A} (p : A -> bool) (l : list A) :
  existsb p l = match List.find p l with Some _ => true | None => false end.
Proof.
  induction l as [ | x l IH ]; cbn; [ reflexivity | ].
  destruct (p x); [ reflexivity | exact IH ].
Qed.

Lemma checkDocumentation_loop_spec (submitted : list Document.t)
  (required : list string) :
  forall evidence,
    checkDocumentation_loop submitted required evidence
    = if forallb (has_approved submitted) required
      then (compliant, evidence ++ map DocumentApproved required)
      else (non_compliant,
            snd (checkDocumentation_loop submitted required evidence)).
Proof.
  induction required as [ | doc rest IH ]; intros evidence; cbn.
  - rewrite app_nil_r. reflexivity.
  - unfold has_approved at 1. rewrite find_existsb.
    destruct (List.find _ submitted); cbn [andb].
    + rewrite IH. destruct (forallb _ rest).
      * rewrite <- app_assoc. reflexivity.
      * reflexivity.
    + reflexivity.
Qed.

Lemma existsb_Permutation {A} (p : A -> bool) (l l' : list A) :
  l ≡ₚ l' -> existsb p l = existsb p l'.
Proof.
  induction 1 as [ | x l l' _ IH | x y l | l l' l'' _ IH1 _ IH2 ]; cbn.
  - reflexivity.
  - rewrite IH. reflexivity.
  - destruct (p x), (p y); reflexivity.
  - congruence.
Qed.

(** X17: a documentation requirement is [compliant] exactly when every
    required document type has an approved document among the submitted
    ones, and [non-compliant] otherwise; when it is compliant the evidence
    gains one approval line per required type, in the order of the list.
    The order in which the documents were submitted does not matter for
    the status. *)
Theorem checkDocumentation_spec (r : ComplianceRequirement.t)
  (grant : Grant.t) (evidence : list Evidence) :
  let required :=
    default [] (parameter Parameters.requiredDocuments r) in
  (fst (checkDocumentation r grant evidence) =
     if forallb (has_approved (Grant.documents grant)) required
     then compliant else non_compliant) /\
  (fst (checkDocumentation r grant evidence) = compliant ->
   snd (checkDocumentation r grant evidence)
   = evidence ++ map DocumentApproved required) /\
  (forall grant',
     Grant.documents grant ≡ₚ Grant.documents grant' ->
     fst (checkDocumentation r grant' evidence)
     = fst (checkDocumentation r grant evidence)).
Proof.
  cbv zeta.
  assert (Hdef : forall g,
             checkDocumentation r g evidence =
             checkDocumentation_loop (Grant.documents g)
               (default [] (parameter Parameters.requiredDocuments r)) evidence).
  { intros g. unfold checkDocumentation.
    destruct (parameter Parameters.requiredDocuments r); reflexivity. }
  assert (Hstatus : forall g,
             fst (checkDocumentation r g evidence) =
             if forallb (has_approved (Grant.documents g))
                        (default [] (parameter Parameters.requiredDocuments r))
             then compliant else non_compliant).
  { intros g. rewrite Hdef, checkDocumentation_loop_spec.
    destruct (forallb _ _); reflexivity. }
  split; [ apply Hstatus | ]. split.
  - rewrite Hstatus, Hdef, checkDocumentation_loop_spec.
    destruct (forallb _ _); [ reflexivity | discriminate ].
  - intros grant' Hperm. rewrite !Hstatus.
    assert (E : forall doc, has_approved (Grant.documents grant') doc
                            = has_approved (Grant.documents grant) doc).
    { intros doc. unfold has_approved. symmetry.
      apply existsb_Permutation, Hperm. }
    assert (F : forall l, forallb (has_approved (Grant.documents grant')) l
                          = forallb (has_approved (Grant.documents grant)) l).
    { induction l as [ | doc rest IH ]; [ reflexivity | ].
      cbn [forallb]. rewrite E, IH. reflexivity. }
    rewrite F. reflexivity.
Qed.

Lemma checkDocumentation_spec_witness :
  let doc ty status :=
    {| Document.id := "D"; Document.type := ty; Document.name := "file";
       Document.uploadDate := 0; Document.status := status |} in
  let with_documents docs :=
    {| Grant.id := "G-1"; Grant.status := active;
       Grant.totalFunding := JS.of_Z 1000;
       Grant.startDate := 0; Grant.endDate := 864000000;
       Grant.milestones := []; Grant.expenditures := [];
       Grant.kpis := []; Grant.documents := docs; Grant.reports := [];
       Grant.updatedBy := "system"; Grant.updatedAt := 0;
       Grant.version := JS.of_Z 1; Grant.history := [] |} in
  let rule := sample_requirement documentation medium None
                (Some (required_documents ["audit"; "budget"])) in
  checkDocumentation rule
    (with_documents [doc "budget" doc_approved; doc "audit" doc_approved]) []
  = (compliant, [DocumentApproved "audit"; DocumentApproved "budget"]) /\
  fst (checkDocumentation rule
         (with_documents [doc "audit" doc_approved; doc "budget" doc_approved]) [])
  = compliant.
Proof.
  cbv zeta. split; [ reflexivity | ].
  match goal with
  | |- fst (checkDocumentation ?r ?g' []) = _ =>
      match type of g' with
      | _ =>
          destruct (checkDocumentation_spec r
                      {| Grant.id := "G-1"; Grant.status := active;
                         Grant.totalFunding := JS.of_Z 1000;
                         Grant.startDate := 0; Grant.endDate := 864000000;
                         Grant.milestones := []; Grant.expenditures := [];
                         Grant.kpis := [];
                         Grant.documents :=
                           [ {| Document.id := "D"; Document.type := "budget";
                                Document.name := "file"; Document.uploadDate := 0;
                                Document.status := doc_approved |};
                             {| Document.id := "D"; Document.type := "audit";
                                Document.name := "file"; Document.uploadDate := 0;
                                Document.status := doc_approved |} ];
                         Grant.reports := [];
                         Grant.updatedBy := "system"; Grant.updatedAt := 0;
                         Grant.version := JS.of_Z 1; Grant.history := [] |} [])
            as (_ & _ & Hperm);
          rewrite (Hperm g')
      end
  end.
  - reflexivity.
  - apply Permutation_swap.
Defined.

(** *** Performance *)

Lemma checkPerformance_loop_status (minAchievement : JS.number)
  (kpis : list KPI.t) :
  forall evidence,
    fst (checkPerformance_loop minAchievement kpis evidence)
    = if existsb (breaches minAchievement) kpis
      then non_compliant else compliant.
Proof.
  induction kpis as [ | kpi rest IH ]; intros evidence; cbn; [ reflexivity | ].
  unfold breaches at 1.
  destruct (negb _); cbn [andb orb]; [ | apply IH ].
  destruct (JS.lt _ minAchievement); cbn [orb]; [ reflexivity | apply IH ].
Qed.

Lemma checkPerformance_loop_skips (minAchievement : JS.number)
  (kpis : list KPI.t) :
  forall evidence,
    checkPerformance_loop minAchievement kpis evidence
    = checkPerformance_loop minAchievement (List.filter has_target kpis) evidence.
Proof.
  induction kpis as [ | kpi rest IH ]; intros evidence; [ reflexivity | ].
  cbn [List.filter checkPerformance_loop]. unfold has_target at 1.
  destruct (negb (JS.strict_eq (KPI.targetValue kpi) (JS.of_Z 0))) eqn:E.
  - cbn [checkPerformance_loop]. rewrite E.
    destruct (JS.lt _ minAchievement); [ reflexivity | apply IH ].
  - apply IH.
Qed.

Lemma checkPerformance_loop_stops (minAchievement : JS.number)
  (kpi : KPI.t) (later : list KPI.t) (earlier : list KPI.t) :
  breaches minAchievement kpi = true ->
  forall evidence,
    checkPerformance_loop minAchievement (earlier ++ kpi :: later) evidence
    = checkPerformance_loop minAchievement (earlier ++ [kpi]) evidence.
Proof.
  intros Hb. unfold breaches in Hb. apply andb_true_iff in Hb as [Ht Hl].
  induction earlier as [ | x earlier IH ]; intros evidence;
    cbn [app checkPerformance_loop].
  - rewrite Ht, Hl. reflexivity.
  - destruct (negb (JS.strict_eq (KPI.targetValue x) (JS.of_Z 0)));
      [ | apply IH ].
    destruct (JS.lt (JS.div (KPI.currentValue x) (KPI.targetValue x))
                    minAchievement); [ reflexivity | apply IH ].
Qed.

(** X18: a performance requirement is [non-compliant] exactly when some
    KPI with a target other than zero has an achievement below the
    minimum; KPIs whose target is zero are skipped altogether, and the
    KPIs that follow a failing one are not looked at: neither changes the
    status or the evidence. *)
Theorem checkPerformance_spec (r : ComplianceRequirement.t)
  (grant : Grant.t) (evidence : list Evidence) :
  let minAchievement :=
    JS.or_default (parameter Parameters.minAchievementRate r) (JS.literal 8 10) in
  (fst (checkPerformance r grant evidence) =
     if existsb (breaches minAchievement) (Grant.kpis grant)
     then non_compliant else compliant) /\
  (forall grant',
     Grant.kpis grant' = List.filter has_target (Grant.kpis grant) ->
     checkPerformance r grant' evidence = checkPerformance r grant evidence) /\
  (forall grant' earlier kpi later,
     Grant.kpis grant = earlier ++ kpi :: later ->
     breaches minAchievement kpi = true ->
     Grant.kpis grant' = earlier ++ [kpi] ->
     checkPerformance r grant' evidence = checkPerformance r grant evidence).
Proof.
  cbv zeta. unfold checkPerformance. split; [ | split ].
  - apply checkPerformance_loop_status.
  - intros grant' ->. symmetry. apply checkPerformance_loop_skips.
  - intros grant' earlier kpi later -> Hb ->. symmetry.
    apply checkPerformance_loop_stops, Hb.
Qed.

(** The scenario of the specification: a minimum of 0.8 and a KPI at 150
    of 200, followed by one that is not looked at. *)
Lemma checkPerformance_spec_witness :
  let behind := {| KPI.name := "served"; KPI.targetValue := JS.of_Z 200;
                   KPI.currentValue := JS.of_Z 150 |} in
  let ahead := {| KPI.name := "trained"; KPI.targetValue := JS.of_Z 10;
                  KPI.currentValue := JS.of_Z 12 |} in
  let rule := sample_requirement performance high None None in
  checkPerformance rule (sample_grant 0 864000000 (JS.of_Z 1000) [] [behind]) []
  = checkPerformance rule
      (sample_grant 0 864000000 (JS.of_Z 1000) [] [behind; ahead]) [] /\
  checkPerformance rule
      (sample_grant 0 864000000 (JS.of_Z 1000) [] [behind; ahead]) []
  = (non_compliant, [KPIBelow "served" (JS.literal 3 4) (JS.literal 8 10)]).
Proof.
  cbv zeta. split; [ | vm_compute; reflexivity ].
  eapply (checkPerformance_spec _ _ []).
  - instantiate (3 := []). reflexivity.
  - vm_compute. reflexivity.
  - reflexivity.
Defined.

(** *** Reporting *)

(** X19: a reporting requirement is [compliant], with no evidence added,
    whenever it has no due date or the due date has not passed, whatever
    the reports are; once the due date has passed it is [compliant]
    exactly when a report of the configured type was submitted by the due
    date, so it is [non-compliant] when no report type is configured.  It
    is never [pending]. *)
Theorem checkReporting_spec (r : ComplianceRequirement.t) (grant : Grant.t)
  (evidence : list Evidence) (clk : Clock) (k : nat) :
  let result := fst (checkReporting r grant evidence clk k) in
  (ComplianceRequirement.dueDate r = None -> result = (compliant, evidence)) /\
  (forall due,
     ComplianceRequirement.dueDate r = Some due ->
     (clk k <= due)%Z -> result = (compliant, evidence)) /\
  (forall due,
     ComplianceRequirement.dueDate r = Some due ->
     (due < clk k)%Z ->
     fst result =
       if reported_by (Grant.reports grant) (parameter Parameters.reportType r) due
       then compliant else non_compliant) /\
  (forall due,
     ComplianceRequirement.dueDate r = Some due ->
     (due < clk k)%Z ->
     parameter Parameters.reportType r = None ->
     result = (non_compliant, evidence ++ [ReportMissing None])) /\
  fst result <> pending.
Proof.
  cbv zeta. unfold checkReporting, bind, new_Date, ret.
  destruct (ComplianceRequirement.dueDate r) as [d | ]; cbn [fst];
    [ | repeat split; try discriminate; reflexivity ].
  split; [ discriminate | ].
  destruct (Z.ltb_spec d (clk k)) as [Hlt | Hge].
  - split; [ intros due [= <-] H; lia | ].
    assert (Hfind : forall ty,
               existsb (fun x =>
                          match ty with
                          | Some ty => String.eqb (ReportSubmission.type x) ty
                          | None => false
                          end && (ReportSubmission.submissionDate x <=? d))
                       (Grant.reports grant)
               = reported_by (Grant.reports grant) ty d) by reflexivity.
    split; [ | split ].
    + intros due [= <-] _. rewrite <- Hfind, find_existsb.
      destruct (List.find _ (Grant.reports grant)); reflexivity.
    + intros due [= <-] _ Hty. rewrite Hty.
      assert (E : List.find (fun x : ReportSubmission.t =>
                               false && (ReportSubmission.submissionDate x <=? d))
                            (Grant.reports grant) = None).
      { clear. induction (Grant.reports grant) as [ | x l IH ];
          [ reflexivity | exact IH ]. }
      rewrite E. reflexivity.
    + destruct (List.find _ (Grant.reports grant)); discriminate.
  - split; [ reflexivity | ].
    repeat split; try discriminate; intros due [= <-] H; lia.
Qed.

Lemma checkReporting_spec_witness :
  let rule :=
    {| ComplianceRequirement.id := "R-2"; ComplianceRequirement.name := "quarterly";
       ComplianceRequirement.description := "";
       ComplianceRequirement.type := reporting;
       ComplianceRequirement.severity := medium;
       ComplianceRequirement.applicableFrom := None;
       ComplianceRequirement.dueDate := Some 100%Z;
       ComplianceRequirement.parameters := None |} in
  let grant := sample_grant 0 864000000 (JS.of_Z 1000) [] [] in
  fst (checkReporting rule grant [] (frozen 50) 0%nat) = (compliant, []) /\
  fst (checkReporting rule grant [] (frozen 500) 0%nat)
    = (non_compliant, [ReportMissing None]).
Proof.
  cbv zeta. split.
  - match goal with
    | |- fst (checkReporting ?r ?g [] ?c ?k) = _ =>
        destruct (checkReporting_spec r g [] c k) as (_ & Hfuture & _)
    end.
    apply (Hfuture 100%Z); [ reflexivity | unfold frozen; lia ].
  - match goal with
    | |- fst (checkReporting ?r ?g [] ?c ?k) = _ =>
        destruct (checkReporting_spec r g [] c k) as (_ & _ & _ & Hpast & _)
    end.
    apply (Hpast 100%Z); [ reflexivity | unfold frozen; lia | reflexivity ].
Defined.

End Rules.

(* --------------------------------------------------------------------- *)
(** ** One requirement *)
(* --------------------------------------------------------------------- *)

Section OneRequirement.

Lemma checkReporting_cases (r : ComplianceRequirement.t) (grant : Grant.t)
  (evidence : list Evidence) (clk : Clock) (k : nat) :
  fst (fst (checkReporting r grant evidence clk k)) = compliant \/
  fst (fst (checkReporting r grant evidence clk k)) = non_compliant.
Proof.
  unfold checkReporting, bind, new_Date, ret.
  destruct (ComplianceRequirement.dueDate r) as [d | ]; cbn; [ | auto ].
  destruct (d <? clk k); cbn; [ | auto ].
  destruct (List.find _ (Grant.reports grant)); cbn; auto.
Qed.

Lemma checkPerformance_cases (r : ComplianceRequirement.t) (grant : Grant.t)
  (evidence : list Evidence) :
  fst (checkPerformance r grant evidence) = compliant \/
  fst (checkPerformance r grant evidence) = non_compliant.
Proof.
  unfold checkPerformance. rewrite checkPerformance_loop_status.
  destruct (existsb _ _); auto.
Qed.

Lemma checkFinancial_cases (r : ComplianceRequirement.t) (grant : Grant.t)
  (evidence : list Evidence) :
  fst (checkFinancial r grant evidence) = compliant \/
  fst (checkFinancial r grant evidence) = non_compliant.
Proof. rewrite checkFinancial_status. destruct (JS.gt _ _); auto. Qed.

(** The result of an applicable requirement, by type. *)
Lemma evaluateRequirement_applicable (r : ComplianceRequirement.t)
  (grant : Grant.t) (clk : Clock) (k : nat) :
  not_yet_applicable r (clk k) = false ->
  let st := fst (evaluateRequirement r grant clk k) in
  (ComplianceStatus.status st, ComplianceStatus.evidence st) =
    match ComplianceRequirement.type r with
    | documentation => checkDocumentation r grant []
    | financial => checkFinancial r grant []
    | reporting => fst (checkReporting r grant [] clk (S k))
    | performance => checkPerformance r grant []
    | other_type _ => (pending, [])
    end.
Proof.
  intros H. cbv zeta. unfold evaluateRequirement, bind, new_Date.
  rewrite H.
  destruct (ComplianceRequirement.type r); unfold ret;
    try destruct (checkReporting r grant [] clk (S k)) as [[s e] n'];
    cbn [fst snd ComplianceStatus.status ComplianceStatus.evidence];
    try reflexivity; symmetry; apply surjective_pairing.
Qed.

(** X20: a requirement is evaluated to [pending] exactly when it is
    applicable and its type is none of the four known ones, and then with
    an empty evidence list; documentation, financial, reporting and
    performance requirements are never [pending]. *)
Theorem pending_means_unknown_type (r : ComplianceRequirement.t)
  (grant : Grant.t) (clk : Clock) (k : nat) :
  let st := fst (evaluateRequirement r grant clk k) in
  (ComplianceStatus.status st = pending <->
   not_yet_applicable r (clk k) = false /\
   known_type (ComplianceRequirement.type r) = false) /\
  (ComplianceStatus.status st = pending -> ComplianceStatus.evidence st = []).
Proof.
  cbv zeta.
  destruct (not_yet_applicable r (clk k)) eqn:Happ.
  - destruct (evaluateRequirement_not_applicable r grant clk k Happ) as [Hs He].
    rewrite Hs, He. split; [ split | ]; [ discriminate | | reflexivity ].
    intros [? _]; discriminate.
  - pose proof (evaluateRequirement_applicable r grant clk k Happ) as H.
    cbv zeta in H.
    destruct (ComplianceRequirement.type r) eqn:Hty; cbn [known_type].
    + destruct (checkDocumentation_loop_cases (Grant.documents grant)
                  (default [] (parameter Parameters.requiredDocuments r)) [])
        as [E | E];
        unfold checkDocumentation in H;
        replace (match parameter Parameters.requiredDocuments r with
                 | Some docs => docs | None => [] end)
          with (default [] (parameter Parameters.requiredDocuments r)) in H
          by (destruct (parameter Parameters.requiredDocuments r); reflexivity);
        destruct (checkDocumentation_loop _ _ _) as [s e]; cbn [fst] in E;
        injection H as -> ->; subst s;
        (split; [ split; [ discriminate | intros [_ ?]; discriminate ]
                | discriminate ]).
    + destruct (checkFinancial_cases r grant []) as [E | E];
        destruct (checkFinancial r grant []) as [s e]; cbn [fst] in E;
        injection H as -> ->; subst s;
        (split; [ split; [ discriminate | intros [_ ?]; discriminate ]
                | discriminate ]).
    + destruct (checkReporting_cases r grant [] clk (S k)) as [E | E];
        destruct (fst (checkReporting r grant [] clk (S k))) as [s e];
        cbn [fst] in E; injection H as -> ->; subst s;
        (split; [ split; [ discriminate | intros [_ ?]; discriminate ]
                | discriminate ]).
    + destruct (checkPerformance_cases r grant []) as [E | E];
        destruct (checkPerformance r grant []) as [s e]; cbn [fst] in E;
        injection H as -> ->; subst s;
        (split; [ split; [ discriminate | intros [_ ?]; discriminate ]
                | discriminate ]).
    + injection H as -> ->. repeat split; reflexivity.
Qed.

Lemma pending_means_unknown_type_witness :
  let rule := sample_requirement (other_type "environmental") low None None in
  let grant := sample_grant 0 864000000 (JS.of_Z 1000) [] [] in
  ComplianceStatus.status (fst (evaluateRequirement rule grant (frozen 5) 0%nat))
    = pending /\
  ComplianceStatus.evidence (fst (evaluateRequirement rule grant (frozen 5) 0%nat))
    = [].
Proof.
  cbv zeta.
  match goal with
  | |- ComplianceStatus.status (fst (evaluateRequirement ?r ?g ?c ?k)) = _ /\ _ =>
      destruct (pending_means_unknown_type r g c k) as [Hiff Hev]
  end.
  assert (H : ComplianceStatus.status
                (fst (evaluateRequirement
                        (sample_requirement (other_type "environmental") low
                                            None None)
                        (sample_grant 0 864000000 (JS.of_Z 1000) [] [])
                        (frozen 5) 0%nat)) = pending)
    by (apply Hiff; split; reflexivity).
  split; [ exact H | apply Hev, H ].
Defined.

Lemma evaluateRequirement_copies (r : ComplianceRequirement.t)
  (grant : Grant.t) (clk : Clock) (k : nat) :
  let st := fst (evaluateRequirement r grant clk k) in
  ComplianceStatus.requirementId st = ComplianceRequirement.id r /\
  ComplianceStatus.requirementName st = ComplianceRequirement.name r /\
  ComplianceStatus.description st = ComplianceRequirement.description r /\
  ComplianceStatus.dueDate st = ComplianceRequirement.dueDate r /\
  ComplianceStatus.severity st = ComplianceRequirement.severity r.
Proof.
  cbv zeta. unfold evaluateRequirement, bind, new_Date.
  destruct (not_yet_applicable r (clk k)); [ repeat split | ].
  destruct (ComplianceRequirement.type r); unfold ret;
    try destruct (checkReporting r grant [] clk (S k)) as [res n'];
    repeat split.
Qed.

(** The clock readings that one evaluation consumes: one, or two for a
    reporting requirement that is applicable. *)
Lemma evaluateRequirement_readings (r : ComplianceRequirement.t)
  (grant : Grant.t) (clk : Clock) (k : nat) :
  (k < snd (evaluateRequirement r grant clk k))%nat.
Proof.
  unfold evaluateRequirement, bind, new_Date.
  destruct (not_yet_applicable r (clk k)); [ cbn; lia | ].
  destruct (ComplianceRequirement.type r); unfold ret; cbn [snd]; try lia.
  unfold checkReporting, bind, new_Date, ret.
  destruct (ComplianceRequirement.dueDate r) as [d | ]; cbn; [ | lia ].
  destruct (d <? clk (S k)); cbn; [ | lia ].
  destruct (List.find _ (Grant.reports grant)); cbn; lia.
Qed.

End OneRequirement.

(* --------------------------------------------------------------------- *)
(** ** The summary *)
(* --------------------------------------------------------------------- *)

Section Summary.

(** Every field of the summary in terms of the tally that the loop
    leaves. *)
Lemma assessCompliance_fields (grant : Grant.t)
  (requirements : list ComplianceRequirement.t) (clk : Clock) (n : nat)
  (P : ComplianceSummary.t -> Prop) :
  (forall s,
     let acc := fst (assess_loop grant requirements tally_init clk (S n)) in
     let total := length requirements in
     s = {| ComplianceSummary.grantId := Grant.id grant;
            ComplianceSummary.totalRequirements := total;
            ComplianceSummary.compliantRequirements := compliantCount acc;
            ComplianceSummary.nonCompliantRequirements := nonCompliantCount acc;
            ComplianceSummary.pendingRequirements := pendingCount acc;
            ComplianceSummary.complianceRate :=
              (if (0 <? total)%nat
               then JS.div (JS.of_nat (compliantCount acc)) (JS.of_nat total)
               else JS.of_Z 1);
            ComplianceSummary.highPriorityIssues := highPriority acc;
            ComplianceSummary.mediumPriorityIssues := mediumPriority acc;
            ComplianceSummary.lowPriorityIssues := lowPriority acc;
            ComplianceSummary.status :=
              overall (nonCompliantCount acc) (highPriority acc)
                      (pendingCount acc) total;
            ComplianceSummary.lastAssessment := clk n;
            ComplianceSummary.requirements := complianceStatuses acc |} ->
     P s) ->
  fulfilled_with (fst (assessCompliance grant requirements clk n)) P.
Proof.
  intros H. unfold assessCompliance, bind, new_Date, ret.
  destruct (assess_loop grant requirements tally_init clk (S n)) as [acc n'].
  cbn [fst fulfilled_with]. apply H. reflexivity.
Qed.

Lemma tally_init_partition : tally_partition tally_init.
Proof. repeat split. Qed.

Lemma tally_step_partition (acc : Tally) (st : ComplianceStatus.t) :
  tally_partition acc -> tally_partition (tally_step acc st).
Proof.
  intros (Hall & Hsev & Hm & Hl).
  unfold tally_partition. rewrite tally_step_statuses, !count_if_snoc, length_app.
  unfold is_medium_issue at 1, is_low_issue at 1, is_non_compliant,
    is_not_applicable at 1.
  unfold tally_step.
  destruct (ComplianceStatus.status st);
    cbn [compliantCount nonCompliantCount pendingCount highPriority
         mediumPriority lowPriority bump andb length];
    rewrite <- ?Hm, <- ?Hl; try (repeat split; lia).
  destruct (ComplianceStatus.severity st); cbn [is_high is_medium is_low bump];
    repeat split; lia.
Qed.

Lemma assess_loop_partition (grant : Grant.t) (clk : Clock)
  (requirements : list ComplianceRequirement.t) :
  forall acc n,
    tally_partition acc ->
    tally_partition (fst (assess_loop grant requirements acc clk n)).
Proof.
  induction requirements as [ | r rest IH ]; intros acc n H; [ exact H | ].
  cbn [assess_loop]. unfold bind.
  destruct (evaluateRequirement r grant clk n) as [st n'].
  apply IH, tally_step_partition, H.
Qed.

Lemma Forall2_evaluated_length (grant : Grant.t) (clk : Clock)
  (requirements : list ComplianceRequirement.t)
  (results : list ComplianceStatus.t) :
  Forall2 (evaluated grant clk) requirements results ->
  length results = length requirements.
Proof. intros H. symmetry. apply (Forall2_length _ _ _ H). Qed.

(** X21: the counters of the summary split the requirements.  Every
    requirement is counted once as compliant, non-compliant, pending or
    not applicable (for which there is no counter), and every
    non-compliant one once as a high, medium or low priority issue. *)
Theorem summary_counts_partition (grant : Grant.t)
  (requirements : list ComplianceRequirement.t) (clk : Clock) (n : nat) :
  fulfilled_with (fst (assessCompliance grant requirements clk n)) (fun s =>
    (ComplianceSummary.compliantRequirements s
     + ComplianceSummary.nonCompliantRequirements s
     + ComplianceSummary.pendingRequirements s
     + count_if is_not_applicable (ComplianceSummary.requirements s)
     = ComplianceSummary.totalRequirements s)%nat /\
    (ComplianceSummary.highPriorityIssues s
     + ComplianceSummary.mediumPriorityIssues s
     + ComplianceSummary.lowPriorityIssues s
     = ComplianceSummary.nonCompliantRequirements s)%nat /\
    length (ComplianceSummary.requirements s)
    = ComplianceSummary.totalRequirements s).
Proof.
  apply assessCompliance_fields. intros s acc total ->.
  cbn [ComplianceSummary.compliantRequirements
       ComplianceSummary.nonCompliantRequirements
       ComplianceSummary.pendingRequirements ComplianceSummary.requirements
       ComplianceSummary.totalRequirements ComplianceSummary.highPriorityIssues
       ComplianceSummary.mediumPriorityIssues
       ComplianceSummary.lowPriorityIssues].
  destruct (assess_loop_partition grant clk requirements tally_init (S n)
                                  tally_init_partition) as (Hall & Hsev & _).
  destruct (assess_loop_statuses grant clk requirements tally_init (S n))
    as (results & Heq & Hres).
  fold acc in Hall, Hsev, Heq. cbn [tally_init complianceStatuses app] in Heq.
  assert (Hlen : length (complianceStatuses acc) = total).
  { rewrite Heq. apply (Forall2_evaluated_length grant clk), Hres. }
  rewrite Hlen in Hall. repeat split; assumption.
Qed.

(** X22: the results come in the order of the requirements, one each, and
    carry the identifier, name, description, due date and severity of
    their requirement. *)
Theorem results_follow_requirements (grant : Grant.t)
  (requirements : list ComplianceRequirement.t) (clk : Clock) (n : nat) :
  fulfilled_with (fst (assessCompliance grant requirements clk n)) (fun s =>
    Forall2 (fun r st =>
               ComplianceStatus.requirementId st = ComplianceRequirement.id r /\
               ComplianceStatus.requirementName st = ComplianceRequirement.name r /\
               ComplianceStatus.description st
                 = ComplianceRequirement.description r /\
               ComplianceStatus.dueDate st = ComplianceRequirement.dueDate r /\
               ComplianceStatus.severity st = ComplianceRequirement.severity r)
            requirements (ComplianceSummary.requirements s)).
Proof.
  apply assessCompliance_fields. intros s acc total ->.
  cbn [ComplianceSummary.requirements].
  destruct (assess_loop_statuses grant clk requirements tally_init (S n))
    as (results & Heq & Hres).
  fold acc in Heq. cbn [tally_init complianceStatuses app] in Heq. rewrite Heq.
  eapply Forall2_impl; [ exact Hres | ].
  intros r st [k ->]. apply evaluateRequirement_copies.
Qed.

Lemma assess_loop_times (grant : Grant.t) (clk : Clock) (Hm : monotone clk)
  (requirements : list ComplianceRequirement.t) :
  forall acc n,
  exists results,
    complianceStatuses (fst (assess_loop grant requirements acc clk n))
      = complianceStatuses acc ++ results /\
    Forall (fun st => (clk n <= ComplianceStatus.lastChecked st)%Z) results /\
    StronglySorted Z.le (map ComplianceStatus.lastChecked results).
Proof.
  induction requirements as [ | r rest IH ]; intros acc n.
  - exists []. cbn. rewrite app_nil_r. repeat constructor.
  - cbn [assess_loop]. unfold bind.
    pose proof (evaluateRequirement_lastChecked r grant clk n) as Ht.
    pose proof (evaluateRequirement_readings r grant clk n) as Hn.
    destruct (evaluateRequirement r grant clk n) as [st n'].
    cbn [fst snd] in Ht, Hn.
    destruct (IH (tally_step acc st) n') as (results & Heq & Hall & Hsorted).
    assert (Hle : Forall (fun st' => (clk n <= ComplianceStatus.lastChecked st')%Z)
                         results).
    { eapply Forall_impl; [ exact Hall | ].
      intros st' H. cbn in H. pose proof (Hm n n' ltac:(lia)). lia. }
    exists (st :: results). split; [ | split ].
    + rewrite Heq, tally_step_statuses, <- app_assoc. reflexivity.
    + constructor; [ rewrite Ht; lia | exact Hle ].
    + cbn [map]. constructor; [ exact Hsorted | ].
      rewrite Ht. apply Forall_map. exact Hle.
Qed.

(** X23: with a clock that does not run backwards the time stamps are in
    order: [lastAssessment] is not after the [lastChecked] of any result,
    and the [lastChecked] times do not decrease along the results. *)
Theorem timestamps_are_ordered (grant : Grant.t)
  (requirements : list ComplianceRequirement.t) (clk : Clock) (n : nat) :
  monotone clk ->
  fulfilled_with (fst (assessCompliance grant requirements clk n)) (fun s =>
    Forall (fun st => (ComplianceSummary.lastAssessment s
                       <= ComplianceStatus.lastChecked st)%Z)
           (ComplianceSummary.requirements s) /\
    StronglySorted Z.le
      (map ComplianceStatus.lastChecked (ComplianceSummary.requirements s))).
Proof.
  intros Hm. apply assessCompliance_fields. intros s acc total ->.
  cbn [ComplianceSummary.requirements ComplianceSummary.lastAssessment].
  destruct (assess_loop_times grant clk Hm requirements tally_init (S n))
    as (results & Heq & Hall & Hsorted).
  fold acc in Heq. cbn [tally_init complianceStatuses app] in Heq. rewrite Heq.
  split; [ | exact Hsorted ].
  eapply Forall_impl; [ exact Hall | ].
  intros st H. cbn in H. pose proof (Hm n (S n) ltac:(lia)). lia.
Qed.

Lemma timestamps_are_ordered_witness :
  let grant := sample_grant 0 864000000 (JS.of_Z 1000) [] [] in
  let rules := [sample_requirement financial high None None;
                sample_requirement reporting low None None] in
  fulfilled_with
    (fst (assessCompliance grant rules (fun k => Z.of_nat k) 0%nat)) (fun s =>
    Forall (fun st => (ComplianceSummary.lastAssessment s
                       <= ComplianceStatus.lastChecked st)%Z)
           (ComplianceSummary.requirements s) /\
    StronglySorted Z.le
      (map ComplianceStatus.lastChecked (ComplianceSummary.requirements s))).
Proof.
  cbv zeta. apply timestamps_are_ordered. intros i j H. lia.
Defined.

Lemma count_if_none {A} (p : A -> bool) (l : list A) :
  Forall (fun x => p x = false) l -> count_if p l = 0%nat.
Proof.
  induction 1 as [ | x l Hx _ IH ]; [ reflexivity | ].
  cbn. rewrite Hx. exact IH.
Qed.

(** Rounding a mantissa that is not negative keeps the sign it is given. *)
Lemma binary_round_aux_sign (s : bool) (m e : Z) (l : location) :
  0 <= m ->
  match binary_round_aux JS.prec JS.emax s m e l with
  | S754_zero s' | S754_infinity s' | S754_finite s' _ _ => s' = s
  | S754_nan => False
  end.
Proof.
  intros H. pose proof (binary_round_aux_not_NaN s m e l H) as Hnan.
  unfold binary_round_aux in Hnan |- *.
  destruct (shr_fexp _ _ m e l) as [mrs' e'].
  destruct (shr_fexp _ _ _ e' loc_Exact) as [mrs'' e''].
  destruct (shr_m mrs'') as [ | p | p ]; [ reflexivity | | discriminate ].
  destruct (e'' <=? JS.emax - JS.prec); reflexivity.
Qed.

Lemma of_nat_sign (n : nat) :
  match JS.of_nat n with
  | S754_zero s | S754_infinity s | S754_finite s _ _ => s = false
  | S754_nan => False
  end.
Proof.
  unfold JS.of_nat, JS.of_Z, binary_normalize.
  destruct (Z.of_nat n) as [ | p | p ] eqn:E; [ reflexivity | | lia ].
  unfold binary_round. destruct (shl_align p 0 _) as [mz ez].
  apply binary_round_aux_sign. lia.
Qed.

(** No count is below three tenths of a count that is zero or more. *)
Lemma zero_not_above_share (total : nat) :
  JS.gt (JS.of_nat 0) (JS.mul (JS.of_nat total) (JS.literal 3 10)) = false.
Proof.
  pose proof (of_nat_sign total) as Hs.
  change (JS.literal 3 10) with (S754_finite false 5404319552844595 (-54)).
  destruct (JS.of_nat total) as [ s | s | | s m e ]; try contradiction; subst s;
    try reflexivity.
  unfold JS.mul, SFmul. cbn [xorb].
  pose proof (binary_round_aux_sign false
                (Z.pos (m * 5404319552844595)) (e + -54) loc_Exact
                ltac:(lia)) as Hr.
  destruct (binary_round_aux _ _ _ _ _ _) as [ s | s | | s m' e' ];
    try contradiction; subst s; reflexivity.
Qed.

(** X24: requirements that do not apply yet count against the rate but
    not against the status.  When no requirement is applicable yet, every
    result is [not-applicable] with no evidence, the three counters are 0
    and the overall status is [compliant]; yet the compliance rate of such
    a non-empty list (shorter than [2^53]) is 0, not 1. *)
Theorem future_requirements_only (grant : Grant.t)
  (requirements : list ComplianceRequirement.t) (clk : Clock) (n : nat) :
  Forall (always_future clk) requirements ->
  fulfilled_with (fst (assessCompliance grant requirements clk n)) (fun s =>
    Forall (fun st => ComplianceStatus.status st = not_applicable /\
                      ComplianceStatus.evidence st = [])
           (ComplianceSummary.requirements s) /\
    ComplianceSummary.compliantRequirements s = 0%nat /\
    ComplianceSummary.nonCompliantRequirements s = 0%nat /\
    ComplianceSummary.pendingRequirements s = 0%nat /\
    ComplianceSummary.status s = overall_compliant /\
    (requirements <> [] -> Z.of_nat (length requirements) < 2 ^ 53 ->
     ComplianceSummary.complianceRate s = JS.pos_zero)).
Proof.
  intros Hfuture. apply assessCompliance_fields. intros s acc total ->.
  cbn [ComplianceSummary.compliantRequirements
       ComplianceSummary.nonCompliantRequirements
       ComplianceSummary.pendingRequirements ComplianceSummary.requirements
       ComplianceSummary.status ComplianceSummary.complianceRate].
  destruct (assess_loop_statuses grant clk requirements tally_init (S n))
    as (results & Heq & Hres).
  destruct (assess_loop_counts grant clk requirements tally_init (S n)
                               tally_init_counts) as (Hc & Hn & Hp & Hh).
  fold acc in Heq, Hc, Hn, Hp, Hh.
  cbn [tally_init complianceStatuses app] in Heq. rewrite Heq in *.
  assert (Hall : Forall (fun st => ComplianceStatus.status st = not_applicable /\
                                   ComplianceStatus.evidence st = []) results).
  { clear - Hfuture Hres.
    induction Hres as [ | r st rs sts [k ->] _ IH ]; [ constructor | ].
    inversion Hfuture as [ | ? ? Hr Hrs ]; subst.
    constructor; [ | apply IH, Hrs ].
    apply evaluateRequirement_not_applicable, Hr. }
  assert (Hzero : forall p,
             (forall st, ComplianceStatus.status st = not_applicable ->
                         p st = false) ->
             count_if p results = 0%nat).
  { intros p Hp'. apply count_if_none.
    eapply Forall_impl; [ exact Hall | ]. intros st [Hst _]. apply Hp', Hst. }
  assert (Ec : compliantCount acc = 0%nat).
  { rewrite Hc. apply Hzero. intros st E. unfold is_compliant. rewrite E.
    reflexivity. }
  assert (En : nonCompliantCount acc = 0%nat).
  { rewrite Hn. apply Hzero. intros st E. unfold is_non_compliant. rewrite E.
    reflexivity. }
  assert (Ep : pendingCount acc = 0%nat).
  { rewrite Hp. apply Hzero. intros st E. unfold is_pending. rewrite E.
    reflexivity. }
  rewrite Ec, En, Ep.
  split; [ exact Hall | ]. repeat (split; [ reflexivity | ]). split.
  - unfold overall. cbn [Nat.ltb Nat.leb]. rewrite zero_not_above_share.
    reflexivity.
  - intros Hne Hb. subst total.
    destruct (of_nat_cases (length requirements) Hb)
      as [[E _] | (Hpos & m & e & E)].
    + destruct requirements; [ contradiction | discriminate ].
    + destruct (Nat.ltb_spec 0 (length requirements)); [ | lia ].
      rewrite E. reflexivity.
Qed.

Lemma future_requirements_only_witness :
  let grant := sample_grant 0 864000000 (JS.of_Z 1000) [] [] in
  let rules := [sample_requirement financial high (Some 100%Z) None] in
  fulfilled_with (fst (assessCompliance grant rules (frozen 5) 0%nat)) (fun s =>
    ComplianceSummary.status s = overall_compliant /\
    ComplianceSummary.complianceRate s = JS.pos_zero).
Proof.
  cbv zeta.
  pose proof (future_requirements_only
                (sample_grant 0 864000000 (JS.of_Z 1000) [] [])
                [sample_requirement financial high (Some 100%Z) None]
                (frozen 5) 0%nat) as H.
  assert (Hf : Forall (always_future (frozen 5))
                      [sample_requirement financial high (Some 100%Z) None])
    by (repeat constructor).
  specialize (H Hf).
  destruct (fst (assessCompliance _ _ _ _)) as [s | e]; [ | exact H ].
  cbn [fulfilled_with] in H |- *.
  destruct H as (_ & _ & _ & _ & Hstatus & Hrate).
  split; [ exact Hstatus | apply Hrate; [ discriminate | cbn; lia ] ].
Defined.

(** *** The order of the requirements *)

Lemma evaluateRequirement_frozen (r : ComplianceRequirement.t)
  (grant : Grant.t) (instant : Date) (k : nat) :
  fst (evaluateRequirement r grant (frozen instant) k)
  = fst (evaluateRequirement r grant (frozen instant) 0%nat).
Proof.
  unfold evaluateRequirement, bind, new_Date, frozen.
  destruct (not_yet_applicable r instant); [ reflexivity | ].
  destruct (ComplianceRequirement.type r); unfold ret; try reflexivity.
  unfold checkReporting, bind, new_Date, ret.
  destruct (ComplianceRequirement.dueDate r) as [d | ]; [ | reflexivity ].
  destruct (d <? instant); [ | reflexivity ].
  destruct (List.find _ (Grant.reports grant)); reflexivity.
Qed.

Lemma assess_loop_frozen (grant : Grant.t) (instant : Date)
  (requirements : list ComplianceRequirement.t) :
  forall acc n,
    complianceStatuses (fst (assess_loop grant requirements acc (frozen instant) n))
    = complianceStatuses acc ++
      map (fun r => fst (evaluateRequirement r grant (frozen instant) 0%nat))
          requirements.
Proof.
  induction requirements as [ | r rest IH ]; intros acc n.
  - cbn. rewrite app_nil_r. reflexivity.
  - cbn [assess_loop]. unfold bind.
    pose proof (evaluateRequirement_frozen r grant instant n) as E.
    destruct (evaluateRequirement r grant (frozen instant) n) as [st n'].
    cbn [fst] in E. rewrite IH, tally_step_statuses, <- app_assoc, E.
    reflexivity.
Qed.

Lemma count_if_Permutation {A} (p : A -> bool) (l l' : list A) :
  l ≡ₚ l' -> count_if p l = count_if p l'.
Proof.
  induction 1 as [ | x l l' _ IH | x y l | l l' l'' _ IH1 _ IH2 ]; cbn.
  - reflexivity.
  - rewrite IH. reflexivity.
  - destruct (p x), (p y); reflexivity.
  - congruence.
Qed.

(** X25: the requirements are evaluated independently of one another.
    While the clock shows one instant, assessing the same requirements in
    another order gives the same results in that order, and the same
    counters, compliance rate and overall status. *)
Theorem assessment_ignores_order (grant : Grant.t)
  (requirements requirements' : list ComplianceRequirement.t)
  (instant : Date) (n n' : nat) :
  requirements ≡ₚ requirements' ->
  fulfilled_with (fst (assessCompliance grant requirements (frozen instant) n))
    (fun s =>
  fulfilled_with (fst (assessCompliance grant requirements' (frozen instant) n'))
    (fun s' =>
       ComplianceSummary.requirements s ≡ₚ ComplianceSummary.requirements s' /\
       ComplianceSummary.status s' = ComplianceSummary.status s /\
       ComplianceSummary.complianceRate s' = ComplianceSummary.complianceRate s /\
       ComplianceSummary.totalRequirements s'
         = ComplianceSummary.totalRequirements s /\
       ComplianceSummary.compliantRequirements s'
         = ComplianceSummary.compliantRequirements s /\
       ComplianceSummary.nonCompliantRequirements s'
         = ComplianceSummary.nonCompliantRequirements s /\
       ComplianceSummary.pendingRequirements s'
         = ComplianceSummary.pendingRequirements s /\
       ComplianceSummary.highPriorityIssues s'
         = ComplianceSummary.highPriorityIssues s /\
       ComplianceSummary.mediumPriorityIssues s'
         = ComplianceSummary.mediumPriorityIssues s /\
       ComplianceSummary.lowPriorityIssues s'
         = ComplianceSummary.lowPriorityIssues s)).
Proof.
  intros Hperm.
  apply assessCompliance_fields. intros s acc total ->.
  apply assessCompliance_fields. intros s' acc' total' ->.
  cbn [ComplianceSummary.requirements ComplianceSummary.status
       ComplianceSummary.complianceRate ComplianceSummary.totalRequirements
       ComplianceSummary.compliantRequirements
       ComplianceSummary.nonCompliantRequirements
       ComplianceSummary.pendingRequirements
       ComplianceSummary.highPriorityIssues
       ComplianceSummary.mediumPriorityIssues
       ComplianceSummary.lowPriorityIssues].
  destruct (assess_loop_counts grant (frozen instant) requirements tally_init
              (S n) tally_init_counts) as (Hc & Hn & Hp & Hh).
  destruct (assess_loop_counts grant (frozen instant) requirements' tally_init
              (S n') tally_init_counts) as (Hc' & Hn' & Hp' & Hh').
  destruct (assess_loop_partition grant (frozen instant) requirements tally_init
              (S n) tally_init_partition) as (_ & _ & Hm & Hl).
  destruct (assess_loop_partition grant (frozen instant) requirements' tally_init
              (S n') tally_init_partition) as (_ & _ & Hm' & Hl').
  pose proof (assess_loop_frozen grant instant requirements tally_init (S n))
    as Hs.
  pose proof (assess_loop_frozen grant instant requirements' tally_init (S n'))
    as Hs'.
  fold acc in Hc, Hn, Hp, Hh, Hm, Hl, Hs.
  fold acc' in Hc', Hn', Hp', Hh', Hm', Hl', Hs'.
  cbn [tally_init complianceStatuses app] in Hs, Hs'.
  assert (Hres : complianceStatuses acc ≡ₚ complianceStatuses acc').
  { rewrite Hs, Hs'. apply fmap_Permutation, Hperm. }
  assert (Htotal : total' = total).
  { subst total total'. symmetry. apply Permutation_length, Hperm. }
  assert (Ec : compliantCount acc' = compliantCount acc).
  { rewrite Hc, Hc'. symmetry. apply count_if_Permutation, Hres. }
  assert (En : nonCompliantCount acc' = nonCompliantCount acc).
  { rewrite Hn, Hn'. symmetry. apply count_if_Permutation, Hres. }
  assert (Ep : pendingCount acc' = pendingCount acc).
  { rewrite Hp, Hp'. symmetry. apply count_if_Permutation, Hres. }
  assert (Eh : highPriority acc' = highPriority acc).
  { rewrite Hh, Hh'. symmetry. apply count_if_Permutation, Hres. }
  assert (Em : mediumPriority acc' = mediumPriority acc).
  { rewrite Hm, Hm'. symmetry. apply count_if_Permutation, Hres. }
  assert (El : lowPriority acc' = lowPriority acc).
  { rewrite Hl, Hl'. symmetry. apply count_if_Permutation, Hres. }
  rewrite Htotal, Ec, En, Ep, Eh, Em, El.
  split; [ exact Hres | ]. repeat split.
Qed.

Lemma assessment_ignores_order_witness :
  let grant := sample_grant 0 864000000 (JS.of_Z 1000) [] [] in
  let a := sample_requirement financial high None None in
  let b := sample_requirement documentation low None
             (Some (required_documents ["audit"])) in
  fulfilled_with (fst (assessCompliance grant [a; b] (frozen 5) 0%nat)) (fun s =>
  fulfilled_with (fst (assessCompliance grant [b; a] (frozen 5) 0%nat)) (fun s' =>
    ComplianceSummary.status s' = ComplianceSummary.status s /\
    ComplianceSummary.complianceRate s' = ComplianceSummary.complianceRate s)).
Proof.
  cbv zeta.
  pose proof (assessment_ignores_order
                (sample_grant 0 864000000 (JS.of_Z 1000) [] [])
                [sample_requirement financial high None None;
                 sample_requirement documentation low None
                   (Some (required_documents ["audit"]))]
                [sample_requirement documentation low None
                   (Some (required_documents ["audit"]));
                 sample_requirement financial high None None]
                5%Z 0%nat 0%nat (Permutation_swap _ _ _)) as H.
  destruct (fst (assessCompliance _ [_; _] _ _)) as [s | e]; [ | exact H ].
  cbn [fulfilled_with] in H |- *.
  destruct (fst (assessCompliance _ _ _ _)) as [s' | e']; [ | exact H ].
  cbn [fulfilled_with] in H |- *.
  destruct H as (_ & Hstatus & Hrate & _). split; assumption.
Defined.

End Summary.

(* --------------------------------------------------------------------- *)
(** ** Thresholds and shared quantities *)
(* --------------------------------------------------------------------- *)

Section Thresholds.

Lemma strict_eq_excludes (a b : JS.number) :
  JS.strict_eq a b = true -> JS.lt a b = false /\ JS.gt a b = false.
Proof.
  unfold JS.strict_eq, JS.lt, JS.gt, SFeqb, SFltb.
  rewrite (SFcompare_antisym a b).
  destruct (SFcompare a b) as [ [ | | ] | ]; try discriminate.
  intros _. split; reflexivity.
Qed.

Lemma strict_eq_finite (x : JS.number) (s : bool) (m : positive) (e : Z) :
  JS.strict_eq x (S754_finite s m e) = true -> x = S754_finite s m e.
Proof.
  destruct x as [ sx | [ | ] | | sx mx ex ]; unfold JS.strict_eq, SFeqb; cbn;
    try (destruct s; discriminate).
  destruct sx, s; try discriminate;
    destruct (Z.compare_spec ex e) as [ -> | | ]; try discriminate;
    destruct (Pos.compare_cont Eq mx m) eqn:E; try discriminate;
    apply Pos.compare_eq in E; subst; reflexivity.
Qed.

(** X26: the financial check is blind to the approval status and to
    everything else but the amounts: two grants with the same funding and
    the same expenditure amounts in the same order get the same status and
    the same evidence. *)
Theorem checkFinancial_reads_amounts_only (r : ComplianceRequirement.t)
  (grant grant' : Grant.t) (evidence : list Evidence) :
  Grant.totalFunding grant = Grant.totalFunding grant' ->
  map Expenditure.amount (Grant.expenditures grant)
    = map Expenditure.amount (Grant.expenditures grant') ->
  checkFinancial r grant evidence = checkFinancial r grant' evidence.
Proof.
  intros Hf Ha. unfold checkFinancial.
  rewrite (total_expenditure_amounts grant grant' Ha), Hf. reflexivity.
Qed.

Lemma checkFinancial_reads_amounts_only_witness :
  let rule := sample_requirement financial high None None in
  checkFinancial rule
    (sample_grant 0 864000000 (JS.of_Z 1000)
       [sample_expenditure 700 exp_rejected] []) []
  = checkFinancial rule
      (sample_grant 5 10 (JS.of_Z 1000) [sample_expenditure 700 exp_approved] [])
      [].
Proof.
  cbv zeta. apply checkFinancial_reads_amounts_only; reflexivity.
Defined.

(** X27: for a grant with positive funding the utilization that the
    financial check compares is the [utilizationRate] that
    [calculateProgress] reports: with a maximum that is set to a number
    other than zero and NaN, or absent (then 1), the requirement is
    [non-compliant] exactly when that rate exceeds the maximum. *)
Theorem checkFinancial_compares_utilizationRate (r : ComplianceRequirement.t)
  (grant : Grant.t) (evidence : list Evidence) (clk : Clock) (n : nat) :
  let limit :=
    match parameter Parameters.maxUtilizationRate r with
    | Some rate => rate
    | None => JS.of_Z 1
    end in
  JS.gt (Grant.totalFunding grant) (JS.of_Z 0) = true ->
  JS.truthy limit = true ->
  fulfilled_with (fst (calculateProgress grant clk n)) (fun m =>
    fst (checkFinancial r grant evidence) =
      if JS.gt (GrantProgressMetrics.utilizationRate m) limit
      then non_compliant else compliant).
Proof.
  cbv zeta. intros Hpos Hlimit.
  apply calculateProgress_unfold. intros m _ Hrate _ _ _ _ _.
  rewrite Hrate, Hpos, checkFinancial_status.
  unfold JS.or_default.
  destruct (parameter Parameters.maxUtilizationRate r) as [x | ];
    [ rewrite Hlimit | ]; reflexivity.
Qed.

Lemma checkFinancial_compares_utilizationRate_witness :
  let rule := sample_requirement financial high None
                (Some (max_utilization (JS.literal 9 10))) in
  let grant := sample_grant 0 864000000 (JS.of_Z 100000)
                 [sample_expenditure 95000 exp_pending] [] in
  fulfilled_with (fst (calculateProgress grant (frozen 5) 0%nat)) (fun m =>
    fst (checkFinancial rule grant []) =
      if JS.gt (GrantProgressMetrics.utilizationRate m) (JS.literal 9 10)
      then non_compliant else compliant).
Proof.
  cbv zeta.
  apply (checkFinancial_compares_utilizationRate
           (sample_requirement financial high None
              (Some (max_utilization (JS.literal 9 10))))
           (sample_grant 0 864000000 (JS.of_Z 100000)
              [sample_expenditure 95000 exp_pending] [])
           [] (frozen 5) 0%nat); vm_compute; reflexivity.
Defined.

(** X28: the limits themselves are allowed.  A utilization equal to the
    maximum is [compliant], and so is a grant each of whose KPIs with a
    target reaches exactly the minimum achievement. *)
Theorem limits_are_inclusive (r : ComplianceRequirement.t) (grant : Grant.t)
  (evidence : list Evidence) :
  (JS.strict_eq (JS.div (total_expenditure grant) (Grant.totalFunding grant))
                (JS.or_default (parameter Parameters.maxUtilizationRate r)
                               (JS.of_Z 1)) = true ->
   fst (checkFinancial r grant evidence) = compliant) /\
  (Forall (fun kpi =>
             has_target kpi = true ->
             JS.strict_eq (JS.div (KPI.currentValue kpi) (KPI.targetValue kpi))
                          (JS.or_default
                             (parameter Parameters.minAchievementRate r)
                             (JS.literal 8 10)) = true)
          (Grant.kpis grant) ->
   fst (checkPerformance r grant evidence) = compliant).
Proof.
  split.
  - intros H. rewrite checkFinancial_status.
    destruct (strict_eq_excludes _ _ H) as [_ ->]. reflexivity.
  - intros H. unfold checkPerformance. rewrite checkPerformance_loop_status.
    set (minAchievement := JS.or_default _ _) in *.
    assert (E : existsb (breaches minAchievement) (Grant.kpis grant) = false).
    { induction H as [ | kpi l Hk _ IH ]; [ reflexivity | ].
      cbn [existsb]. rewrite IH, orb_false_r. unfold breaches.
      unfold has_target in Hk.
      destruct (negb (JS.strict_eq (KPI.targetValue kpi) (JS.of_Z 0)));
        [ | reflexivity ].
      destruct (strict_eq_excludes _ _ (Hk eq_refl)) as [-> _]. reflexivity. }
    rewrite E. reflexivity.
Qed.

Lemma limits_are_inclusive_witness :
  let rule := sample_requirement financial high None
                (Some (max_utilization (JS.literal 1 2))) in
  let grant := sample_grant 0 864000000 (JS.of_Z 100)
                 [sample_expenditure 50 exp_approved]
                 [ {| KPI.name := "served"; KPI.targetValue := JS.of_Z 10;
                      KPI.currentValue := JS.of_Z 8 |} ] in
  fst (checkFinancial rule grant []) = compliant /\
  fst (checkPerformance rule grant []) = compliant.
Proof.
  cbv zeta. split.
  - eapply limits_are_inclusive. vm_compute. reflexivity.
  - eapply limits_are_inclusive. repeat constructor.
Defined.

(** X29: the limits of the risk classes belong to the higher class: a
    mean deviation of exactly 0.2 is [medium] and one of exactly 0.4 is
    [high]. *)
Theorem risk_limits_belong_to_higher_level
  (timelineProgress utilizationRate milestoneCompletionRate : JS.number) :
  let mean :=
    JS.div (JS.add (JS.Math_abs (JS.sub timelineProgress milestoneCompletionRate))
                   (JS.Math_abs (JS.sub timelineProgress utilizationRate)))
           (JS.of_Z 2) in
  let level :=
    calculateRiskLevel timelineProgress utilizationRate milestoneCompletionRate in
  (JS.strict_eq mean (JS.literal 2 10) = true -> level = risk_medium) /\
  (JS.strict_eq mean (JS.literal 4 10) = true -> level = risk_high).
Proof.
  cbv zeta. unfold calculateRiskLevel, riskScore.
  set (mean := JS.div _ _).
  change (JS.literal 2 10) with (S754_finite false 7205759403792794 (-55)).
  change (JS.literal 4 10) with (S754_finite false 7205759403792794 (-54)).
  split; intros H; apply strict_eq_finite in H; rewrite H; reflexivity.
Qed.

Lemma risk_limits_belong_to_higher_level_witness :
  calculateRiskLevel (JS.literal 4 10) (JS.of_Z 0) (JS.literal 4 10) = risk_medium.
Proof.
  apply (risk_limits_belong_to_higher_level
           (JS.literal 4 10) (JS.of_Z 0) (JS.literal 4 10)).
  vm_compute. reflexivity.
Defined.

(** X30: the milestone counts of [calculateProgress] follow
    [addMilestone]: the total grows by one, the number completed grows by
    one exactly when the new milestone is completed, and the number
    completed never exceeds the total. *)
Theorem milestone_counts_follow_addMilestone (milestone : Milestone.t)
  (this : Grant.t) (clk clk' : Clock) (n k k' : nat) :
  fulfilled_with (fst (calculateProgress this clk' k)) (fun before =>
    fulfilled_with
      (fst (calculateProgress (fst (Grant.addMilestone milestone this clk n))
                              clk' k'))
      (fun after =>
         GrantProgressMetrics.totalMilestones after
           = S (GrantProgressMetrics.totalMilestones before) /\
         GrantProgressMetrics.milestonesCompleted after
           = bump (is_completed milestone)
                  (GrantProgressMetrics.milestonesCompleted before) /\
         (GrantProgressMetrics.milestonesCompleted after
          <= GrantProgressMetrics.totalMilestones after)%nat)).
Proof.
  apply calculateProgress_unfold. intros before _ _ Hbt Hbc _ _ _.
  apply calculateProgress_unfold. intros after _ _ Hat Hac _ _ _.
  rewrite Hat, Hac, Hbt, Hbc.
  unfold Grant.addMilestone, bind, new_Date, ret. cbn [fst Grant.milestones].
  rewrite filter_snoc, !length_app. cbn [length].
  repeat split.
  - lia.
  - destruct (is_completed milestone); cbn [length bump]; lia.
  - pose proof (filter_length_le is_completed (Grant.milestones this)).
    destruct (is_completed milestone); cbn [length]; lia.
Qed.

End Thresholds.
